(** * AuditApp: OTP approval workflow and counting sessions

    A shallow embedding of the store operations of
    [src/lib/supabase.ts] and of the handlers of the worker, team
    leader, admin and vendor dashboards, over the tables declared in
    [supabase/migrations/20250812045819_withered_frost.sql].

    Conventions of the embedding:
    - a [uuid] is a natural number; the store draws a fresh one for each
      inserted row (the column default [uuid_generate_v4()]);
    - a timestamp is an integer number of milliseconds since the epoch
      ([Date.now()], [getTime()]); a [date] column is a day number;
    - a JavaScript number is a binary64 number, held as the rational it
      denotes; [+], [*] and [/] on numbers round their exact result to
      the nearest binary64 number ([JS.fl]); the exponent range is left
      unbounded (no overflow to infinity, no subnormal, no NaN);
    - the integers of the program (row counts, quantities, timestamps,
      their sums and differences) are kept in [Z]: binary64 holds every
      integer of magnitude below 2^53 and adds them exactly;
    - [Math.random()] and the clock are inputs of the operations that
      read them;
    - a query is answered by the store at once and the network never
      fails: the only errors are the ones the store itself raises
      (a [.single()] that does not find exactly one row, a constraint of
      the migration that rejects a row, a number that does not fit an
      [integer] column);
    - an [integer] column is checked where a handler writes a number
      that was typed or drawn, or a sum with such a number
      ([confirmQuantity]); the other numbers a handler writes there are
      the totals of a session row as read from the store, a number of
      minutes, a score and the ranking 1;
    - the client holds the anonymous key, so row level security is in
      force: the migration grants it SELECT, INSERT and UPDATE on
      [users], and every command on the other tables written below;
    - the worker's page loads its data when it is mounted, with the
      state of a new component, and again at the end of
      [confirmQuantity] and of [endCounting], with the state it then
      has;
    - the [created_at] columns are read by no handler below and are
      left out. *)

From Stdlib Require Import ZArith QArith Qround Qpower List String Ascii Bool.
From Stdlib Require Import Lia Lqa SpecFloat Permutation.
Import ListNotations.

Local Open Scope Z_scope.

(** ** JavaScript numbers *)

Module JS.

Definition pow2 (e : Z) : Q := (inject_Z 2 ^ e)%Q.

(** [ilog2 x] is the integer [k] with [2^k <= x < 2^(k+1)], for
    [0 < x]. *)
Definition ilog2 (x : Q) : Z :=
  let k := Z.log2 (Qnum x) - Z.log2 (Zpos (Qden x)) in
  if Qle_bool (pow2 k) x then k else k - 1.

(** The integer nearest to [y], a tie to the even one. *)
Definition rne (y : Q) : Z :=
  let f := Qfloor y in
  match (y - inject_Z f ?= 1 # 2)%Q with
  | Lt => f
  | Gt => f + 1
  | Eq => if Z.even f then f else f + 1
  end.

Definition fl_pos (x : Q) : Q :=
  let e := ilog2 x - 52 in
  (inject_Z (rne (x / pow2 e)) * pow2 e)%Q.

(** The binary64 number nearest to [x]: 53 significant bits, a tie to
    the even mantissa. *)
Definition fl (x : Q) : Q :=
  match Qnum x with
  | Z0 => 0%Q
  | Zpos _ => fl_pos x
  | Zneg _ => (- fl_pos (- x))%Q
  end.

(** [x] is a binary64 number. *)
Definition is_double (x : Q) : Prop := (fl x == x)%Q.

(** [x + y], [x * y] and [x / y] on numbers: the exact result, rounded. *)
Definition add (x y : Q) : Q := fl (x + y).
Definition mul (x y : Q) : Q := fl (x * y).
Definition div (x y : Q) : Q := fl (x / y).

Definition Math_floor (x : Q) : Z := Qfloor x.

(** [Math.round] takes the nearest integer, a tie towards +infinity. *)
Definition Math_round (x : Q) : Z := Qfloor (x + (1 # 2)).

Definition digit (d : Z) : ascii := ascii_of_nat (48 + Z.to_nat d).

Fixpoint digits (fuel : nat) (n : Z) (acc : string) : string :=
  match fuel with
  | O => acc
  | S fuel' =>
      let acc' := String (digit (n mod 10)) acc in
      if n <? 10 then acc' else digits fuel' (n / 10) acc'
  end.

(** [Number.prototype.toString] at an integer: its decimal numeral. *)
Definition toString (n : Z) : string :=
  if n <? 0
  then String "-" (digits (S (Z.to_nat (Z.log2 (- n)))) (- n) EmptyString)
  else digits (S (Z.to_nat (Z.log2 n))) n EmptyString.

Definition is_digit (c : ascii) : bool :=
  let k := nat_of_ascii c in (48 <=? k)%nat && (k <=? 57)%nat.

Fixpoint all_digits (s : string) : bool :=
  match s with
  | EmptyString => true
  | String c s' => is_digit c && all_digits s'
  end.

End JS.

(** The same operations in the standard library's specification of
    IEEE 754 binary64, to compare [JS.fl] with. *)
Module IEEE754.

Definition of_Z (z : Z) : spec_float := binary_normalize 53 1024 z 0 false.

Definition value (f : spec_float) : option Q :=
  match f with
  | S754_zero _ => Some 0%Q
  | S754_finite s m e =>
      Some ((if s then - (1) else 1) * inject_Z (Zpos m) * JS.pow2 e)%Q
  | S754_infinity _ | S754_nan => None
  end.

Definition add (x y : spec_float) : spec_float := SFadd 53 1024 x y.
Definition mul (x y : spec_float) : spec_float := SFmul 53 1024 x y.
Definition div (x y : spec_float) : spec_float := SFdiv 53 1024 x y.

Definition agrees (f : spec_float) (x : Q) : bool :=
  match value f with
  | Some v => Qeq_bool v x
  | None => false
  end.

End IEEE754.

(** ** Rows of the tables ([src/types/index.ts]) *)

Definition uuid := nat.
Bind Scope nat_scope with uuid.
Definition timestamp := Z.

Inductive Role := admin | vendor | team_leader | worker.

Module User.
Record t := mk {
  id : uuid;
  username : string;
  role : Role;
  vendor_id : option uuid;
  team_leader_id : option uuid;
  is_approved : bool;
  warehouse_name : option string
}.

Definition set_is_approved (b : bool) (u : t) : t :=
  mk (id u) (username u) (role u) (vendor_id u) (team_leader_id u) b
     (warehouse_name u).
End User.

Module BinMaster.
Record t := mk {
  id : uuid;
  bin_code : string;
  warehouse_name : string;
  location : string
}.
End BinMaster.

Inductive SessionStatus := active | completed.

Module CountingSession.
Record t := mk {
  id : uuid;
  worker_id : uuid;
  start_time : timestamp;
  end_time : option timestamp;
  status : SessionStatus;
  total_bins_counted : Z;
  total_qty_counted : Z
}.

Definition is_active (s : t) : bool :=
  match status s with active => true | completed => false end.

(** [update({ end_time, status: 'completed' })] *)
Definition close (endTime : timestamp) (s : t) : t :=
  mk (id s) (worker_id s) (start_time s) (Some endTime) completed
     (total_bins_counted s) (total_qty_counted s).

(** [update({ total_bins_counted, total_qty_counted })] *)
Definition set_totals (bins qty : Z) (s : t) : t :=
  mk (id s) (worker_id s) (start_time s) (end_time s) (status s) bins qty.
End CountingSession.

Module CountingRecord.
Record t := mk {
  id : uuid;
  session_id : uuid;
  warehouse_name : string;
  date : Z;
  team_leader_name : string;
  username : string;
  bin_no : string;
  qty_counted : Z;
  qty_recounted : option Z;
  qty_as_per_books : option Z;
  difference : option Z;
  reason_for_difference : option string
}.
End CountingRecord.

Module WorkerEfficiency.
Record t := mk {
  id : uuid;
  warehouse_name : string;
  date : Z;
  username : string;
  bins_counted : Z;
  qty_counted : Z;
  time_taken_minutes : Z;
  efficiency_score : Z;
  ranking : Z
}.
End WorkerEfficiency.

Module OTPRequest.
Record t := mk {
  id : uuid;
  worker_id : uuid;
  team_leader_id : uuid;
  otp_code : string;
  is_used : bool;
  expires_at : timestamp
}.

(** [update({ is_used: true })] *)
Definition set_is_used (b : bool) (r : t) : t :=
  mk (id r) (worker_id r) (team_leader_id r) (otp_code r) b (expires_at r).
End OTPRequest.

(** ** The store *)

Record Store := mkStore {
  users : list User.t;
  otp_requests : list OTPRequest.t;
  counting_sessions : list CountingSession.t;
  counting_records : list CountingRecord.t;
  worker_efficiency : list WorkerEfficiency.t
}.

Definition empty_store : Store := mkStore [] [] [] [] [].

(** What a call can fail with: the store's own errors, and the one
    [Error] that [verifyOTP] throws. *)
Inductive error :=
| NotExactlyOneRow        (* [.single()] on zero or several rows *)
| ForeignKeyViolation
| NotNullViolation
| UniqueViolation
| NumericValueOutOfRange  (* 22003: [integer] is a 32-bit column *)
| InvalidOrExpiredOTP.    (* [new Error('Invalid or expired OTP')] *)

Inductive result (A : Type) :=
| Ok (data : A)
| Err (e : error).
Arguments Ok {A} data.
Arguments Err {A} e.

(** [.single()]: the row when the query found exactly one, an error
    otherwise. *)
Definition single {A : Type} (rows : list A) : result A :=
  match rows with
  | [r] => Ok r
  | _ => Err NotExactlyOneRow
  end.

(** The values an [integer] column holds. *)
Definition in_integer (z : Z) : bool :=
  (- 2 ^ 31 <=? z) && (z <=? 2 ^ 31 - 1).

(** A key no row of the table carries. *)
Definition fresh_id (ids : list uuid) : uuid := S (fold_right Nat.max O ids).

(** [.update(f).eq('id', k)] *)
Definition update_where_id {A : Type} (key : A -> uuid) (k : uuid)
    (f : A -> A) (rows : list A) : list A :=
  map (fun r => if Nat.eqb (key r) k then f r else r) rows.

Definition has_user (k : uuid) (st : Store) : bool :=
  existsb (fun u => Nat.eqb (User.id u) k) (users st).

Definition has_session (k : uuid) (st : Store) : bool :=
  existsb (fun s => Nat.eqb (CountingSession.id s) k) (counting_sessions st).

Definition set_users (us : list User.t) (st : Store) : Store :=
  mkStore us (otp_requests st) (counting_sessions st) (counting_records st)
          (worker_efficiency st).

Definition set_otp_requests (rs : list OTPRequest.t) (st : Store) : Store :=
  mkStore (users st) rs (counting_sessions st) (counting_records st)
          (worker_efficiency st).

Definition set_counting_sessions (ss : list CountingSession.t) (st : Store)
    : Store :=
  mkStore (users st) (otp_requests st) ss (counting_records st)
          (worker_efficiency st).

Definition set_counting_records (rs : list CountingRecord.t) (st : Store)
    : Store :=
  mkStore (users st) (otp_requests st) (counting_sessions st) rs
          (worker_efficiency st).

Definition set_worker_efficiency (es : list WorkerEfficiency.t) (st : Store)
    : Store :=
  mkStore (users st) (otp_requests st) (counting_sessions st)
          (counting_records st) es.

(** ** Writes to [users] *)

Definition option_uuid_eqb (o : option uuid) (k : uuid) : bool :=
  match o with Some j => Nat.eqb j k | None => false end.

Definition references_ok (o : option uuid) (st : Store) : bool :=
  match o with Some k => has_user k st | None => true end.

(** [insert] into [users]: [username] is [UNIQUE]; [vendor_id] and
    [team_leader_id] reference [users]. *)
Definition insert_user (username : string) (role : Role)
    (vendorId teamLeaderId : option uuid) (warehouseName : option string)
    (isApproved : bool) (st : Store) : result User.t * Store :=
  if existsb (fun u => String.eqb (User.username u) username) (users st)
  then (Err UniqueViolation, st)
  else if references_ok vendorId st && references_ok teamLeaderId st then
    let row := User.mk (fresh_id (map User.id (users st))) username role
                 vendorId teamLeaderId isApproved warehouseName in
    (Ok row, set_users (users st ++ [row]) st)
  else (Err ForeignKeyViolation, st).

(** [.delete().eq('id', k)] on [users]. The migration enables row level
    security on [users] and states policies for SELECT, INSERT and
    UPDATE only: no row is visible to a DELETE, which removes nothing
    and reports no error. *)
Definition delete_user (k : uuid) (st : Store) : result unit * Store :=
  (Ok tt, st).

(** ** Admin and vendor dashboards *)

Module Admin.

(** [handleCreateUser]: a rejected insert is thrown, caught and
    logged. *)
Definition handleCreateUser (username : string) (role : Role)
    (warehouse_name : string) (st : Store) : Store :=
  snd (insert_user username role None None (Some warehouse_name) true st).

Definition toggleUserApproval (userId : uuid) (currentStatus : bool)
    (st : Store) : Store :=
  set_users
    (update_where_id User.id userId
       (User.set_is_approved (negb currentStatus)) (users st)) st.

End Admin.

Module Vendor.

Definition approveTeamLeader (teamLeaderId : uuid) (st : Store) : Store :=
  set_users
    (update_where_id User.id teamLeaderId (User.set_is_approved true)
       (users st)) st.

Definition rejectTeamLeader (teamLeaderId : uuid) (st : Store) : Store :=
  snd (delete_user teamLeaderId st).

End Vendor.

(** ** OTP issuance and verification ([src/lib/supabase.ts]) *)

(** [Math.floor(100000 + Math.random() * 900000).toString()] *)
Definition generateOTP (rnd : Q) : string :=
  JS.toString
    (JS.Math_floor
       (JS.add (inject_Z 100000) (JS.mul rnd (inject_Z 900000)))).

(** [insert] into [otp_requests]: both ids reference [users]; [is_used]
    takes its column default [false]. *)
Definition insert_otp_request (workerId teamLeaderId : uuid)
    (otpCode : string) (expiresAt : timestamp) (st : Store)
    : result OTPRequest.t * Store :=
  if has_user workerId st && has_user teamLeaderId st then
    let row := OTPRequest.mk (fresh_id (map OTPRequest.id (otp_requests st)))
                 workerId teamLeaderId otpCode false expiresAt in
    (Ok row, set_otp_requests (otp_requests st ++ [row]) st)
  else (Err ForeignKeyViolation, st).

Definition createOTPRequest (now : timestamp) (rnd : Q)
    (workerId teamLeaderId : uuid) (st : Store)
    : result OTPRequest.t * Store :=
  let otpCode := generateOTP rnd in
  let expiresAt := now + 10 * 60 * 1000 in
  insert_otp_request workerId teamLeaderId otpCode expiresAt st.

(** The filter of [verifyOTP]'s query. *)
Definition eligible (now : timestamp) (workerId : uuid) (otpCode : string)
    (r : OTPRequest.t) : bool :=
  Nat.eqb (OTPRequest.worker_id r) workerId
  && String.eqb (OTPRequest.otp_code r) otpCode
  && negb (OTPRequest.is_used r)
  && (now <? OTPRequest.expires_at r).

Definition verifyOTP (now : timestamp) (workerId : uuid) (otpCode : string)
    (st : Store) : result OTPRequest.t * Store :=
  match single (filter (eligible now workerId otpCode) (otp_requests st)) with
  | Err _ => (Err InvalidOrExpiredOTP, st)
  | Ok data =>
      (Ok data,
       set_otp_requests
         (update_where_id OTPRequest.id (OTPRequest.id data)
            (OTPRequest.set_is_used true) (otp_requests st)) st)
  end.

(** ** Team leader dashboard ([TeamLeaderDashboard.tsx]) *)

Module TeamLeader.

Record Client := mkClient {
  selectedWorker : option User.t;
  enteredOTP : string;
  showOTPModal : bool
}.

(** [handleCreateWorker]: the new worker takes the team leader's
    warehouse and starts unapproved. *)
Definition handleCreateWorker (user : User.t) (newWorkerUsername : string)
    (st : Store) : Store :=
  snd (insert_user newWorkerUsername worker None (Some (User.id user))
         (User.warehouse_name user) false st).

(** [handleWorkerLogin]: issue an OTP for [w] and open the dialog; an
    error of [createOTPRequest] is caught and logged. *)
Definition handleWorkerLogin (user : User.t) (now : timestamp) (rnd : Q)
    (w : User.t) (c : Client) (st : Store) : Client * Store :=
  match createOTPRequest now rnd (User.id w) (User.id user) st with
  | (Ok _, st') => (mkClient (Some w) (enteredOTP c) true, st')
  | (Err _, st') => (c, st')
  end.

(** [handleOTPVerification]: the approval is written after [verifyOTP]
    has returned; when it throws, the [catch] only alerts. *)
Definition handleOTPVerification (now : timestamp) (c : Client) (st : Store)
    : Client * Store :=
  match selectedWorker c with
  | None => (c, st)
  | Some w =>
      match verifyOTP now (User.id w) (enteredOTP c) st with
      | (Ok _, st') =>
          (mkClient None EmptyString false,
           set_users
             (update_where_id User.id (User.id w)
                (User.set_is_approved true) (users st')) st')
      | (Err _, st') => (c, st')
      end
  end.

End TeamLeader.

(** ** Worker dashboard ([WorkerDashboard.tsx]) *)

Module Worker.

(** The component's state. [quantity] is the text of the number input:
    [None] is the empty text, [Some q] a text that [parseInt] reads as
    [q]. *)
Record Client := mkClient {
  currentSession : option CountingSession.t;
  selectedBin : option BinMaster.t;
  quantity : option Z;
  showConfirmation : bool
}.

Definition initial : Client := mkClient None None None false.

Definition setCurrentSession (s : option CountingSession.t) (c : Client)
    : Client :=
  mkClient s (selectedBin c) (quantity c) (showConfirmation c).

(** [new Date().toISOString().split('T')[0]] *)
Definition date_of (now : timestamp) : Z := now / 86400000.

(** The filter of the session query of [loadData]. *)
Definition active_session_of (workerId : uuid) (s : CountingSession.t)
    : bool :=
  Nat.eqb (CountingSession.worker_id s) workerId
  && CountingSession.is_active s.

(** [loadData]: the part that feeds the handlers. (The bins and today's
    records it also fetches are only displayed.) *)
Definition loadData (user : User.t) (c : Client) (st : Store) : Client :=
  match single (filter (active_session_of (User.id user))
                  (counting_sessions st)) with
  | Ok sessionData => setCurrentSession (Some sessionData) c
  | Err _ => c
  end.

(** [insert] into [counting_sessions]: [worker_id] references [users]. *)
Definition insert_counting_session (workerId : uuid) (startTime : timestamp)
    (status : SessionStatus) (bins qty : Z) (st : Store)
    : result CountingSession.t * Store :=
  if has_user workerId st then
    let row := CountingSession.mk
                 (fresh_id (map CountingSession.id (counting_sessions st)))
                 workerId startTime None status bins qty in
    (Ok row, set_counting_sessions (counting_sessions st ++ [row]) st)
  else (Err ForeignKeyViolation, st).

(** [insert] into [counting_records]: [qty_counted],
    [qty_as_per_books] and [difference] are [integer] columns;
    [warehouse_name] is [NOT NULL]; [session_id] references
    [counting_sessions]. *)
Definition insert_counting_record (sessionId : uuid)
    (warehouseName : option string) (date : Z) (teamLeaderName : string)
    (username binNo : string) (qtyCounted qtyAsPerBooks difference : Z)
    (s : Store) : result CountingRecord.t * Store :=
  if in_integer qtyCounted && in_integer qtyAsPerBooks
     && in_integer difference
  then
    match warehouseName with
    | None => (Err NotNullViolation, s)
    | Some wh =>
        if has_session sessionId s then
          let row := CountingRecord.mk
                       (fresh_id (map CountingRecord.id (counting_records s)))
                       sessionId wh date teamLeaderName username binNo
                       qtyCounted None (Some qtyAsPerBooks) (Some difference)
                       None in
          (Ok row, set_counting_records (counting_records s ++ [row]) s)
        else (Err ForeignKeyViolation, s)
    end
  else (Err NumericValueOutOfRange, s).

(** [update({ total_bins_counted, total_qty_counted }).eq('id', k)] on
    [counting_sessions]: both are [integer] columns. *)
Definition update_session_totals (k : uuid) (bins qty : Z) (s : Store)
    : result unit * Store :=
  if in_integer bins && in_integer qty then
    (Ok tt,
     set_counting_sessions
       (update_where_id CountingSession.id k
          (CountingSession.set_totals bins qty) (counting_sessions s)) s)
  else (Err NumericValueOutOfRange, s).

(** [insert] into [worker_efficiency]: [warehouse_name] is [NOT NULL]. *)
Definition insert_worker_efficiency (warehouseName : option string)
    (date : Z) (username : string)
    (binsCounted qtyCounted timeTakenMinutes efficiencyScore ranking : Z)
    (s : Store) : result WorkerEfficiency.t * Store :=
  match warehouseName with
  | None => (Err NotNullViolation, s)
  | Some wh =>
      let row := WorkerEfficiency.mk
                   (fresh_id (map WorkerEfficiency.id (worker_efficiency s)))
                   wh date username binsCounted qtyCounted timeTakenMinutes
                   efficiencyScore ranking in
      (Ok row, set_worker_efficiency (worker_efficiency s ++ [row]) s)
  end.

(** [startCounting]: a rejected insert is thrown, caught and logged. *)
Definition startCounting (user : User.t) (now : timestamp) (c : Client)
    (st : Store) : Client * Store :=
  match insert_counting_session (User.id user) now active 0 0 st with
  | (Ok data, st') => (setCurrentSession (Some data) c, st')
  | (Err _, st') => (c, st')
  end.

(** [Math.round((endTime - startTime) / (1000 * 60))] *)
Definition timeTakenMinutes (endTime startTime : timestamp) : Z :=
  JS.Math_round
    (JS.div (inject_Z (endTime - startTime)) (inject_Z (1000 * 60))).

(** [Math.min(100, Math.round((bins / Math.max(1, minutes)) * 60))] *)
Definition efficiencyScore (bins minutes : Z) : Z :=
  Z.min 100
    (JS.Math_round
       (JS.mul (JS.div (inject_Z bins) (inject_Z (Z.max 1 minutes)))
          (inject_Z 60))).

(** [endCounting]. [now] is the clock at [endTime], [now'] the clock when
    the efficiency row is dated. Neither write is checked for an error. *)
Definition endCounting (user : User.t) (now now' : timestamp) (c : Client)
    (st : Store) : Client * Store :=
  match currentSession c with
  | None => (c, st)
  | Some cs =>
      let endTime := now in
      let minutes := timeTakenMinutes endTime (CountingSession.start_time cs) in
      let st1 :=
        set_counting_sessions
          (update_where_id CountingSession.id (CountingSession.id cs)
             (CountingSession.close endTime) (counting_sessions st)) st in
      let score :=
        efficiencyScore (CountingSession.total_bins_counted cs) minutes in
      let st2 :=
        snd (insert_worker_efficiency (User.warehouse_name user)
               (date_of now') (User.username user)
               (CountingSession.total_bins_counted cs)
               (CountingSession.total_qty_counted cs)
               minutes score 1 st1) in
      (loadData user (setCurrentSession None c) st2, st2)
  end.

Definition handleBinSelect (bin : BinMaster.t) (c : Client) : Client :=
  mkClient (currentSession c) (Some bin) None (showConfirmation c).

Definition setQuantity (q : option Z) (c : Client) : Client :=
  mkClient (currentSession c) (selectedBin c) q (showConfirmation c).

Definition handleQuantitySubmit (c : Client) : Client :=
  match selectedBin c, quantity c, currentSession c with
  | Some _, Some _, Some _ =>
      mkClient (currentSession c) (selectedBin c) (quantity c) true
  | _, _, _ => c
  end.

(** [Math.floor(Math.random() * 100) + 50] *)
Definition mockBookQty (rnd : Q) : Z :=
  JS.Math_floor (JS.mul rnd (inject_Z 100)) + 50.

(** [confirmQuantity]. Neither write is checked for an error. *)
Definition confirmQuantity (user : User.t) (now : timestamp) (rnd : Q)
    (c : Client) (st : Store) : Client * Store :=
  match selectedBin c, quantity c, currentSession c with
  | Some bin, Some q, Some cs =>
      let st1 :=
        snd (insert_counting_record (CountingSession.id cs)
               (User.warehouse_name user) (date_of now) "TL1"
               (User.username user) (BinMaster.bin_code bin)
               q (mockBookQty rnd) 0 st) in
      let st2 :=
        snd (update_session_totals (CountingSession.id cs)
               (CountingSession.total_bins_counted cs + 1)
               (CountingSession.total_qty_counted cs + q) st1) in
      (loadData user (mkClient (currentSession c) None None false) st2, st2)
  | _, _, _ => (c, st)
  end.

(** What the worker can do on the rendered page. [Reload] loads the
    page anew: the component is mounted again, with the state of a new
    component, and its effect calls [loadData]. *)
Inductive Action :=
| Reload
| ClickStart (now : timestamp)
| ClickBin (bin : BinMaster.t)
| TypeQuantity (q : option Z)
| SubmitQuantity
| ClickConfirm (now : timestamp) (rnd : Q)
| ClickCancel
| ClickEnd (now now' : timestamp).

Definition isSome {A : Type} (o : option A) : bool :=
  match o with Some _ => true | None => false end.

(** The page shows "Start Counting" while [currentSession] is null and
    "End Counting" with the bin list otherwise; the quantity form needs a
    selected bin as well, its submit button a quantity; the confirmation
    dialog needs [showConfirmation && selectedBin]. *)
Definition rendered (a : Action) (c : Client) : bool :=
  match a with
  | Reload => true
  | ClickStart _ => negb (isSome (currentSession c))
  | ClickBin _ | ClickEnd _ _ => isSome (currentSession c)
  | TypeQuantity _ => isSome (currentSession c) && isSome (selectedBin c)
  | SubmitQuantity =>
      isSome (currentSession c) && isSome (selectedBin c)
      && isSome (quantity c)
  | ClickConfirm _ _ | ClickCancel =>
      showConfirmation c && isSome (selectedBin c)
  end.

Definition handle (user : User.t) (a : Action) (w : Client * Store)
    : Client * Store :=
  let (c, st) := w in
  match a with
  | Reload => (loadData user initial st, st)
  | ClickStart now => startCounting user now c st
  | ClickBin bin => (handleBinSelect bin c, st)
  | TypeQuantity q => (setQuantity q c, st)
  | SubmitQuantity => (handleQuantitySubmit c, st)
  | ClickConfirm now rnd => confirmQuantity user now rnd c st
  | ClickCancel =>
      (mkClient (currentSession c) (selectedBin c) (quantity c) false, st)
  | ClickEnd now now' => endCounting user now now' c st
  end.

(** One interaction: an action that is not on the page cannot be
    taken. *)
Definition step (user : User.t) (w : Client * Store) (a : Action)
    : Client * Store :=
  if rendered a (fst w) then handle user a w else w.

Definition run (user : User.t) (w : Client * Store) (tr : list Action)
    : Client * Store :=
  fold_left (step user) tr w.

(** The active sessions the store holds for a worker. *)
Definition active_sessions (workerId : uuid) (st : Store)
    : list CountingSession.t :=
  filter (active_session_of workerId) (counting_sessions st).

Definition find_session (k : uuid) (st : Store) : option CountingSession.t :=
  find (fun s => Nat.eqb (CountingSession.id s) k) (counting_sessions st).

End Worker.

(** ** Every handler that writes to the store *)

Module App.

Inductive Call :=
| WorkerDoes (user : User.t) (a : Worker.Action) (c : Worker.Client)
| CreateWorker (user : User.t) (newWorkerUsername : string)
| WorkerLogin (user : User.t) (now : timestamp) (rnd : Q) (w : User.t)
    (c : TeamLeader.Client)
| OTPVerification (now : timestamp) (c : TeamLeader.Client)
| CreateUser (username : string) (role : Role) (warehouse_name : string)
| ToggleUserApproval (userId : uuid) (currentStatus : bool)
| ApproveTeamLeader (teamLeaderId : uuid)
| RejectTeamLeader (teamLeaderId : uuid).

(** The store a handler leaves. *)
Definition store_after (call : Call) (st : Store) : Store :=
  match call with
  | WorkerDoes user a c => snd (Worker.handle user a (c, st))
  | CreateWorker user name => TeamLeader.handleCreateWorker user name st
  | WorkerLogin user now rnd w c =>
      snd (TeamLeader.handleWorkerLogin user now rnd w c st)
  | OTPVerification now c => snd (TeamLeader.handleOTPVerification now c st)
  | CreateUser name role wh => Admin.handleCreateUser name role wh st
  | ToggleUserApproval k b => Admin.toggleUserApproval k b st
  | ApproveTeamLeader k => Vendor.approveTeamLeader k st
  | RejectTeamLeader k => Vendor.rejectTeamLeader k st
  end.

End App.

(** ** Session invariants *)

Module Invariant.
Import Worker.

(** Each worker has at most one active session. *)
Definition one_active_per_worker (st : Store) : Prop :=
  forall workerId, (List.length (active_sessions workerId st) <= 1)%nat.

(** The client's [currentSession] is the worker's active session as the
    store holds it, or null when the store holds none. *)
Definition in_sync (user : User.t) (c : Client) (st : Store) : Prop :=
  match currentSession c with
  | None => active_sessions (User.id user) st = []
  | Some cs => active_sessions (User.id user) st = [cs]
  end.

End Invariant.

(** ** The efficiency score in exact arithmetic *)

(** [n / d] rounded to the nearest integer, a tie upwards ([0 < d]). *)
Definition round_div (n d : Z) : Z := (2 * n + d) / (2 * d).

(** Bins per hour over at least one minute, rounded, capped at 100: the
    specification's formula over the rationals. *)
Definition Score (bins_counted minutes_elapsed : Z) : Z :=
  Z.min 100 (round_div (bins_counted * 60) (Z.max 1 minutes_elapsed)).

(** ** Sample rows, after the migration's demo data *)

Module Sample.

Definition tl1 : User.t :=
  User.mk 1%nat "tl1" team_leader None None true (Some "Warehouse A"%string).

Definition tl2 : User.t :=
  User.mk 2%nat "tl2" team_leader None None true (Some "Warehouse B"%string).

Definition worker1 : User.t :=
  User.mk 3%nat "worker1" worker None (Some 1%nat) true
          (Some "Warehouse A"%string).

Definition worker4 : User.t :=
  User.mk 4%nat "worker4" worker None (Some 2%nat) false
          (Some "Warehouse B"%string).

Definition A001 : BinMaster.t :=
  BinMaster.mk 1%nat "A001" "Warehouse A" "Aisle A, Level 1".

Definition A002 : BinMaster.t :=
  BinMaster.mk 2%nat "A002" "Warehouse A" "Aisle A, Level 2".

Definition store0 : Store :=
  mkStore [tl1; tl2; worker1; worker4] [] [] [] [].

(** A value of [Math.random()] for which [generateOTP] draws 123456. *)
Definition rnd_123456 : Q := 7512084242447363 # 288230376151711744.

End Sample.

(** ** Signing in ([src/lib/supabase.ts]) *)

(** [signIn]: the row of [users] with that name when the query finds
    exactly one and the password is one of the two literals. [None] is
    the thrown [Error('Invalid credentials')]. *)
Definition signIn (username password : string) (st : Store)
    : option User.t :=
  match single (filter (fun u => String.eqb (User.username u) username)
                  (users st)) with
  | Err _ => None
  | Ok data =>
      if negb (String.eqb password "admin123")
         && negb (String.eqb password "password123")
      then None
      else Some data
  end.

(** ** What the dashboards load and display

    A query is a filter of its table. Where the source asks for no
    order, nothing below depends on the order of the answer. *)

Definition Role_eqb (a b : Role) : bool :=
  match a, b with
  | admin, admin | vendor, vendor | team_leader, team_leader
  | worker, worker => true
  | _, _ => false
  end.

(** The store after a sequence of handler calls. *)
Definition stores_after (calls : list App.Call) (st : Store) : Store :=
  fold_left (fun s call => App.store_after call s) calls st.

Module TeamLeaderView.

(** [loadData], first query: the workers under this team leader. *)
Definition workers (user : User.t) (st : Store) : list User.t :=
  filter (fun u => Role_eqb (User.role u) worker
                   && option_uuid_eqb (User.team_leader_id u) (User.id user))
    (users st).

(** [loadData], second query: this team leader's requests that are
    neither used nor expired. *)
Definition otpRequests (user : User.t) (now : timestamp) (st : Store)
    : list OTPRequest.t :=
  filter (fun r => Nat.eqb (OTPRequest.team_leader_id r) (User.id user)
                   && negb (OTPRequest.is_used r)
                   && (now <? OTPRequest.expires_at r))
    (otp_requests st).

(** The text of the OTP field, as typed. *)
Definition setEnteredOTP (code : string) (c : TeamLeader.Client)
    : TeamLeader.Client :=
  TeamLeader.mkClient (TeamLeader.selectedWorker c) code
    (TeamLeader.showOTPModal c).

Record Stats := mkStats {
  totalWorkers : nat;
  approvedWorkers : nat;
  pendingWorkers : nat;
  pendingOTPs : nat
}.

Definition stats (workers : list User.t) (otpRequests : list OTPRequest.t)
    : Stats :=
  mkStats (List.length workers)
    (List.length (filter (fun w => User.is_approved w) workers))
    (List.length (filter (fun w => negb (User.is_approved w)) workers))
    (List.length otpRequests).

End TeamLeaderView.

Module AdminView.

Record Stats := mkStats {
  totalUsers : nat;
  activeWorkers : nat;
  totalRecords : nat;
  avgEfficiency : Z
}.

(** [efficiencyData.reduce((sum, e) => sum + e.efficiency_score, 0)] *)
Definition sumEfficiency (efficiencyData : list WorkerEfficiency.t) : Q :=
  fold_left
    (fun sum e => JS.add sum (inject_Z (WorkerEfficiency.efficiency_score e)))
    efficiencyData 0%Q.

(** The same sum over the integers. *)
Definition totalScore (efficiencyData : list WorkerEfficiency.t) : Z :=
  fold_right Z.add 0
    (map WorkerEfficiency.efficiency_score efficiencyData).

Definition stats (users : list User.t)
    (countingRecords : list CountingRecord.t)
    (efficiencyData : list WorkerEfficiency.t) : Stats :=
  mkStats (List.length users)
    (List.length
       (filter (fun u => Role_eqb (User.role u) worker && User.is_approved u)
          users))
    (List.length countingRecords)
    (match efficiencyData with
     | [] => 0
     | _ :: _ =>
         JS.Math_round
           (JS.div (sumEfficiency efficiencyData)
              (inject_Z (Z.of_nat (List.length efficiencyData))))
     end).

End AdminView.

Module VendorView.

Record Client := mkClient {
  teamLeaders : list User.t;
  workers : list User.t;
  pendingApprovals : list User.t
}.

Definition team_leader_of (user : User.t) (u : User.t) : bool :=
  Role_eqb (User.role u) team_leader
  && option_uuid_eqb (User.vendor_id u) (User.id user).

(** [.in('team_leader_id', tlIds)] *)
Definition under_one_of (tlIds : list uuid) (u : User.t) : bool :=
  match User.team_leader_id u with
  | Some k => existsb (Nat.eqb k) tlIds
  | None => false
  end.

(** [loadData]: the workers are fetched only when the vendor has a team
    leader; otherwise the list the component held stays. *)
Definition loadData (user : User.t) (c : Client) (st : Store) : Client :=
  let tlData := filter (team_leader_of user) (users st) in
  let tlIds := map User.id tlData in
  let workers' :=
    match tlIds with
    | [] => workers c
    | _ :: _ =>
        filter (fun u => Role_eqb (User.role u) worker && under_one_of tlIds u)
          (users st)
    end in
  let pendingData :=
    filter (fun u => team_leader_of user u && negb (User.is_approved u))
      (users st) in
  mkClient tlData workers' pendingData.

(** The row of a team leader in the table: [workers.filter(w =>
    w.team_leader_id === tl.id)]. *)
Definition tlWorkers (c : Client) (tl : User.t) : list User.t :=
  filter (fun w => option_uuid_eqb (User.team_leader_id w) (User.id tl))
    (workers c).

End VendorView.

Module WorkerView.

(** The text holds ASCII characters only. *)
Fixpoint ascii_text (s : string) : bool :=
  match s with
  | EmptyString => true
  | String c s' => (nat_of_ascii c <? 128)%nat && ascii_text s'
  end.

(** [toLowerCase] on ASCII text changes the letters A to Z and nothing
    else. *)
Definition lower (c : ascii) : ascii :=
  let k := nat_of_ascii c in
  if ((65 <=? k) && (k <=? 90))%nat then ascii_of_nat (k + 32) else c.

Fixpoint toLowerCase (s : string) : string :=
  match s with
  | EmptyString => EmptyString
  | String c s' => String (lower c) (toLowerCase s')
  end.

(** [s.includes(t)]: [t] occurs in [s]. *)
Fixpoint includes (s t : string) : bool :=
  prefix t s
  || match s with
     | EmptyString => false
     | String _ s' => includes s' t
     end.

Definition matches (searchTerm : string) (bin : BinMaster.t) : bool :=
  includes (toLowerCase (BinMaster.bin_code bin)) (toLowerCase searchTerm)
  || includes (toLowerCase (BinMaster.location bin)) (toLowerCase searchTerm).

(** The effect on [searchTerm] and [bins]: an empty term shows every
    bin. *)
Definition filteredBins (searchTerm : string) (bins : list BinMaster.t)
    : list BinMaster.t :=
  match searchTerm with
  | EmptyString => bins
  | String _ _ => filter (matches searchTerm) bins
  end.

(** [loadData], third query: this worker's records dated today or
    later, the newest first ([.order('created_at', { ascending: false
    })]). A table holds its rows in the order of their creation. *)
Definition todayRecords (user : User.t) (now : timestamp) (st : Store)
    : list CountingRecord.t :=
  rev
    (filter
       (fun r => String.eqb (CountingRecord.username r) (User.username user)
                 && (Worker.date_of now <=? CountingRecord.date r))
       (counting_records st)).

Record Stats := mkStats {
  todayBins : nat;
  todayQty : Z;
  sessionBins : Z;
  sessionQty : Z
}.

Definition stats (todayRecords : list CountingRecord.t) (c : Worker.Client)
    : Stats :=
  mkStats (List.length todayRecords)
    (fold_left (fun sum record => sum + CountingRecord.qty_counted record)
       todayRecords 0)
    (match Worker.currentSession c with
     | Some s => CountingSession.total_bins_counted s
     | None => 0
     end)
    (match Worker.currentSession c with
     | Some s => CountingSession.total_qty_counted s
     | None => 0
     end).

(** One count on the page: pick the bin, type the quantity, submit,
    confirm; [at_time] and [drawn] are the clock and [Math.random()] at
    the confirmation. *)
Record Count := mkCount {
  bin : BinMaster.t;
  qty : Z;
  at_time : timestamp;
  drawn : Q
}.

Definition count (k : Count) : list Worker.Action :=
  [Worker.ClickBin (bin k); Worker.TypeQuantity (Some (qty k));
   Worker.SubmitQuantity; Worker.ClickConfirm (at_time k) (drawn k)].

(** A whole session: start, count bin after bin, end. *)
Definition session (start : timestamp) (counts : list Count)
    (stop stop' : timestamp) : list Worker.Action :=
  Worker.ClickStart start :: flat_map count counts
  ++ [Worker.ClickEnd stop stop'].

End WorkerView.

(** ** What the schema promises *)

Module Schema.

(** [username text UNIQUE] *)
Definition unique_usernames (st : Store) : Prop :=
  NoDup (map User.username (users st)).

(** The [REFERENCES] clauses of the migration. *)
Definition foreign_keys (st : Store) : Prop :=
  (forall u, In u (users st) ->
     references_ok (User.vendor_id u) st = true
     /\ references_ok (User.team_leader_id u) st = true)
  /\ (forall r, In r (otp_requests st) ->
        has_user (OTPRequest.worker_id r) st = true
        /\ has_user (OTPRequest.team_leader_id r) st = true)
  /\ (forall s, In s (counting_sessions st) ->
        has_user (CountingSession.worker_id s) st = true)
  /\ (forall r, In r (counting_records st) ->
        has_session (CountingRecord.session_id r) st = true).

End Schema.

(** * Properties *)

(** ** Decimal numerals *)

Module JSFacts.
Import JS.
Lemma digit_is_digit (d : Z) : 0 <= d < 10 -> is_digit (digit d) = true.
Proof.
  intros H. unfold is_digit, digit. rewrite nat_ascii_embedding by lia.
  apply andb_true_intro; split; apply Nat.leb_le; lia.
Qed.

Lemma digits_all_digits (fuel : nat) :
  forall n acc, 0 <= n -> all_digits acc = true ->
                all_digits (digits fuel n acc) = true.
Proof.
  induction fuel as [|fuel IH]; intros n acc Hn Hacc; cbn [digits];
    [exact Hacc|].
  assert (Hd : is_digit (digit (n mod 10)) = true)
    by (apply digit_is_digit, Z.mod_pos_bound; lia).
  assert (Hacc' : all_digits (String (digit (n mod 10)) acc) = true)
    by (cbn [all_digits]; now rewrite Hd, Hacc).
  destruct (n <? 10); [exact Hacc'|].
  apply IH; [apply Z.div_pos; lia | exact Hacc'].
Qed.

(** A numeral of [k+1] digits starts with the digit [n / 10^k] and is
    [k+1] characters longer than the accumulator. *)
Lemma digits_shape (k : nat) :
  forall fuel n acc,
    (k < fuel)%nat -> 10 ^ Z.of_nat k <= n < 10 ^ Z.of_nat (S k) ->
    exists rest,
      digits fuel n acc = String (digit (n / 10 ^ Z.of_nat k)) rest
      /\ String.length (digits fuel n acc) = (S k + String.length acc)%nat.
Proof.
  induction k as [|k IH]; intros fuel n acc Hf Hn.
  - destruct fuel as [|fuel]; [lia|]. cbn [digits].
    change (10 ^ Z.of_nat 0) with 1 in * . change (10 ^ Z.of_nat 1) with 10 in Hn.
    destruct (Z.ltb_spec n 10); [|lia].
    exists acc. rewrite Z.div_1_r, Z.mod_small by lia. split; reflexivity.
  - destruct fuel as [|fuel]; [lia|]. cbn [digits].
    rewrite !Nat2Z.inj_succ, !Z.pow_succ_r in Hn by lia.
    assert (Hp : 0 < 10 ^ Z.of_nat k) by (apply Z.pow_pos_nonneg; lia).
    destruct (Z.ltb_spec n 10); [nia|].
    destruct (IH fuel (n / 10) (String (digit (n mod 10)) acc)) as (rest & E & L).
    + lia.
    + rewrite Nat2Z.inj_succ, Z.pow_succ_r by lia. split.
      * apply Z.div_le_lower_bound; lia.
      * apply Z.div_lt_upper_bound; lia.
    + exists rest. split.
      * rewrite E. f_equal. f_equal.
        rewrite Nat2Z.inj_succ, Z.pow_succ_r by lia.
        rewrite Z.div_div by lia. reflexivity.
      * rewrite L. simpl. lia.
Qed.

Lemma toString_shape (k : nat) (n : Z) :
  10 ^ Z.of_nat k <= n < 10 ^ Z.of_nat (S k) ->
  exists rest,
    toString n = String (digit (n / 10 ^ Z.of_nat k)) rest
    /\ String.length (toString n) = S k.
Proof.
  intros Hn.
  assert (Hp : 0 < 10 ^ Z.of_nat k) by (apply Z.pow_pos_nonneg; lia).
  unfold toString. destruct (Z.ltb_spec n 0); [lia|].
  destruct (digits_shape k (S (Z.to_nat (Z.log2 n))) n EmptyString) as (rest & E & L).
  - assert (Z.of_nat k <= Z.log2 n); [|lia].
    apply Z.log2_le_pow2; [lia|].
    apply Z.le_trans with (10 ^ Z.of_nat k); [|lia].
    apply Z.pow_le_mono_l; lia.
  - exact Hn.
  - exists rest. split; [exact E|]. rewrite L. cbn [String.length]. lia.
Qed.

Lemma toString_all_digits (n : Z) : 0 <= n -> all_digits (toString n) = true.
Proof.
  intros Hn. unfold toString. destruct (Z.ltb_spec n 0); [lia|].
  now apply digits_all_digits.
Qed.

Lemma Math_floor_bounds (x : Q) (lo hi : Z) :
  (inject_Z lo <= x)%Q -> (x < inject_Z hi)%Q -> lo <= Math_floor x < hi.
Proof.
  intros Hlo Hhi. unfold Math_floor. split.
  - rewrite <- (Qfloor_Z lo). now apply Qfloor_resp_le.
  - rewrite Zlt_Qlt. apply Qle_lt_trans with x; [apply Qfloor_le | exact Hhi].
Qed.

Lemma Math_floor_unique (x : Q) (n : Z) :
  (inject_Z n <= x)%Q -> (x < inject_Z (n + 1))%Q -> Math_floor x = n.
Proof.
  intros Hlo Hhi. pose proof (Math_floor_bounds x n (n + 1) Hlo Hhi). lia.
Qed.

Lemma Math_floor_interval (x : Q) :
  (inject_Z (Math_floor x) <= x)%Q /\ (x < inject_Z (Math_floor x + 1))%Q.
Proof. split; [apply Qfloor_le | apply Qlt_floor]. Qed.

End JSFacts.

(** ** Rounding to binary64 *)

Module B64Facts.
Import JS.
Local Open Scope Q_scope.

Lemma pow2_pos (e : Z) : 0 < pow2 e.
Proof. apply Qpower_0_lt. reflexivity. Qed.

Lemma pow2_add (a b : Z) : pow2 (a + b) == pow2 a * pow2 b.
Proof. apply Qpower_plus. discriminate. Qed.

Lemma pow2_le (a b : Z) : (a <= b)%Z -> pow2 a <= pow2 b.
Proof. intros H. apply Qpower_le_compat_l; [exact H | discriminate]. Qed.

Lemma pow2_lt (a b : Z) : (a < b)%Z -> pow2 a < pow2 b.
Proof. intros H. apply Qpower_lt_compat_l; [exact H | reflexivity]. Qed.

Lemma pow2_lt_inv (a b : Z) : pow2 a < pow2 b -> (a < b)%Z.
Proof. intros H. apply (Qpower_lt_compat_l_inv (inject_Z 2)); [exact H | reflexivity]. Qed.

Lemma pow2_Z (n : Z) : (0 <= n)%Z -> pow2 n == inject_Z (2 ^ n).
Proof. intros H. unfold pow2. now rewrite Zpower_Qpower. Qed.

Lemma pow2_cancel (a : Z) : pow2 a * pow2 (- a) == 1.
Proof. rewrite <- pow2_add. now rewrite Z.add_opp_diag_r. Qed.

(** Bracketing by powers of two determines the exponent. *)
Lemma pow2_bracket_unique (x : Q) (i k : Z) :
  pow2 i <= x -> x < pow2 (i + 1) -> pow2 k <= x -> x < pow2 (k + 1) ->
  i = k.
Proof.
  intros Hi Hi' Hk Hk'.
  assert (A : (i < k + 1)%Z) by (apply pow2_lt_inv; lra).
  assert (B : (k < i + 1)%Z) by (apply pow2_lt_inv; lra).
  lia.
Qed.

Lemma Zlog2_Q (n : Z) :
  (0 < n)%Z -> pow2 (Z.log2 n) <= inject_Z n /\ inject_Z n < pow2 (Z.log2 n + 1).
Proof.
  intros Hn. pose proof (Z.log2_spec n Hn) as [L U].
  pose proof (Z.log2_nonneg n) as Hl.
  rewrite !pow2_Z by lia. rewrite <- Zle_Qle, <- Zlt_Qlt.
  rewrite <- Z.add_1_r in U. split; assumption.
Qed.

Lemma ilog2_spec (x : Q) :
  0 < x -> pow2 (ilog2 x) <= x /\ x < pow2 (ilog2 x + 1).
Proof.
  intros Hx. unfold ilog2.
  destruct x as [n d]. cbn [Qnum Qden].
  assert (Hn : (0 < n)%Z) by (unfold Qlt in Hx; cbn in Hx; lia).
  destruct (Zlog2_Q n Hn) as [La Ua].
  destruct (Zlog2_Q (Zpos d) (eq_refl : (0 < Zpos d)%Z)) as [Lb Ub].
  set (a := Z.log2 n) in *. set (b := Z.log2 (Zpos d)) in *.
  assert (E : n # d == inject_Z n / inject_Z (Zpos d)) by apply Qmake_Qdiv.
  assert (Hd : 0 < inject_Z (Zpos d)) by reflexivity.
  assert (Ex : (n # d) * inject_Z (Zpos d) == inject_Z n).
  { rewrite E. field. intros H0. rewrite H0 in Hd. now apply Qlt_irrefl in Hd. }
  pose proof (pow2_pos (a - b - 1)) as P1. pose proof (pow2_pos b) as Pb.
  assert (Ea : pow2 a == pow2 (a - b - 1) * pow2 (b + 1)).
  { rewrite <- pow2_add. now replace (a - b - 1 + (b + 1))%Z with a by ring. }
  assert (Ea' : pow2 (a + 1) == pow2 (a - b + 1) * pow2 b).
  { rewrite <- pow2_add. now replace (a - b + 1 + b)%Z with (a + 1)%Z by ring. }
  assert (Lo : pow2 (a - b - 1) < n # d).
  { apply (Qmult_lt_r _ _ (inject_Z (Zpos d)) Hd). rewrite Ex.
    apply Qlt_le_trans with (pow2 (a - b - 1) * pow2 (b + 1)); [|lra].
    apply Qmult_lt_l; assumption. }
  assert (Hi : n # d < pow2 (a - b + 1)).
  { apply (Qmult_lt_r _ _ (inject_Z (Zpos d)) Hd). rewrite Ex.
    apply Qlt_le_trans with (pow2 (a - b + 1) * pow2 b); [lra|].
    apply Qmult_le_l; [apply pow2_pos | assumption]. }
  destruct (Qle_bool (pow2 (a - b)) (n # d)) eqn:Eb.
  - apply Qle_bool_iff in Eb. split; assumption.
  - assert (Hlt : n # d < pow2 (a - b)).
    { apply Qnot_le_lt. intros H. apply Qle_bool_iff in H. congruence. }
    replace (a - b - 1 + 1)%Z with (a - b)%Z by ring. split; [lra | assumption].
Qed.

Lemma ilog2_unique (x : Q) (k : Z) :
  pow2 k <= x -> x < pow2 (k + 1) -> ilog2 x = k.
Proof.
  intros L U.
  assert (Hx : 0 < x) by (pose proof (pow2_pos k); lra).
  destruct (ilog2_spec x Hx) as [L' U'].
  now apply (pow2_bracket_unique x).
Qed.

Lemma ilog2_comp (x x' : Q) : 0 < x -> x == x' -> ilog2 x = ilog2 x'.
Proof.
  intros Hx E. assert (Hx' : 0 < x') by now rewrite <- E.
  destruct (ilog2_spec x' Hx') as [L U].
  apply ilog2_unique; now rewrite E.
Qed.

Lemma ilog2_mono (x x' : Q) : 0 < x -> x <= x' -> (ilog2 x <= ilog2 x')%Z.
Proof.
  intros Hx H. assert (Hx' : 0 < x') by lra.
  destruct (ilog2_spec x Hx) as [L U]. destruct (ilog2_spec x' Hx') as [L' U'].
  assert (A : (ilog2 x < ilog2 x' + 1)%Z) by (apply pow2_lt_inv; lra).
  lia.
Qed.

(** *** Rounding to the nearest integer *)

Lemma rne_cases (y : Q) :
  let f := Qfloor y in
  inject_Z f <= y /\ y < inject_Z f + 1
  /\ ((y - inject_Z f < 1 # 2 /\ rne y = f)
      \/ (y - inject_Z f == 1 # 2 /\ (rne y = f \/ rne y = (f + 1)%Z))
      \/ (1 # 2 < y - inject_Z f /\ rne y = (f + 1)%Z)).
Proof.
  intros f. pose proof (Qfloor_le y) as L. pose proof (Qlt_floor y) as U.
  fold f in L, U. rewrite inject_Z_plus in U.
  split; [exact L|]. split; [exact U|].
  unfold rne. fold f.
  destruct (Qcompare_spec (y - inject_Z f) (1 # 2)) as [E|E|E].
  - right; left. split; [exact E|]. destruct (Z.even f); auto.
  - left. now split.
  - right; right. now split.
Qed.

Lemma rne_Z (z : Z) : rne (inject_Z z) = z.
Proof.
  destruct (rne_cases (inject_Z z)) as (L & U & C).
  rewrite Qfloor_Z in *. destruct C as [[_ E]|[[H _]|[H _]]]; [exact E | lra | lra].
Qed.

Lemma floor_lt_int (y : Q) (j : Z) : y < inject_Z j -> (Qfloor y < j)%Z.
Proof.
  intros H. rewrite Zlt_Qlt. pose proof (Qfloor_le y). lra.
Qed.

Lemma int_le_floor (y : Q) (j : Z) : inject_Z j <= y -> (j <= Qfloor y)%Z.
Proof.
  intros H. rewrite <- (Qfloor_Z j). now apply Qfloor_resp_le.
Qed.

Lemma rne_le_int (y : Q) (j : Z) : y <= inject_Z j -> (rne y <= j)%Z.
Proof.
  intros H. destruct (Qlt_le_dec y (inject_Z j)) as [Hlt|Hge].
  - pose proof (floor_lt_int y j Hlt).
    destruct (rne_cases y) as (_ & _ & [[_ E]|[[_ [E|E]]|[_ E]]]); lia.
  - assert (E : y == inject_Z j) by lra.
    destruct (rne_cases y) as (L & U & C).
    assert (Ef : Qfloor y = j).
    { apply Z.le_antisymm; [|now apply int_le_floor].
      rewrite Zle_Qle. lra. }
    rewrite Ef in *. destruct C as [[_ R]|[[H' _]|[H' _]]]; [lia | lra | lra].
Qed.

Lemma rne_ge_int (y : Q) (j : Z) : inject_Z j <= y -> (j <= rne y)%Z.
Proof.
  intros H. pose proof (int_le_floor y j H).
  destruct (rne_cases y) as (_ & _ & [[_ E]|[[_ [E|E]]|[_ E]]]); lia.
Qed.

Lemma rne_comp (y y' : Q) : y == y' -> rne y = rne y'.
Proof.
  intros E. unfold rne. rewrite (Qfloor_comp _ _ E).
  now rewrite (Qcompare_comp (y - inject_Z (Qfloor y')) (y' - inject_Z (Qfloor y'))
                 ltac:(now rewrite E) (1 # 2) (1 # 2) ltac:(reflexivity)).
Qed.

Lemma rne_mono (y y' : Q) : y <= y' -> (rne y <= rne y')%Z.
Proof.
  intros H.
  destruct (Z.lt_ge_cases (Qfloor y) (Qfloor y')) as [Hf|Hf].
  - apply Z.le_trans with (Qfloor y'); [|apply rne_ge_int, Qfloor_le].
    destruct (rne_cases y) as (_ & _ & [[_ E]|[[_ [E|E]]|[_ E]]]); lia.
  - assert (Ef : Qfloor y = Qfloor y')
      by (pose proof (Qfloor_resp_le _ _ H); lia).
    destruct (rne_cases y) as (_ & _ & C), (rne_cases y') as (_ & _ & C').
    rewrite Ef in C.
    destruct C as [[T E]|[[T E]|[T E]]], C' as [[T' E']|[[T' E']|[T' E']]];
      try lia; try lra.
    unfold rne. rewrite Ef.
    rewrite (Qcompare_comp (y - inject_Z (Qfloor y')) (1 # 2) T
               (1 # 2) (1 # 2) ltac:(reflexivity)).
    rewrite (Qcompare_comp (y' - inject_Z (Qfloor y')) (1 # 2) T'
               (1 # 2) (1 # 2) ltac:(reflexivity)).
    lia.
Qed.

(** *** Rounding to 53 bits *)

Lemma scaled_bracket (x : Q) :
  0 < x ->
  let e := (ilog2 x - 52)%Z in
  inject_Z (2 ^ 52) <= x / pow2 e /\ x / pow2 e < inject_Z (2 ^ 53).
Proof.
  intros Hx e. destruct (ilog2_spec x Hx) as [L U].
  pose proof (pow2_pos e) as Pe.
  rewrite <- !pow2_Z by lia.
  assert (E1 : pow2 (ilog2 x) == pow2 52 * pow2 e).
  { rewrite <- pow2_add. unfold e. now replace (52 + (ilog2 x - 52))%Z with (ilog2 x) by ring. }
  assert (E2 : pow2 (ilog2 x + 1) == pow2 53 * pow2 e).
  { rewrite <- pow2_add. unfold e.
    now replace (53 + (ilog2 x - 52))%Z with (ilog2 x + 1)%Z by ring. }
  split.
  - apply Qle_shift_div_l; [exact Pe | lra].
  - apply Qlt_shift_div_r; [exact Pe | lra].
Qed.

Lemma fl_pos_bounds (x : Q) :
  0 < x -> pow2 (ilog2 x) <= fl_pos x /\ fl_pos x <= pow2 (ilog2 x + 1).
Proof.
  intros Hx. destruct (scaled_bracket x Hx) as [L U]. cbv zeta in L, U.
  unfold fl_pos. set (e := (ilog2 x - 52)%Z) in *.
  pose proof (pow2_pos e) as Pe.
  assert (A : (2 ^ 52 <= rne (x / pow2 e))%Z) by now apply rne_ge_int.
  assert (B : (rne (x / pow2 e) <= 2 ^ 53)%Z) by (apply rne_le_int; lra).
  rewrite Zle_Qle in A, B. rewrite <- !pow2_Z in A, B by lia.
  assert (E1 : pow2 (ilog2 x) == pow2 52 * pow2 e).
  { rewrite <- pow2_add. unfold e. now replace (52 + (ilog2 x - 52))%Z with (ilog2 x) by ring. }
  assert (E2 : pow2 (ilog2 x + 1) == pow2 53 * pow2 e).
  { rewrite <- pow2_add. unfold e.
    now replace (53 + (ilog2 x - 52))%Z with (ilog2 x + 1)%Z by ring. }
  rewrite E1, E2. split; apply Qmult_le_r; assumption.
Qed.

Lemma fl_pos_comp (x x' : Q) : 0 < x -> x == x' -> fl_pos x == fl_pos x'.
Proof.
  intros Hx E. unfold fl_pos. rewrite <- (ilog2_comp x x' Hx E).
  rewrite (rne_comp (x / pow2 (ilog2 x - 52)) (x' / pow2 (ilog2 x - 52)));
    [reflexivity|].
  unfold Qdiv. apply Qmult_comp; [exact E | reflexivity].
Qed.

Lemma fl_pos_mono (x x' : Q) : 0 < x -> x <= x' -> fl_pos x <= fl_pos x'.
Proof.
  intros Hx H. assert (Hx' : 0 < x') by lra.
  pose proof (ilog2_mono x x' Hx H) as Hl.
  destruct (Z.eq_dec (ilog2 x) (ilog2 x')) as [E|Hne].
  - unfold fl_pos. rewrite <- E. set (e := (ilog2 x - 52)%Z).
    pose proof (pow2_pos e) as Pe.
    apply Qmult_le_r; [exact Pe|]. rewrite <- Zle_Qle. apply rne_mono.
    apply Qmult_le_r; [now apply Qinv_lt_0_compat | exact H].
  - destruct (fl_pos_bounds x Hx) as [_ U]. destruct (fl_pos_bounds x' Hx') as [L _].
    pose proof (pow2_le (ilog2 x + 1) (ilog2 x') ltac:(lia)). lra.
Qed.

Lemma fl_pos_pos (x : Q) : 0 < x -> 0 < fl_pos x.
Proof.
  intros Hx. destruct (fl_pos_bounds x Hx) as [L _].
  pose proof (pow2_pos (ilog2 x)). lra.
Qed.

Lemma Qnum_sign (x : Q) :
  match Qnum x with
  | Z0 => x == 0
  | Zpos _ => 0 < x
  | Zneg _ => x < 0
  end.
Proof. destruct x as [[|p|p] d]; unfold Qeq, Qlt; cbn; lia. Qed.

Lemma fl_of_pos (x : Q) : 0 < x -> fl x = fl_pos x.
Proof.
  intros H. unfold fl. pose proof (Qnum_sign x) as S.
  destruct (Qnum x); [lra | reflexivity | lra].
Qed.

Lemma fl_of_neg (x : Q) : x < 0 -> fl x = - fl_pos (- x).
Proof.
  intros H. unfold fl. pose proof (Qnum_sign x) as S.
  destruct (Qnum x); [lra | lra | reflexivity].
Qed.

Lemma fl_of_zero (x : Q) : x == 0 -> fl x = 0.
Proof.
  intros H. unfold fl. pose proof (Qnum_sign x) as S.
  destruct (Qnum x); [reflexivity | lra | lra].
Qed.

Lemma fl_comp (x x' : Q) : x == x' -> fl x == fl x'.
Proof.
  intros E. destruct (Qlt_le_dec 0 x) as [P|N].
  - rewrite (fl_of_pos x P), (fl_of_pos x') by lra. now apply fl_pos_comp.
  - destruct (Qlt_le_dec x 0) as [P'|Z'].
    + rewrite (fl_of_neg x P'), (fl_of_neg x') by lra.
      apply Qopp_comp. apply fl_pos_comp; [lra | now rewrite E].
    + rewrite (fl_of_zero x), (fl_of_zero x') by lra. reflexivity.
Qed.

Lemma fl_nonneg (x : Q) : 0 <= x -> 0 <= fl x.
Proof.
  intros H. destruct (Qlt_le_dec 0 x) as [P|N].
  - rewrite (fl_of_pos x P). pose proof (fl_pos_pos x P). lra.
  - rewrite (fl_of_zero x) by lra. lra.
Qed.

Lemma fl_mono (x x' : Q) : x <= x' -> fl x <= fl x'.
Proof.
  intros H. destruct (Qlt_le_dec 0 x) as [P|N].
  - rewrite (fl_of_pos x P), (fl_of_pos x') by lra. now apply fl_pos_mono.
  - destruct (Qlt_le_dec x 0) as [Nx|Zx].
    + rewrite (fl_of_neg x Nx). pose proof (fl_pos_pos (- x) ltac:(lra)) as Px.
      destruct (Qlt_le_dec x' 0) as [Nx'|Px'].
      * rewrite (fl_of_neg x' Nx').
        pose proof (fl_pos_mono (- x') (- x) ltac:(lra) ltac:(lra)). lra.
      * pose proof (fl_nonneg x' Px'). lra.
    + rewrite (fl_of_zero x) by lra. apply fl_nonneg. lra.
Qed.

(** A dyadic number with a mantissa below [2^53] is a binary64 number. *)
Lemma fl_dyadic_pos (j s : Z) :
  (0 < j < 2 ^ 53)%Z -> fl_pos (inject_Z j * pow2 s) == inject_Z j * pow2 s.
Proof.
  intros Hj. set (x := inject_Z j * pow2 s).
  destruct (Zlog2_Q j ltac:(lia)) as [L U].
  pose proof (pow2_pos s) as Ps.
  assert (Hl : (0 <= Z.log2 j <= 52)%Z).
  { split; [apply Z.log2_nonneg|]. apply Z.lt_succ_r. apply Z.log2_lt_pow2; lia. }
  assert (El : ilog2 x = (Z.log2 j + s)%Z).
  { apply ilog2_unique; unfold x.
    - rewrite pow2_add. apply Qmult_le_r; assumption.
    - replace (Z.log2 j + s + 1)%Z with (Z.log2 j + 1 + s)%Z by ring.
      rewrite pow2_add. apply Qmult_lt_r; assumption. }
  unfold fl_pos. fold x. rewrite El.
  set (e := (Z.log2 j + s - 52)%Z). set (t := (52 - Z.log2 j)%Z).
  pose proof (pow2_pos e) as Pe.
  assert (Es : pow2 s == pow2 t * pow2 e).
  { rewrite <- pow2_add. unfold t, e.
    now replace (52 - Z.log2 j + (Z.log2 j + s - 52))%Z with s by ring. }
  assert (Ey : x / pow2 e == inject_Z (j * 2 ^ t)).
  { unfold x. rewrite inject_Z_mult, <- pow2_Z by (unfold t; lia).
    rewrite Es. field. lra. }
  rewrite (rne_comp _ _ Ey), rne_Z.
  unfold x. rewrite inject_Z_mult, <- pow2_Z by (unfold t; lia).
  rewrite Es. ring.
Qed.

Lemma fl_dyadic (j s : Z) :
  (- 2 ^ 53 < j < 2 ^ 53)%Z -> is_double (inject_Z j * pow2 s).
Proof.
  intros Hj. unfold is_double. pose proof (pow2_pos s) as Ps.
  destruct (Z.lt_trichotomy j 0) as [N|[->|P]].
  - assert (Hx : inject_Z j * pow2 s < 0).
    { assert (inject_Z j < 0) by (rewrite (Zlt_Qlt j 0) in N; exact N).
      setoid_replace 0 with (0 * pow2 s) by ring. now apply Qmult_lt_r. }
    rewrite (fl_of_neg _ Hx).
    rewrite (fl_pos_comp (- (inject_Z j * pow2 s)) (inject_Z (- j) * pow2 s))
      by (try lra; rewrite inject_Z_opp; ring).
    rewrite fl_dyadic_pos by lia. rewrite inject_Z_opp. ring.
  - rewrite fl_of_zero by ring. ring.
  - assert (Hx : 0 < inject_Z j * pow2 s).
    { assert (0 < inject_Z j) by (rewrite (Zlt_Qlt 0 j) in P; exact P).
      setoid_replace 0 with (0 * pow2 s) by ring. now apply Qmult_lt_r. }
    rewrite (fl_of_pos _ Hx). apply fl_dyadic_pos. lia.
Qed.

Lemma is_double_int (z : Z) : (- 2 ^ 53 < z < 2 ^ 53)%Z -> is_double (inject_Z z).
Proof.
  intros H. unfold is_double.
  assert (E : inject_Z z == inject_Z z * pow2 0) by (unfold pow2; cbn; ring).
  apply Qeq_trans with (inject_Z z * pow2 0); [|symmetry; exact E].
  apply Qeq_trans with (fl (inject_Z z * pow2 0));
    [apply fl_comp, E | apply (fl_dyadic z 0 H)].
Qed.

End B64Facts.

(** [JS.fl] against the standard library's IEEE 754 operations, on the
    numbers of the examples below. *)
Lemma fl_agrees_with_IEEE754 :
  IEEE754.agrees (IEEE754.div (IEEE754.of_Z 41) (IEEE754.of_Z 40))
    (JS.div (inject_Z 41) (inject_Z 40)) = true
  /\ IEEE754.agrees
       (IEEE754.mul (IEEE754.div (IEEE754.of_Z 41) (IEEE754.of_Z 40))
          (IEEE754.of_Z 60))
       (JS.mul (JS.div (inject_Z 41) (inject_Z 40)) (inject_Z 60)) = true
  /\ IEEE754.agrees
       (IEEE754.mul (IEEE754.div (IEEE754.of_Z 5) (IEEE754.of_Z 120))
          (IEEE754.of_Z 60))
       (JS.mul (JS.div (inject_Z 5) (inject_Z 120)) (inject_Z 60)) = true
  /\ IEEE754.agrees (IEEE754.div (IEEE754.of_Z 7229999) (IEEE754.of_Z 60000))
       (JS.div (inject_Z 7229999) (inject_Z 60000)) = true
  /\ IEEE754.agrees
       (IEEE754.div (IEEE754.of_Z (- 7229999)) (IEEE754.of_Z 60000))
       (JS.div (inject_Z (- 7229999)) (inject_Z 60000)) = true
  /\ IEEE754.agrees
       (IEEE754.add (IEEE754.of_Z 100000)
          (IEEE754.mul (IEEE754.div (IEEE754.of_Z 1) (IEEE754.of_Z 3))
             (IEEE754.of_Z 900000)))
       (JS.add (inject_Z 100000)
          (JS.mul (JS.div (inject_Z 1) (inject_Z 3)) (inject_Z 900000)))
     = true.
Proof. repeat split; vm_compute; reflexivity. Qed.

(** ** OTP issuance *)

Section Issue.
Import JS B64Facts.
Local Open Scope Q_scope.

(** The largest binary64 number below 1 is [1 - 2^-53]. *)
Lemma double_below_one (x : Q) :
  is_double x -> x < 1 -> x <= 1 - pow2 (- 53).
Proof.
  intros D H1.
  assert (P53 : pow2 (- 53) == 1 # 9007199254740992) by reflexivity.
  destruct (Qlt_le_dec (1 # 2) x) as [Hhalf|Hhalf]; [|lra].
  assert (Hx : 0 < x) by lra.
  assert (El : ilog2 x = (- 1)%Z).
  { apply ilog2_unique.
    - assert (E : pow2 (- 1) == 1 # 2) by reflexivity. lra.
    - assert (E : pow2 (- 1 + 1) == 1) by reflexivity. lra. }
  unfold is_double in D. rewrite (fl_of_pos x Hx) in D.
  unfold fl_pos in D. rewrite El in D.
  change (- 1 - 52)%Z with (- 53)%Z in D.
  set (m := rne (x / pow2 (- 53))) in *. rewrite P53 in D.
  assert (Hm : (m < 2 ^ 53)%Z).
  { rewrite Zlt_Qlt.
    assert (E53 : inject_Z (2 ^ 53) == 9007199254740992 # 1) by reflexivity.
    lra. }
  assert (Hm' : inject_Z m <= inject_Z (2 ^ 53 - 1))
    by (rewrite <- Zle_Qle; lia).
  assert (E53' : inject_Z (2 ^ 53 - 1) == 9007199254740991 # 1) by reflexivity.
  lra.
Qed.

(** The number that [generateOTP] floors lies in [100000, 1000000). *)
Lemma generateOTP_number_bounds (rnd : Q) :
  is_double rnd -> 0 <= rnd -> rnd < 1 ->
  let x := add (inject_Z 100000) (mul rnd (inject_Z 900000)) in
  inject_Z 100000 <= x /\ x < inject_Z 1000000.
Proof.
  intros D H0 H1 x. pose proof (double_below_one rnd D H1) as Hmax.
  assert (P53 : pow2 (- 53) == 1 # 9007199254740992) by reflexivity.
  assert (E9 : inject_Z 900000 == 900000 # 1) by reflexivity.
  assert (E1 : inject_Z 100000 == 100000 # 1) by reflexivity.
  assert (Lo : 0 <= mul rnd (inject_Z 900000)).
  { unfold mul. apply fl_nonneg. rewrite E9. lra. }
  assert (Hi : mul rnd (inject_Z 900000)
               <= fl ((1 - pow2 (- 53)) * inject_Z 900000)).
  { unfold mul. apply fl_mono. rewrite E9. lra. }
  assert (C1 : fl ((1 - pow2 (- 53)) * inject_Z 900000)
               == 7730941132799999 # 8589934592)
    by (apply Qeq_bool_eq; vm_compute; reflexivity).
  assert (C2 : fl (inject_Z 100000 + (7730941132799999 # 8589934592))
               == 8589934591999999 # 8589934592)
    by (apply Qeq_bool_eq; vm_compute; reflexivity).
  assert (C3 : fl (inject_Z 100000) == inject_Z 100000)
    by (apply Qeq_bool_eq; vm_compute; reflexivity).
  split.
  - rewrite <- C3. unfold x, add. apply fl_mono. lra.
  - apply Qle_lt_trans with (8589934591999999 # 8589934592); [|reflexivity].
    rewrite <- C2. unfold x, add. apply fl_mono. lra.
Qed.

Lemma generateOTP_numeral (rnd : Q) :
  is_double rnd -> 0 <= rnd -> rnd < 1 ->
  exists n rest,
    (100000 <= n <= 999999)%Z
    /\ n = Math_floor (add (inject_Z 100000) (mul rnd (inject_Z 900000)))
    /\ generateOTP rnd = toString n
    /\ toString n = String (digit (n / 100000)) rest
    /\ String.length (toString n) = 6%nat
    /\ all_digits (toString n) = true.
Proof.
  intros D H0 H1. unfold generateOTP.
  destruct (generateOTP_number_bounds rnd D H0 H1) as [Lo Hi].
  cbv zeta in Lo, Hi.
  set (x := add (inject_Z 100000) (mul rnd (inject_Z 900000))) in *.
  pose proof (JSFacts.Math_floor_bounds x 100000 1000000 Lo Hi) as B.
  destruct (JSFacts.toString_shape 5 (Math_floor x)) as (rest & E & L).
  { change (10 ^ Z.of_nat 5)%Z with 100000%Z.
    change (10 ^ Z.of_nat 6)%Z with 1000000%Z. exact B. }
  exists (Math_floor x), rest. repeat split; try lia; try assumption.
  apply JSFacts.toString_all_digits. lia.
Qed.

Lemma generateOTP_first_digit (rnd : Q) :
  is_double rnd -> 0 <= rnd -> rnd < 1 ->
  exists d rest,
    (1 <= d <= 9)%Z /\ generateOTP rnd = String (digit d) rest.
Proof.
  intros D H0 H1.
  destruct (generateOTP_numeral rnd D H0 H1)
    as (n & rest & Hn & _ & E & S & _).
  exists (n / 100000)%Z, rest. split; [|congruence].
  split; [apply Z.div_le_lower_bound | apply Z.lt_succ_r, Z.div_lt_upper_bound];
    lia.
Qed.

End Issue.

(** ** Rows and queries *)

Section Tables.
Context {A : Type} (key : A -> uuid).

Lemma single_Ok (rows : list A) (r : A) : single rows = Ok r <-> rows = [r].
Proof.
  destruct rows as [|x [|y l]]; simpl; split; intros H;
    inversion H; subst; reflexivity.
Qed.

Lemma single_Err_not_one (rows : list A) (e : error) :
  single rows = Err e -> e = NotExactlyOneRow /\ List.length rows <> 1%nat.
Proof.
  destruct rows as [|x [|y l]]; simpl; intros H; inversion H; subst;
    split; (reflexivity || discriminate).
Qed.

(** An update that does not change what a filter reads commutes with
    it. *)
Lemma filter_update_where_id (p : A -> bool) (k : uuid) (f : A -> A)
    (rows : list A) :
  (forall r, p (f r) = p r) ->
  filter p (update_where_id key k f rows)
  = update_where_id key k f (filter p rows).
Proof.
  intros Hp. unfold update_where_id.
  induction rows as [|r rows IH]; simpl; [reflexivity|].
  assert (E : p (if Nat.eqb (key r) k then f r else r) = p r)
    by (destruct (Nat.eqb (key r) k); [apply Hp | reflexivity]).
  rewrite E. destruct (p r); simpl; now rewrite IH.
Qed.

(** An update after which the filter rejects the row drops the rows of
    that key from the filter's answer. *)
Lemma filter_update_where_id_out (p : A -> bool) (k : uuid) (f : A -> A)
    (rows : list A) :
  (forall r, p (f r) = false) ->
  filter p (update_where_id key k f rows)
  = filter (fun r => negb (Nat.eqb (key r) k)) (filter p rows).
Proof.
  intros Hp. unfold update_where_id.
  induction rows as [|r rows IH]; simpl; [reflexivity|].
  destruct (Nat.eqb (key r) k) eqn:E.
  - rewrite Hp. destruct (p r); simpl; rewrite ?E; simpl; exact IH.
  - destruct (p r); simpl; rewrite ?E; simpl; now rewrite IH.
Qed.

Lemma find_update_where_id (k : uuid) (f : A -> A) (rows : list A) :
  (forall r, key (f r) = key r) ->
  find (fun r => Nat.eqb (key r) k) (update_where_id key k f rows)
  = option_map f (find (fun r => Nat.eqb (key r) k) rows).
Proof.
  intros Hk. unfold update_where_id.
  induction rows as [|r rows IH]; simpl; [reflexivity|].
  destruct (Nat.eqb (key r) k) eqn:E.
  - now rewrite Hk, E.
  - now rewrite E.
Qed.

Lemma filter_none (p : A -> bool) (rows : list A) :
  (forall r, In r rows -> p r = false) -> filter p rows = [].
Proof.
  induction rows as [|r rows IH]; simpl; intros H; [reflexivity|].
  rewrite (H r) by now left. apply IH. intros x Hx. apply H. now right.
Qed.

Lemma fresh_id_above (ids : list uuid) (k : uuid) :
  In k ids -> (k < fresh_id ids)%nat.
Proof.
  unfold fresh_id. induction ids as [|i ids IH]; simpl; [tauto|].
  intros [->|H]; [lia | specialize (IH H); lia].
Qed.

Lemma fresh_id_fresh (ids : list uuid) : ~ In (fresh_id ids) ids.
Proof. intros H. apply fresh_id_above in H. lia. Qed.

End Tables.

(** ** OTP verification *)

Section Verify.
Variables (now : timestamp) (workerId : uuid) (otpCode : string).

Lemma eligible_spec (t : timestamp) (r : OTPRequest.t) :
  eligible t workerId otpCode r = true <->
  OTPRequest.worker_id r = workerId /\ OTPRequest.otp_code r = otpCode
  /\ OTPRequest.is_used r = false /\ t < OTPRequest.expires_at r.
Proof.
  unfold eligible. rewrite !andb_true_iff, Nat.eqb_eq, String.eqb_eq,
    negb_true_iff, Z.ltb_lt. tauto.
Qed.

(** [verifyOTP] returns a request exactly when the query finds that
    request and no other. *)
Lemma verifyOTP_Ok (st : Store) (r : OTPRequest.t) :
  fst (verifyOTP now workerId otpCode st) = Ok r <->
  filter (eligible now workerId otpCode) (otp_requests st) = [r].
Proof.
  unfold verifyOTP. rewrite <- single_Ok.
  destruct (single _) as [d|e]; simpl; split; intros H;
    inversion H; subst; reflexivity.
Qed.

(** Every failure is the same error, and leaves the store as it was. *)
Lemma verifyOTP_Err (st : Store) (e : error) :
  fst (verifyOTP now workerId otpCode st) = Err e ->
  e = InvalidOrExpiredOTP /\ snd (verifyOTP now workerId otpCode st) = st.
Proof.
  unfold verifyOTP. destruct (single _) as [d|e']; simpl; intros H;
    inversion H; subst; split; reflexivity.
Qed.

Lemma verifyOTP_Ok_store (st : Store) (r : OTPRequest.t) :
  fst (verifyOTP now workerId otpCode st) = Ok r ->
  snd (verifyOTP now workerId otpCode st)
  = set_otp_requests
      (update_where_id OTPRequest.id (OTPRequest.id r)
         (OTPRequest.set_is_used true) (otp_requests st)) st.
Proof.
  unfold verifyOTP. destruct (single _) as [d|e]; simpl; intros H;
    inversion H; subst; reflexivity.
Qed.

(** The request returned was in the store, unused, unexpired and
    matching; afterwards the store holds it as used. *)
Lemma verifyOTP_consumes (st : Store) (r : OTPRequest.t) :
  fst (verifyOTP now workerId otpCode st) = Ok r ->
  In r (otp_requests st)
  /\ eligible now workerId otpCode r = true
  /\ In (OTPRequest.set_is_used true r)
        (otp_requests (snd (verifyOTP now workerId otpCode st))).
Proof.
  intros H. rewrite (verifyOTP_Ok_store st r H).
  apply verifyOTP_Ok in H.
  assert (Hin : In r (filter (eligible now workerId otpCode) (otp_requests st)))
    by (rewrite H; now left).
  apply filter_In in Hin. destruct Hin as [Hin He].
  repeat split; try assumption.
  simpl. unfold update_where_id. apply in_map_iff. exists r.
  now rewrite Nat.eqb_refl.
Qed.

(** A request is consumed at most once: after a successful [verifyOTP],
    the same worker and code are refused at any later time. *)
Lemma verifyOTP_once (st : Store) (r : OTPRequest.t) (later : timestamp) :
  fst (verifyOTP now workerId otpCode st) = Ok r ->
  now <= later ->
  fst (verifyOTP later workerId otpCode
         (snd (verifyOTP now workerId otpCode st)))
  = Err InvalidOrExpiredOTP.
Proof.
  intros H Hlater. rewrite (verifyOTP_Ok_store st r H).
  apply verifyOTP_Ok in H.
  unfold verifyOTP at 1. simpl otp_requests.
  rewrite filter_none; [reflexivity|].
  intros x Hx. unfold update_where_id in Hx. apply in_map_iff in Hx.
  destruct Hx as (y & <- & Hy).
  destruct (Nat.eqb (OTPRequest.id y) (OTPRequest.id r)) eqn:E.
  - unfold eligible. simpl. now rewrite andb_false_r.
  - destruct (eligible later workerId otpCode y) eqn:El; [|reflexivity].
    exfalso. apply eligible_spec in El. destruct El as (Hw & Hc & Hu & Ht).
    assert (Hin : In y (filter (eligible now workerId otpCode)
                          (otp_requests st))).
    { apply filter_In. split; [exact Hy|]. apply eligible_spec.
      repeat split; try assumption. lia. }
    rewrite H in Hin. destruct Hin as [->|[]].
    now rewrite Nat.eqb_refl in E.
Qed.

End Verify.

Lemma verifyOTP_no_match (now : timestamp) (workerId : uuid)
    (otpCode : string) (st : Store) :
  filter (eligible now workerId otpCode) (otp_requests st) = [] ->
  verifyOTP now workerId otpCode st = (Err InvalidOrExpiredOTP, st).
Proof. intros H. unfold verifyOTP. now rewrite H. Qed.

(** ** The claims on the OTP workflow *)

Section OTPClaims.
Import Sample.

(** C1 (the code departs from the claim). Two requests issued for
    worker4 that drew the same code are both unused and unexpired at time
    2000, yet [verifyOTP] refuses the code with [InvalidOrExpiredOTP] and
    consumes neither: [.single()] answers with an error when the query
    finds more than one row. *)
Theorem verifyOTP_refuses_code_issued_twice :
  let st1 := snd (createOTPRequest 0 rnd_123456 4 2 store0) in
  let st2 := snd (createOTPRequest 1000 rnd_123456 4 2 st1) in
  (exists r, In r (otp_requests st2)
             /\ eligible 2000 4 "123456" r = true)
  /\ verifyOTP 2000 4 "123456" st2 = (Err InvalidOrExpiredOTP, st2)
  /\ (exists r, verifyOTP 2000 4 "123456" st1
                = (Ok r,
                   set_otp_requests [OTPRequest.set_is_used true r] st1)).
Proof.
  cbv zeta. split; [|split].
  - eexists. split; [left; reflexivity | vm_compute; reflexivity].
  - vm_compute. reflexivity.
  - exists (OTPRequest.mk 1 4 2 "123456" false 600000).
    vm_compute. reflexivity.
Qed.

(** C2 (as the code has it). For worker and team leader ids that name
    users of the store and a value of [Math.random()] (a binary64 number
    in [0, 1)), [createOTPRequest] appends one request to [otp_requests]
    and returns it; its code is the decimal numeral of an integer from
    100000 to 999999 (six digits, the first never zero), it expires
    exactly 600000 ms (10 minutes) after [now], and it is unused. *)
Theorem createOTPRequest_issues (now : timestamp) (rnd : Q)
    (workerId teamLeaderId : uuid) (st : Store) :
  JS.is_double rnd -> (0 <= rnd)%Q -> (rnd < 1)%Q ->
  has_user workerId st = true -> has_user teamLeaderId st = true ->
  exists r,
    createOTPRequest now rnd workerId teamLeaderId st
    = (Ok r, set_otp_requests (otp_requests st ++ [r]) st)
    /\ OTPRequest.worker_id r = workerId
    /\ OTPRequest.team_leader_id r = teamLeaderId
    /\ (exists n, 100000 <= n <= 999999
                  /\ OTPRequest.otp_code r = JS.toString n)
    /\ String.length (OTPRequest.otp_code r) = 6%nat
    /\ JS.all_digits (OTPRequest.otp_code r) = true
    /\ (exists d rest, 1 <= d <= 9
                       /\ OTPRequest.otp_code r = String (JS.digit d) rest)
    /\ OTPRequest.expires_at r = now + 600000
    /\ OTPRequest.is_used r = false
    /\ ~ In (OTPRequest.id r) (map OTPRequest.id (otp_requests st)).
Proof.
  intros D H0 H1 Hw Ht.
  destruct (generateOTP_numeral rnd D H0 H1)
    as (n & rest & Hn & _ & E & S & L & A).
  unfold createOTPRequest, insert_otp_request. rewrite Hw, Ht.
  cbn [andb]. eexists. split; [reflexivity|].
  cbn [OTPRequest.worker_id OTPRequest.team_leader_id OTPRequest.otp_code
       OTPRequest.expires_at OTPRequest.is_used OTPRequest.id].
  repeat split; try reflexivity.
  - exists n. now split.
  - now rewrite E.
  - now rewrite E.
  - apply generateOTP_first_digit; assumption.
  - apply fresh_id_fresh.
Qed.

Lemma createOTPRequest_issues_witness :
  exists r,
    createOTPRequest 0 rnd_123456 4 2 store0
    = (Ok r, set_otp_requests (otp_requests store0 ++ [r]) store0)
    /\ OTPRequest.otp_code r = "123456"%string
    /\ OTPRequest.expires_at r = 600000
    /\ OTPRequest.is_used r = false.
Proof.
  destruct (createOTPRequest_issues 0 rnd_123456 4 2 store0)
    as (r & E & _ & _ & _ & _ & _ & _ & Hx & Hu & _);
    [apply Qeq_bool_eq; vm_compute; reflexivity
    | discriminate | reflexivity | reflexivity | reflexivity |].
  exists r. repeat split; try assumption.
  vm_compute in E. now inversion E.
Defined.

(** C2 (the claim as worded fails). No value of [Math.random()] makes
    [generateOTP] draw a code that starts with the digit 0: the codes
    000000 to 099999 are never issued. *)
Lemma generateOTP_never_leading_zero :
  ~ exists rnd rest,
      JS.is_double rnd /\ (0 <= rnd)%Q /\ (rnd < 1)%Q
      /\ generateOTP rnd = String "0"%char rest.
Proof.
  intros (rnd & rest & D & H0 & H1 & E).
  destruct (generateOTP_first_digit rnd D H0 H1) as (d & rest' & Hd & E').
  rewrite E in E'. inversion E' as [[Hc Hr]].
  assert (C : nat_of_ascii "0"%char = nat_of_ascii (JS.digit d))
    by now rewrite Hc.
  unfold JS.digit in C. rewrite nat_ascii_embedding in C by lia.
  change (nat_of_ascii "0") with 48%nat in C. lia.
Qed.

(** C10. When [verifyOTP] fails for the selected worker and the entered
    code, the error is [InvalidOrExpiredOTP], the store it leaves is the
    store it was given, and [handleOTPVerification] changes neither the
    store nor the dialog: no request is marked used and no user row is
    written. The [users] table changes only in a run in which [verifyOTP]
    returned a request. *)
Theorem failed_verification_changes_nothing (now : timestamp)
    (c : TeamLeader.Client) (st : Store) (w : User.t) (e : error) :
  TeamLeader.selectedWorker c = Some w ->
  fst (verifyOTP now (User.id w) (TeamLeader.enteredOTP c) st) = Err e ->
  e = InvalidOrExpiredOTP
  /\ snd (verifyOTP now (User.id w) (TeamLeader.enteredOTP c) st) = st
  /\ TeamLeader.handleOTPVerification now c st = (c, st)
  /\ (forall c' st',
        users (snd (TeamLeader.handleOTPVerification now c' st'))
        <> users st' ->
        exists w' r,
          TeamLeader.selectedWorker c' = Some w'
          /\ fst (verifyOTP now (User.id w') (TeamLeader.enteredOTP c') st')
             = Ok r).
Proof.
  intros Hs He. destruct (verifyOTP_Err _ _ _ _ _ He) as [-> Hst].
  repeat split; try assumption.
  - unfold TeamLeader.handleOTPVerification. rewrite Hs.
    destruct (verifyOTP _ _ _ _) as [res st1]. simpl in *. now subst.
  - intros c' st' Hne. unfold TeamLeader.handleOTPVerification in Hne.
    destruct (TeamLeader.selectedWorker c') as [w'|]; [|now elim Hne].
    destruct (verifyOTP now (User.id w') (TeamLeader.enteredOTP c') st')
      as [[r|e'] st1] eqn:Ev.
    + exists w', r. rewrite Ev. now split.
    + exfalso. apply Hne. simpl.
      assert (H' : fst (verifyOTP now (User.id w')
                          (TeamLeader.enteredOTP c') st') = Err e')
        by now rewrite Ev.
      apply verifyOTP_Err in H'. destruct H' as [_ H']. rewrite Ev in H'.
      simpl in H'. now subst.
Qed.

Lemma failed_verification_changes_nothing_witness :
  let c := TeamLeader.mkClient (Some worker4) "654321" true in
  let st := snd (createOTPRequest 0 rnd_123456 4 2 store0) in
  TeamLeader.handleOTPVerification 2000 c st = (c, st).
Proof.
  cbv zeta.
  apply (failed_verification_changes_nothing 2000
           (TeamLeader.mkClient (Some worker4) "654321" true)
           (snd (createOTPRequest 0 rnd_123456 4 2 store0))
           worker4 InvalidOrExpiredOTP);
    reflexivity.
Defined.

End OTPClaims.

(** ** Elapsed minutes and the efficiency score *)

Section Scoring.
Import JS B64Facts Worker.

Lemma inject_Z_minus (a b : Z) :
  (inject_Z (a - b) == inject_Z a - inject_Z b)%Q.
Proof.
  unfold Z.sub. rewrite inject_Z_plus, inject_Z_opp. reflexivity.
Qed.

(** [round_div n d] is the integer nearest to [n / d], a tie upwards. *)
Lemma round_div_nearest (n d : Z) :
  0 < d ->
  2 * d * round_div n d - d <= 2 * n < 2 * d * round_div n d + d.
Proof.
  intros Hd. unfold round_div.
  pose proof (Z.div_mod (2 * n + d) (2 * d)) as E.
  pose proof (Z.mod_pos_bound (2 * n + d) (2 * d)) as B.
  lia.
Qed.

Lemma Math_round_nonneg (x : Q) : (0 <= x)%Q -> 0 <= Math_round x.
Proof.
  intros H. unfold Math_round.
  apply (int_le_floor (x + (1 # 2)) 0). change (inject_Z 0) with 0%Q. lra.
Qed.

Lemma Math_round_unique (x : Q) (k : Z) :
  (inject_Z k - (1 # 2) <= x)%Q -> (x < inject_Z k + (1 # 2))%Q ->
  Math_round x = k.
Proof.
  intros L U. unfold Math_round. apply JSFacts.Math_floor_unique.
  - lra.
  - rewrite inject_Z_plus. change (inject_Z 1) with 1%Q. lra.
Qed.

(** The division by 60000 is rounded to binary64 before [Math.round]
    sees it, yet for any span below [2^50] ms (some 35000 years) the
    minutes are those of exact arithmetic: the quotient is at least
    1/60000 away from every tie it does not hit, and the ties are
    binary64 numbers. *)
Lemma timeTakenMinutes_round_div (endTime startTime : timestamp) :
  - 2 ^ 50 < endTime - startTime < 2 ^ 50 ->
  timeTakenMinutes endTime startTime = round_div (endTime - startTime) 60000.
Proof.
  intros Hb. unfold timeTakenMinutes. change (1000 * 60) with 60000.
  set (D := endTime - startTime) in *. set (k := round_div D 60000).
  pose proof (round_div_nearest D 60000 ltac:(lia)) as N. fold k in N.
  assert (Hk : - 2 ^ 35 < k < 2 ^ 35) by lia.
  set (x := (inject_Z D / inject_Z 60000)%Q).
  assert (Ex : (x * (60000 # 1) == inject_Z D)%Q).
  { unfold x. change (inject_Z 60000) with (60000 # 1). field. }
  assert (Lz : 60000 * (2 * k - 1) <= 2 * D) by lia.
  assert (Uz : 2 * D <= 60000 * (2 * k + 1) - 2) by lia.
  rewrite Zle_Qle in Lz, Uz.
  repeat first [ rewrite inject_Z_mult in Lz | rewrite inject_Z_plus in Lz
               | rewrite inject_Z_minus in Lz ].
  repeat first [ rewrite inject_Z_mult in Uz | rewrite inject_Z_plus in Uz
               | rewrite inject_Z_minus in Uz ].
  change (inject_Z 60000) with (60000 # 1) in Lz, Uz.
  change (inject_Z 2) with (2 # 1) in Lz, Uz.
  change (inject_Z 1) with (1 # 1) in Lz, Uz.
  (* two binary64 numbers that separate [x] from the neighbouring ties *)
  set (lo := (inject_Z (2 * k - 1) * pow2 (- 1))%Q).
  set (hi := (inject_Z (2 ^ 17 * k + 2 ^ 16 - 1) * pow2 (- 17))%Q).
  assert (Elo : (lo == inject_Z k - (1 # 2))%Q).
  { unfold lo. rewrite inject_Z_minus, inject_Z_mult.
    change (pow2 (- 1)) with (1 # 2). change (inject_Z 2) with (2 # 1).
    change (inject_Z 1) with (1 # 1). field. }
  assert (Ehi : (hi == inject_Z k + (1 # 2) - (1 # 131072))%Q).
  { unfold hi. rewrite inject_Z_minus, inject_Z_plus, inject_Z_mult.
    assert (P : (pow2 (- 17) == 1 # 131072)%Q) by reflexivity. rewrite P.
    change (inject_Z (2 ^ 17)) with (131072 # 1).
    change (inject_Z (2 ^ 16)) with (65536 # 1).
    change (inject_Z 1) with (1 # 1). field. }
  assert (Dlo : is_double lo) by (apply fl_dyadic; lia).
  assert (Dhi : is_double hi) by (apply fl_dyadic; lia).
  assert (Hlo : (lo <= x)%Q) by lra.
  assert (Hhi : (x <= hi)%Q) by lra.
  pose proof (fl_mono _ _ Hlo) as Mlo. pose proof (fl_mono _ _ Hhi) as Mhi.
  unfold is_double in Dlo, Dhi.
  apply Math_round_unique; unfold div; fold x; lra.
Qed.

Lemma div_nonneg (n d : Z) : 0 <= n -> 0 < d -> (0 <= div (inject_Z n) (inject_Z d))%Q.
Proof.
  intros Hn Hd. unfold div. apply fl_nonneg.
  apply Qle_shift_div_l.
  - change 0%Q with (inject_Z 0). now rewrite <- Zlt_Qlt.
  - rewrite Qmult_0_l. change 0%Q with (inject_Z 0). now rewrite <- Zle_Qle.
Qed.

Lemma efficiencyScore_range (bins minutes : Z) :
  0 <= bins -> 0 <= efficiencyScore bins minutes <= 100.
Proof.
  intros Hb. unfold efficiencyScore.
  pose proof (div_nonneg bins (Z.max 1 minutes) Hb ltac:(lia)) as Hq.
  assert (Hp : (0 <= mul (div (inject_Z bins) (inject_Z (Z.max 1 minutes)))
                      (inject_Z 60))%Q).
  { unfold mul. apply fl_nonneg. change (inject_Z 60) with (60 # 1). lra. }
  pose proof (Math_round_nonneg _ Hp). lia.
Qed.

Lemma efficiencyScore_zero_bins (minutes : Z) : efficiencyScore 0 minutes = 0.
Proof. reflexivity. Qed.

End Scoring.

(** *** The score against exact arithmetic *)

Section AgainstExact.
Import JS B64Facts Worker.
Variables (b d : Z).
Hypothesis Hd : 0 < d < 2 ^ 31.

Let q : Q := (inject_Z b / inject_Z d)%Q.
Let p : Q := mul (div (inject_Z b) (inject_Z d)) (inject_Z 60).

Lemma quotient_ge_dyadic (A : Z) :
  A * d <= b * 2 ^ 52 -> (inject_Z A * pow2 (- 52) <= q)%Q.
Proof.
  intros H. unfold q.
  assert (Pd : (0 < inject_Z d)%Q)
    by (change 0%Q with (inject_Z 0); rewrite <- Zlt_Qlt; lia).
  apply Qle_shift_div_l; [exact Pd|].
  assert (P : (pow2 (- 52) == 1 # 4503599627370496)%Q) by reflexivity.
  rewrite P. rewrite Zle_Qle, !inject_Z_mult in H.
  change (inject_Z (2 ^ 52)) with (4503599627370496 # 1) in H.
  apply Qle_trans with ((inject_Z A * inject_Z d) * (1 # 4503599627370496))%Q;
    [ring_simplify; apply Qle_refl | lra].
Qed.

Lemma quotient_le_dyadic (A : Z) :
  b * 2 ^ 52 <= A * d -> (q <= inject_Z A * pow2 (- 52))%Q.
Proof.
  intros H. unfold q.
  assert (Pd : (0 < inject_Z d)%Q)
    by (change 0%Q with (inject_Z 0); rewrite <- Zlt_Qlt; lia).
  apply Qle_shift_div_r; [exact Pd|].
  assert (P : (pow2 (- 52) == 1 # 4503599627370496)%Q) by reflexivity.
  rewrite P. rewrite Zle_Qle, !inject_Z_mult in H.
  change (inject_Z (2 ^ 52)) with (4503599627370496 # 1) in H.
  apply Qle_trans with ((inject_Z A * inject_Z d) * (1 # 4503599627370496))%Q;
    [lra | ring_simplify; apply Qle_refl].
Qed.

(** If the exact rate is at least [1/(2d)] above the tie [K - 1/2], the
    computed product is not below that tie. *)
Lemma product_above_tie (K : Z) :
  1 <= K <= 101 -> (2 * K - 1) * d + 1 <= 120 * b ->
  (inject_Z K - (1 # 2) <= p)%Q.
Proof.
  intros HK H.
  set (A := ((2 * K - 1) * 2 ^ 52 + 119) / 120).
  pose proof (Z.div_mod ((2 * K - 1) * 2 ^ 52 + 119) 120 ltac:(lia)) as E.
  pose proof (Z.mod_pos_bound ((2 * K - 1) * 2 ^ 52 + 119) 120 ltac:(lia)) as B.
  fold A in E.
  assert (A1 : (2 * K - 1) * 2 ^ 52 <= 120 * A) by lia.
  assert (A2 : 120 * A <= (2 * K - 1) * 2 ^ 52 + 119) by lia.
  assert (A3 : 0 < A < 2 ^ 53) by lia.
  assert (Hq : (inject_Z A * pow2 (- 52) <= q)%Q).
  { apply quotient_ge_dyadic. nia. }
  pose proof (fl_dyadic A (- 52) ltac:(lia)) as DA. unfold is_double in DA.
  pose proof (fl_mono _ _ Hq) as M1. rewrite DA in M1.
  assert (P : (pow2 (- 52) == 1 # 4503599627370496)%Q) by reflexivity.
  rewrite P in M1.
  rewrite Zle_Qle in A1.
  repeat first [ rewrite inject_Z_mult in A1 | rewrite inject_Z_minus in A1 ].
  change (inject_Z (2 ^ 52)) with (4503599627370496 # 1) in A1.
  change (inject_Z 120) with (120 # 1) in A1.
  change (inject_Z 2) with (2 # 1) in A1. change (inject_Z 1) with (1 # 1) in A1.
  pose proof (fl_dyadic (2 * K - 1) (- 1) ltac:(lia)) as DK.
  unfold is_double in DK.
  assert (EK : (inject_Z (2 * K - 1) * pow2 (- 1) == inject_Z K - (1 # 2))%Q).
  { rewrite inject_Z_minus, inject_Z_mult. change (pow2 (- 1)) with (1 # 2).
    change (inject_Z 2) with (2 # 1). change (inject_Z 1) with (1 # 1). field. }
  rewrite <- EK, <- DK. unfold p, mul, div. fold q. apply fl_mono.
  rewrite EK. change (inject_Z 60) with (60 # 1). lra.
Qed.

(** If the exact rate is at least [1/(2d)] below the tie [K + 1/2], the
    computed product is below that tie. *)
Lemma product_below_tie (K : Z) :
  0 <= K <= 101 -> 120 * b + 1 <= (2 * K + 1) * d ->
  (p < inject_Z K + (1 # 2))%Q.
Proof.
  intros HK H.
  set (A := ((2 * K + 1) * 2 ^ 49 - 2 ^ 10) / 15).
  pose proof (Z.div_mod ((2 * K + 1) * 2 ^ 49 - 2 ^ 10) 15 ltac:(lia)) as E.
  pose proof (Z.mod_pos_bound ((2 * K + 1) * 2 ^ 49 - 2 ^ 10) 15 ltac:(lia)) as B.
  fold A in E.
  assert (A1 : 15 * A <= (2 * K + 1) * 2 ^ 49 - 2 ^ 10) by lia.
  assert (A2 : (2 * K + 1) * 2 ^ 49 - 2 ^ 10 - 14 <= 15 * A) by lia.
  assert (A3 : 0 < A < 2 ^ 53) by lia.
  assert (Hq : (q <= inject_Z A * pow2 (- 52))%Q).
  { apply quotient_le_dyadic. nia. }
  pose proof (fl_dyadic A (- 52) ltac:(lia)) as DA. unfold is_double in DA.
  pose proof (fl_mono _ _ Hq) as M1. rewrite DA in M1.
  assert (P : (pow2 (- 52) == 1 # 4503599627370496)%Q) by reflexivity.
  rewrite P in M1.
  rewrite Zle_Qle in A1.
  repeat first [ rewrite inject_Z_mult in A1 | rewrite inject_Z_plus in A1
               | rewrite inject_Z_minus in A1 ].
  change (inject_Z (2 ^ 49)) with (562949953421312 # 1) in A1.
  change (inject_Z (2 ^ 10)) with (1024 # 1) in A1.
  change (inject_Z 15) with (15 # 1) in A1.
  change (inject_Z 2) with (2 # 1) in A1. change (inject_Z 1) with (1 # 1) in A1.
  set (T := (2 * K + 1) * 2 ^ 39 - 1).
  pose proof (fl_dyadic T (- 40) ltac:(unfold T; lia)) as DT.
  unfold is_double in DT.
  assert (ET : (inject_Z T * pow2 (- 40)
                == inject_Z K + (1 # 2) - (1 # 1099511627776))%Q).
  { unfold T. rewrite inject_Z_minus, inject_Z_mult, inject_Z_plus, inject_Z_mult.
    assert (P40 : (pow2 (- 40) == 1 # 1099511627776)%Q) by reflexivity.
    rewrite P40. change (inject_Z (2 ^ 39)) with (549755813888 # 1).
    change (inject_Z 2) with (2 # 1). change (inject_Z 1) with (1 # 1). field. }
  apply Qle_lt_trans with (inject_Z T * pow2 (- 40))%Q; [|lra].
  rewrite <- DT. unfold p, mul, div. fold q. apply fl_mono.
  rewrite ET. change (inject_Z 60) with (60 # 1). lra.
Qed.

End AgainstExact.

Section ScoreClaim.
Import JS B64Facts Worker.

Lemma Math_round_ge (x : Q) (k : Z) :
  (inject_Z k - (1 # 2) <= x)%Q -> k <= Math_round x.
Proof.
  intros H. unfold Math_round. apply int_le_floor. lra.
Qed.

Lemma Math_round_le (x : Q) (k : Z) :
  (x < inject_Z k + (1 # 2))%Q -> Math_round x <= k.
Proof.
  intros H. unfold Math_round. apply Z.lt_succ_r, floor_lt_int.
  rewrite <- Z.add_1_r, inject_Z_plus. change (inject_Z 1) with 1%Q. lra.
Qed.

(** For fewer than [2^31] minutes the computed score is the exactly
    rounded one wherever the exact rate is not a tie, and at a tie it is
    that or one less. *)
Lemma efficiencyScore_against_Score (bins minutes : Z) :
  0 <= bins -> minutes < 2 ^ 31 ->
  let d := Z.max 1 minutes in
  Score bins minutes - 1 <= efficiencyScore bins minutes <= Score bins minutes
  /\ ((120 * bins + d) mod (2 * d) <> 0 ->
      efficiencyScore bins minutes = Score bins minutes).
Proof.
  intros Hb Hm d.
  assert (Hd : 0 < d < 2 ^ 31) by (unfold d; lia).
  unfold efficiencyScore, Score, round_div. fold d.
  set (p := mul (div (inject_Z bins) (inject_Z d)) (inject_Z 60)).
  replace (2 * (bins * 60) + d) with (120 * bins + d) by ring.
  pose proof (Z.div_mod (120 * bins + d) (2 * d) ltac:(lia)) as E.
  pose proof (Z.mod_pos_bound (120 * bins + d) (2 * d) ltac:(lia)) as B.
  set (K := (120 * bins + d) / (2 * d)) in *.
  set (r := (120 * bins + d) mod (2 * d)) in *.
  assert (HK : 0 <= K) by (apply Z.div_pos; lia).
  assert (Hp : 0 <= Math_round p).
  { apply Math_round_nonneg. unfold p, mul. apply fl_nonneg.
    pose proof (div_nonneg bins d Hb ltac:(lia)).
    change (inject_Z 60) with (60 # 1). lra. }
  destruct (Z_le_gt_dec K 100) as [Hle|Hgt].
  - assert (U : Math_round p <= K).
    { apply Math_round_le. apply (product_below_tie bins d Hd K); nia. }
    assert (L : r <> 0 -> K <= Math_round p).
    { intros Hr. destruct (Z.eq_dec K 0) as [->|HK0]; [exact Hp|].
      apply Math_round_ge. apply (product_above_tie bins d Hd K); nia. }
    assert (L' : K - 1 <= Math_round p).
    { destruct (Z_le_gt_dec K 1) as [H1|H1]; [lia|].
      apply Math_round_ge. apply (product_above_tie bins d Hd (K - 1)); nia. }
    split; [lia|]. intros Hr. specialize (L Hr). lia.
  - assert (L : 100 <= Math_round p).
    { apply Math_round_ge. apply (product_above_tie bins d Hd 100); nia. }
    split; [lia|]. intros _. lia.
Qed.

(** C3 (the claim as worded fails). 41 bins in 40 minutes are 61.5
    bins per hour, which [min(100, round((bins / max(1, minutes)) *
    60))] rounds to 62. The program divides first, in binary64: the
    quotient 1.025 is rounded down, its product with 60 is
    61.49999999999999, and the score stored is 61. *)
Lemma efficiencyScore_at_a_tie :
  efficiencyScore 41 40 = 61
  /\ Score 41 40 = 62
  /\ efficiencyScore 41 40 <> Score 41 40.
Proof. repeat split; vm_compute; congruence. Qed.

(** C3. For a non-negative number of bins and any number of minutes,
    the score that [endCounting] computes lies between 0 and 100. For
    fewer than [2^31] minutes it is [min(100, round((bins / max(1,
    minutes)) * 60))] or one less, and exactly that value wherever the
    exact rate is not a tie between two integers. It is 3 for 5 bins in
    120 minutes, 0 for no bin whatever the minutes, and 100 (capped)
    for 60 bins in one minute, as the formula says. *)
Theorem efficiencyScore_is_capped_rate_up_to_a_tie (bins minutes : Z) :
  0 <= bins ->
  0 <= efficiencyScore bins minutes <= 100
  /\ (minutes < 2 ^ 31 ->
      Score bins minutes - 1 <= efficiencyScore bins minutes
                             <= Score bins minutes
      /\ ((120 * bins + Z.max 1 minutes) mod (2 * Z.max 1 minutes) <> 0 ->
          efficiencyScore bins minutes = Score bins minutes))
  /\ efficiencyScore 5 120 = 3 /\ Score 5 120 = 3
  /\ efficiencyScore 0 minutes = 0 /\ Score 0 minutes = 0
  /\ efficiencyScore 60 1 = 100 /\ Score 60 1 = 100.
Proof.
  intros Hb.
  split; [now apply efficiencyScore_range|].
  split; [intros Hm; now apply efficiencyScore_against_Score|].
  split; [vm_compute; reflexivity|]. split; [reflexivity|].
  split; [apply efficiencyScore_zero_bins|].
  split; [|split; [vm_compute; reflexivity | reflexivity]].
  unfold Score, round_div. rewrite Z.mul_0_l, Z.mul_0_r, Z.add_0_l.
  assert (H : 0 < Z.max 1 minutes) by lia.
  rewrite Z.div_small by lia. reflexivity.
Qed.

Lemma efficiencyScore_is_capped_rate_up_to_a_tie_witness :
  0 <= efficiencyScore 2 120 <= 100
  /\ efficiencyScore 2 120 = Score 2 120.
Proof.
  destruct (efficiencyScore_is_capped_rate_up_to_a_tie 2 120)
    as (B & E & _); [lia|].
  split; [exact B | apply E; [lia | vm_compute; congruence]].
Defined.

End ScoreClaim.

(** ** The worker's handlers, table by table *)

Section WorkerTables.
Import Worker.

Lemma insert_worker_efficiency_cases (wh : option string) (date : Z)
    (username : string) (bins qty minutes score ranking : Z) (s : Store) :
  let s' := snd (insert_worker_efficiency wh date username bins qty minutes
                   score ranking s) in
  users s' = users s /\ otp_requests s' = otp_requests s
  /\ counting_sessions s' = counting_sessions s
  /\ counting_records s' = counting_records s
  /\ match wh with
     | None => worker_efficiency s' = worker_efficiency s
     | Some name =>
         worker_efficiency s'
         = worker_efficiency s
           ++ [WorkerEfficiency.mk
                 (fresh_id (map WorkerEfficiency.id (worker_efficiency s)))
                 name date username bins qty minutes score ranking]
     end.
Proof. destruct wh; simpl; repeat split; reflexivity. Qed.

Lemma in_integer_spec (z : Z) :
  in_integer z = true <-> - 2 ^ 31 <= z <= 2 ^ 31 - 1.
Proof.
  unfold in_integer. rewrite andb_true_iff, !Z.leb_le. tauto.
Qed.

Lemma insert_counting_record_cases (sessionId : uuid) (wh : option string)
    (date : Z) (tl username binNo : string) (qty books diff : Z) (s : Store) :
  let s' := snd (insert_counting_record sessionId wh date tl username binNo
                   qty books diff s) in
  users s' = users s /\ otp_requests s' = otp_requests s
  /\ counting_sessions s' = counting_sessions s
  /\ worker_efficiency s' = worker_efficiency s
  /\ if in_integer qty && in_integer books && in_integer diff then
       match wh with
       | Some name =>
           if has_session sessionId s then
             counting_records s'
             = counting_records s
               ++ [CountingRecord.mk
                     (fresh_id (map CountingRecord.id (counting_records s)))
                     sessionId name date tl username binNo qty None
                     (Some books) (Some diff) None]
           else counting_records s' = counting_records s
       | None => counting_records s' = counting_records s
       end
     else counting_records s' = counting_records s.
Proof.
  unfold insert_counting_record.
  destruct (in_integer qty && in_integer books && in_integer diff);
    [|repeat split; reflexivity].
  destruct wh; simpl.
  - destruct (has_session sessionId s); simpl; repeat split; reflexivity.
  - repeat split; reflexivity.
Qed.

Lemma update_session_totals_cases (k : uuid) (bins qty : Z) (s : Store) :
  let s' := snd (update_session_totals k bins qty s) in
  users s' = users s /\ otp_requests s' = otp_requests s
  /\ counting_records s' = counting_records s
  /\ worker_efficiency s' = worker_efficiency s
  /\ counting_sessions s'
     = if in_integer bins && in_integer qty
       then update_where_id CountingSession.id k
              (CountingSession.set_totals bins qty) (counting_sessions s)
       else counting_sessions s.
Proof.
  unfold update_session_totals.
  destruct (in_integer bins && in_integer qty); repeat split; reflexivity.
Qed.

(** The book quantity drawn fits its column, whatever [Math.random()]
    returns. *)
Lemma mockBookQty_in_integer (rnd : Q) :
  (0 <= rnd)%Q -> (rnd < 1)%Q -> in_integer (mockBookQty rnd) = true.
Proof.
  intros H0 H1.
  assert (E : (inject_Z 100 == 100 # 1)%Q) by reflexivity.
  assert (Lo : (0 <= JS.mul rnd (inject_Z 100))%Q).
  { unfold JS.mul. apply B64Facts.fl_nonneg. rewrite E. lra. }
  assert (Hi : (JS.mul rnd (inject_Z 100) <= inject_Z 100)%Q).
  { apply Qle_trans with (JS.fl (inject_Z 100)).
    - unfold JS.mul. apply B64Facts.fl_mono. rewrite E. lra.
    - apply Qle_lteq. right. apply (B64Facts.is_double_int 100). lia. }
  apply in_integer_spec. unfold mockBookQty, JS.Math_floor.
  pose proof (B64Facts.int_le_floor _ 0 Lo) as F0.
  pose proof (Qfloor_resp_le _ _ Hi) as F1. rewrite Qfloor_Z in F1.
  lia.
Qed.

Lemma insert_counting_session_cases (workerId : uuid) (t : timestamp)
    (status : SessionStatus) (bins qty : Z) (s : Store) :
  let row := CountingSession.mk
               (fresh_id (map CountingSession.id (counting_sessions s)))
               workerId t None status bins qty in
  insert_counting_session workerId t status bins qty s
  = if has_user workerId s
    then (Ok row, set_counting_sessions (counting_sessions s ++ [row]) s)
    else (Err ForeignKeyViolation, s).
Proof. reflexivity. Qed.

Lemma find_session_has_session (k : uuid) (st : Store)
    (s : CountingSession.t) :
  find_session k st = Some s -> has_session k st = true.
Proof.
  unfold find_session, has_session. intros H.
  apply find_some in H. apply existsb_exists. now exists s.
Qed.

Lemma find_session_id (k : uuid) (st : Store) (s : CountingSession.t) :
  find_session k st = Some s -> CountingSession.id s = k.
Proof.
  unfold find_session. intros H. apply find_some in H.
  now apply Nat.eqb_eq.
Qed.

(** What [loadData] makes of the store's answer. *)
Lemma loadData_one (user : User.t) (c : Client) (st : Store)
    (s : CountingSession.t) :
  active_sessions (User.id user) st = [s] ->
  loadData user c st = setCurrentSession (Some s) c.
Proof. unfold loadData, active_sessions. now intros ->. Qed.

Lemma loadData_none (user : User.t) (c : Client) (st : Store) :
  active_sessions (User.id user) st = [] -> loadData user c st = c.
Proof. unfold loadData, active_sessions. now intros ->. Qed.

Lemma active_sessions_set_totals (workerId k : uuid) (bins qty : Z)
    (st : Store) :
  active_sessions workerId
    (set_counting_sessions
       (update_where_id CountingSession.id k
          (CountingSession.set_totals bins qty) (counting_sessions st)) st)
  = update_where_id CountingSession.id k
      (CountingSession.set_totals bins qty) (active_sessions workerId st).
Proof.
  unfold active_sessions. simpl. apply filter_update_where_id.
  intros r. reflexivity.
Qed.

Lemma active_sessions_close (workerId k : uuid) (t : timestamp)
    (st : Store) :
  active_sessions workerId
    (set_counting_sessions
       (update_where_id CountingSession.id k (CountingSession.close t)
          (counting_sessions st)) st)
  = filter (fun r => negb (Nat.eqb (CountingSession.id r) k))
      (active_sessions workerId st).
Proof.
  unfold active_sessions. simpl. apply filter_update_where_id_out.
  intros r. unfold active_session_of. simpl. apply andb_false_r.
Qed.

Lemma active_sessions_same_sessions (workerId : uuid) (st st' : Store) :
  counting_sessions st' = counting_sessions st ->
  active_sessions workerId st' = active_sessions workerId st.
Proof. unfold active_sessions. now intros ->. Qed.

(** The store that [endCounting] and [confirmQuantity] leave. *)
Lemma endCounting_store (user : User.t) (now now' : timestamp) (c : Client)
    (st : Store) (cs : CountingSession.t) :
  currentSession c = Some cs ->
  snd (endCounting user now now' c st)
  = snd (insert_worker_efficiency (User.warehouse_name user) (date_of now')
           (User.username user) (CountingSession.total_bins_counted cs)
           (CountingSession.total_qty_counted cs)
           (timeTakenMinutes now (CountingSession.start_time cs))
           (efficiencyScore (CountingSession.total_bins_counted cs)
              (timeTakenMinutes now (CountingSession.start_time cs))) 1
           (set_counting_sessions
              (update_where_id CountingSession.id (CountingSession.id cs)
                 (CountingSession.close now) (counting_sessions st)) st)).
Proof. intros Hc. unfold endCounting. rewrite Hc. reflexivity. Qed.

Lemma confirmQuantity_store (user : User.t) (now : timestamp) (rnd : Q)
    (c : Client) (st : Store) (bin : BinMaster.t) (q : Z)
    (cs : CountingSession.t) :
  selectedBin c = Some bin -> quantity c = Some q ->
  currentSession c = Some cs ->
  snd (confirmQuantity user now rnd c st)
  = snd (update_session_totals (CountingSession.id cs)
           (CountingSession.total_bins_counted cs + 1)
           (CountingSession.total_qty_counted cs + q)
           (snd (insert_counting_record (CountingSession.id cs)
                   (User.warehouse_name user) (date_of now) "TL1"
                   (User.username user) (BinMaster.bin_code bin) q
                   (mockBookQty rnd) 0 st))).
Proof.
  intros Hb Hq Hc. unfold confirmQuantity. rewrite Hb, Hq, Hc. reflexivity.
Qed.

(** A count that the store takes: the quantity and the new totals fit
    their columns. *)
Lemma confirmQuantity_taken (user : User.t) (now : timestamp) (rnd : Q)
    (c : Client) (st : Store) (bin : BinMaster.t) (q : Z)
    (cs : CountingSession.t) (wh : string) :
  selectedBin c = Some bin -> quantity c = Some q ->
  currentSession c = Some cs ->
  User.warehouse_name user = Some wh ->
  has_session (CountingSession.id cs) st = true ->
  (0 <= rnd)%Q -> (rnd < 1)%Q ->
  in_integer q = true ->
  in_integer (CountingSession.total_bins_counted cs + 1) = true ->
  in_integer (CountingSession.total_qty_counted cs + q) = true ->
  let st' := snd (confirmQuantity user now rnd c st) in
  users st' = users st /\ otp_requests st' = otp_requests st
  /\ worker_efficiency st' = worker_efficiency st
  /\ counting_records st'
     = counting_records st
       ++ [CountingRecord.mk
             (fresh_id (map CountingRecord.id (counting_records st)))
             (CountingSession.id cs) wh (date_of now) "TL1"
             (User.username user) (BinMaster.bin_code bin) q None
             (Some (mockBookQty rnd)) (Some 0) None]
  /\ counting_sessions st'
     = update_where_id CountingSession.id (CountingSession.id cs)
         (CountingSession.set_totals
            (CountingSession.total_bins_counted cs + 1)
            (CountingSession.total_qty_counted cs + q))
         (counting_sessions st).
Proof.
  intros Hb Hq Hc Hw Hs R0 R1 Iq Ib It st'. subst st'.
  rewrite (confirmQuantity_store user now rnd c st bin q cs Hb Hq Hc), Hw.
  match goal with
  | |- context [update_session_totals ?k ?b ?t ?s] =>
      pose proof (update_session_totals_cases k b t s)
        as (Uu & Uo & Ur & Ue & Us)
  end.
  pose proof (insert_counting_record_cases (CountingSession.id cs) (Some wh)
                (date_of now) "TL1" (User.username user)
                (BinMaster.bin_code bin) q (mockBookQty rnd) 0 st)
    as (Hu & Ho & Hss & He & Hr).
  cbv zeta in *.
  rewrite Iq, (mockBookQty_in_integer rnd R0 R1), Hs in Hr.
  change (in_integer 0) with true in Hr. cbn [andb] in Hr.
  rewrite Ib, It in Us. cbn [andb] in Us.
  rewrite Uu, Uo, Ur, Ue, Us, Hu, Ho, Hss, He, Hr.
  repeat split; reflexivity.
Qed.

End WorkerTables.

(** Evaluates the two writes of a count whose drawn book quantity is
    known to fit its column ([M]) and whose other numbers are given. *)
Ltac store_takes M :=
  unfold Worker.insert_counting_record, Worker.update_session_totals;
  rewrite M;
  repeat match goal with
         | |- context [in_integer ?z] =>
             let b := eval vm_compute in (in_integer z) in
             change (in_integer z) with b
         end;
  cbn -[in_integer Worker.mockBookQty Worker.date_of].

(** ** Ending a session and recording a count *)

Section SessionClaims.
Import Worker Sample.



(** C5 (the claim as worded fails). A session of worker1 is active
    and the page shows it. A count of 3000000000 is confirmed: the
    store refuses the record and the new total, which do not fit their
    32-bit columns, and [confirmQuantity] clears the form as after any
    count: nothing is appended and nothing incremented. And with the
    page open twice, a count of 85 on one page and then a count of 40 on
    the other leave two records and a session of 1 bin and a quantity
    of 40: each page writes its own copy of the totals plus its count. *)
Lemma confirmQuantity_refused_or_overwritten :
  let cs := CountingSession.mk 1 3 0 None active 0 0 in
  let st := set_counting_sessions [cs] store0 in
  let page := loadData worker1 initial st in
  let big := run worker1 (page, st)
               [ClickBin A001; TypeQuantity (Some 3000000000);
                SubmitQuantity; ClickConfirm 1000 (1 # 2)] in
  let a := run worker1 (page, st)
             [ClickBin A001; TypeQuantity (Some 85); SubmitQuantity;
              ClickConfirm 1000 (1 # 2)] in
  let b := run worker1 (page, snd a)
             [ClickBin A002; TypeQuantity (Some 40); SubmitQuantity;
              ClickConfirm 2000 (1 # 2)] in
  currentSession page = Some cs
  /\ big = (page, st)
  /\ map CountingRecord.qty_counted (counting_records (snd b)) = [85; 40]
  /\ map CountingSession.total_bins_counted (counting_sessions (snd b)) = [1]
  /\ map CountingSession.total_qty_counted (counting_sessions (snd b))
     = [40].
Proof. cbv zeta. repeat split; vm_compute; reflexivity. Qed.

(** C5. A bin and a quantity [q >= 0] are entered, the page holds the
    session [cs], with totals that are not negative and fewer than
    [2^31 - 1] bins, the store holds a row for it, the worker has a
    warehouse name and [Math.random()] returns a number in [0, 1).
    [confirmQuantity] then does not increment the totals of the store:
    it writes the totals of the page's copy plus 1 and plus [q].
    - If [total_qty_counted + q] fits a 32-bit integer, exactly one
      counting record is appended, which references the session and
      carries the bin and [q], and the session row then holds the page's
      totals plus 1 bin and plus [q]; where the page's copy is the row
      of the store, that is one more bin and [q] more quantity.
    - If [q] fits and the sum does not, the record is appended and the
      session row stays as it was.
    - If [q] itself does not fit, the store is left unchanged.
    In particular a worker who starts a session and records bin A001
    with 85 and bin A002 with 40 on one page has one session, with 2
    bins and a quantity of 125, and two records. *)
Theorem confirmQuantity_appends_and_sets_totals (user : User.t)
    (now : timestamp) (rnd : Q) (c : Client) (st : Store)
    (bin : BinMaster.t) (q : Z) (cs s0 : CountingSession.t) (wh : string) :
  selectedBin c = Some bin ->
  quantity c = Some q ->
  currentSession c = Some cs ->
  find_session (CountingSession.id cs) st = Some s0 ->
  User.warehouse_name user = Some wh ->
  (0 <= rnd)%Q -> (rnd < 1)%Q ->
  0 <= q ->
  0 <= CountingSession.total_bins_counted cs < 2 ^ 31 - 1 ->
  0 <= CountingSession.total_qty_counted cs ->
  let st' := snd (confirmQuantity user now rnd c st) in
  (CountingSession.total_qty_counted cs + q <= 2 ^ 31 - 1 ->
   (exists r,
       counting_records st' = counting_records st ++ [r]
       /\ CountingRecord.session_id r = CountingSession.id cs
       /\ CountingRecord.bin_no r = BinMaster.bin_code bin
       /\ CountingRecord.qty_counted r = q)
   /\ (exists s',
          find_session (CountingSession.id cs) st' = Some s'
          /\ CountingSession.total_bins_counted s'
             = CountingSession.total_bins_counted cs + 1
          /\ CountingSession.total_qty_counted s'
             = CountingSession.total_qty_counted cs + q
          /\ CountingSession.status s' = CountingSession.status s0
          /\ (s0 = cs ->
              CountingSession.total_bins_counted s'
              = CountingSession.total_bins_counted s0 + 1
              /\ CountingSession.total_qty_counted s'
                 = CountingSession.total_qty_counted s0 + q)))
  /\ (q <= 2 ^ 31 - 1 ->
      2 ^ 31 - 1 < CountingSession.total_qty_counted cs + q ->
      (exists r,
          counting_records st' = counting_records st ++ [r]
          /\ CountingRecord.qty_counted r = q)
      /\ counting_sessions st' = counting_sessions st)
  /\ (2 ^ 31 - 1 < q -> st' = st)
  /\ (forall t0 t1 t2 rnd1 rnd2,
         (0 <= rnd1)%Q -> (rnd1 < 1)%Q -> (0 <= rnd2)%Q -> (rnd2 < 1)%Q ->
         let w := run worker1 (initial, store0)
                    [ClickStart t0;
                     ClickBin A001; TypeQuantity (Some 85); SubmitQuantity;
                     ClickConfirm t1 rnd1;
                     ClickBin A002; TypeQuantity (Some 40); SubmitQuantity;
                     ClickConfirm t2 rnd2] in
         exists s,
           counting_sessions (snd w) = [s]
           /\ currentSession (fst w) = Some s
           /\ CountingSession.status s = active
           /\ CountingSession.total_bins_counted s = 2
           /\ CountingSession.total_qty_counted s = 125
           /\ map CountingRecord.bin_no (counting_records (snd w))
              = ["A001"; "A002"]%string
           /\ map CountingRecord.qty_counted (counting_records (snd w))
              = [85; 40]
           /\ map CountingRecord.session_id (counting_records (snd w))
              = [CountingSession.id s; CountingSession.id s]).
Proof.
  intros Hb Hq Hc Hf Hw R0 R1 Q0 B0 T0 st'. subst st'.
  pose proof (find_session_has_session _ _ _ Hf) as Hs.
  assert (Ib : in_integer (CountingSession.total_bins_counted cs + 1) = true)
    by (apply in_integer_spec; lia).
  split; [|split; [|split]].
  - intros Hsum.
    destruct (confirmQuantity_taken user now rnd c st bin q cs wh
                Hb Hq Hc Hw Hs R0 R1) as (_ & _ & _ & Hr & Hss);
      [apply in_integer_spec; lia | exact Ib | apply in_integer_spec; lia |].
    split.
    + eexists. split; [exact Hr|]. repeat split; reflexivity.
    + eexists. unfold find_session. rewrite Hss.
      rewrite find_update_where_id by reflexivity.
      unfold find_session in Hf. rewrite Hf.
      split; [reflexivity|]. do 3 (split; [reflexivity|]).
      intros ->. split; reflexivity.
  - intros Hfit Hsum.
    rewrite (confirmQuantity_store user now rnd c st bin q cs Hb Hq Hc), Hw.
    match goal with
    | |- context [update_session_totals ?k ?b ?t ?s] =>
        pose proof (update_session_totals_cases k b t s)
          as (_ & _ & Ur & _ & Us)
    end.
    pose proof (insert_counting_record_cases (CountingSession.id cs)
                  (Some wh) (date_of now) "TL1" (User.username user)
                  (BinMaster.bin_code bin) q (mockBookQty rnd) 0 st)
      as (_ & _ & Hss & _ & Hr).
    cbv zeta in Ur, Us, Hss, Hr.
    assert (Iq : in_integer q = true) by (apply in_integer_spec; lia).
    rewrite Iq, (mockBookQty_in_integer rnd R0 R1), Hs in Hr.
    change (in_integer 0) with true in Hr. cbn [andb] in Hr.
    assert (It : in_integer (CountingSession.total_qty_counted cs + q)
                 = false).
    { apply not_true_is_false. rewrite in_integer_spec. lia. }
    rewrite It, andb_false_r in Us. rewrite Ur, Us, Hss.
    split; [|reflexivity].
    eexists. split; [exact Hr | reflexivity].
  - intros Hbig.
    assert (Iq : in_integer q = false).
    { apply not_true_is_false. rewrite in_integer_spec. lia. }
    assert (It : in_integer (CountingSession.total_qty_counted cs + q)
                 = false).
    { apply not_true_is_false. rewrite in_integer_spec. lia. }
    unfold confirmQuantity. rewrite Hb, Hq, Hc.
    unfold insert_counting_record, update_session_totals.
    rewrite Iq, It, andb_false_r. reflexivity.
  - intros t0 t1 t2 rnd1 rnd2 A1 B1 A2 B2 w. subst w.
    pose proof (mockBookQty_in_integer rnd1 A1 B1) as M1.
    pose proof (mockBookQty_in_integer rnd2 A2 B2) as M2.
    unfold run. cbn -[in_integer mockBookQty date_of].
    store_takes M1. store_takes M2.
    eexists. repeat split; reflexivity.
Qed.

Lemma confirmQuantity_appends_and_sets_totals_witness :
  let cs := CountingSession.mk 1 3 0 None active 1 85 in
  let st := set_counting_sessions [cs] store0 in
  let st' := snd (confirmQuantity worker1 1000 (1 # 2)
                    (mkClient (Some cs) (Some A002) (Some 40) true) st) in
  exists s',
    find_session 1 st' = Some s'
    /\ CountingSession.total_bins_counted s' = 2
    /\ CountingSession.total_qty_counted s' = 125.
Proof.
  cbv zeta.
  destruct (confirmQuantity_appends_and_sets_totals worker1 1000 (1 # 2)
              (mkClient (Some (CountingSession.mk 1 3 0 None active 1 85))
                 (Some A002) (Some 40) true)
              (set_counting_sessions
                 [CountingSession.mk 1 3 0 None active 1 85] store0)
              A002 40 (CountingSession.mk 1 3 0 None active 1 85)
              (CountingSession.mk 1 3 0 None active 1 85)
              "Warehouse A")
    as (Hfit & _);
    [reflexivity | reflexivity | reflexivity | reflexivity | reflexivity
    | lra | lra | lia | simpl; lia | simpl; lia |].
  destruct Hfit as (_ & s' & Hs & Hb & Hq & _); [simpl; lia|].
  exists s'. repeat split; assumption.
Defined.

End SessionClaims.

(** ** Rows are appended, never rewritten *)

Section AppendOnly.
Import Worker App.

(** The handlers of the team leader, admin and vendor dashboards write
    [users] and [otp_requests] only. *)
Lemma counting_tables_untouched (call : Call) (st : Store) :
  (forall user a c, call <> WorkerDoes user a c) ->
  counting_sessions (store_after call st) = counting_sessions st
  /\ counting_records (store_after call st) = counting_records st
  /\ worker_efficiency (store_after call st) = worker_efficiency st.
Proof.
  intros Hw. destruct call as [user a c| | | | | | |];
    [now elim (Hw user a c) | | | | | | |]; cbn [store_after].
  - unfold TeamLeader.handleCreateWorker, insert_user.
    destruct (existsb _ _); [|destruct (_ && _)]; repeat split; reflexivity.
  - unfold TeamLeader.handleWorkerLogin, createOTPRequest,
      insert_otp_request.
    destruct (_ && _); repeat split; reflexivity.
  - unfold TeamLeader.handleOTPVerification.
    destruct (TeamLeader.selectedWorker c); [|repeat split; reflexivity].
    unfold verifyOTP. destruct (single _); repeat split; reflexivity.
  - unfold Admin.handleCreateUser, insert_user.
    destruct (existsb _ _); [|destruct (_ && _)]; repeat split; reflexivity.
  - repeat split; reflexivity.
  - repeat split; reflexivity.
  - repeat split; reflexivity.
Qed.

(** C8. Whatever handler of the application runs, the
    [worker_efficiency] table keeps the rows it had, unchanged and in
    place, and gains at most one row, whose ranking is 1: rows are
    created with ranking 1 and no row is revisited afterwards. *)
Theorem worker_efficiency_ranking_one (call : Call) (st : Store) :
  exists added,
    worker_efficiency (store_after call st) = worker_efficiency st ++ added
    /\ Forall (fun e => WorkerEfficiency.ranking e = 1) added
    /\ (List.length added <= 1)%nat.
Proof.
  assert (Same : forall st', worker_efficiency st' = worker_efficiency st ->
            exists added,
              worker_efficiency st' = worker_efficiency st ++ added
              /\ Forall (fun e => WorkerEfficiency.ranking e = 1) added
              /\ (List.length added <= 1)%nat).
  { intros st' E. exists []. rewrite app_nil_r. repeat split; auto. }
  destruct call as [user a c| | | | | | |];
    try (apply Same, counting_tables_untouched; discriminate).
  cbn [store_after].
  destruct a; cbn [handle snd]; try (apply Same; reflexivity).
  - unfold startCounting, insert_counting_session.
    destruct (has_user _ _); apply Same; reflexivity.
  - unfold confirmQuantity.
    destruct (selectedBin c), (quantity c), (currentSession c);
      try (apply Same; reflexivity).
    cbn [snd].
    match goal with
    | |- context [update_session_totals ?k ?b ?q ?s0] =>
        pose proof (update_session_totals_cases k b q s0)
          as (_ & _ & _ & Ue & _)
    end.
    match goal with
    | |- context [insert_counting_record ?k ?wh ?d ?tl ?u ?b ?n ?bk ?df ?s0] =>
        pose proof (insert_counting_record_cases k wh d tl u b n bk df s0)
          as (_ & _ & _ & He & _)
    end.
    apply Same. cbv zeta in Ue, He. now rewrite Ue, He.
  - unfold endCounting.
    destruct (currentSession c) as [cs|]; [|apply Same; reflexivity].
    cbn [snd].
    match goal with
    | |- context [insert_worker_efficiency ?wh ?d ?u ?b ?q ?m ?s ?r ?s0] =>
        pose proof (insert_worker_efficiency_cases wh d u b q m s r s0)
          as (_ & _ & _ & _ & He)
    end.
    destruct (User.warehouse_name user).
    + eexists. split; [exact He|].
      split; [repeat constructor | simpl; lia].
    + apply Same. exact He.
Qed.

(** C9. Whatever handler of the application runs, the
    [counting_records] table keeps the rows it had and gains at most one
    row, and that row stores a difference of 0: the row that
    [confirmQuantity] appends carries the quantity entered and the book
    quantity drawn, whatever they are, next to [difference = 0]. *)
Theorem counting_record_difference_zero (call : Call) (st : Store) :
  exists added,
    counting_records (store_after call st) = counting_records st ++ added
    /\ Forall (fun r => CountingRecord.difference r = Some 0) added
    /\ (List.length added <= 1)%nat
    /\ (forall r user now rnd c,
           call = WorkerDoes user (ClickConfirm now rnd) c -> In r added ->
           quantity c = Some (CountingRecord.qty_counted r)
           /\ CountingRecord.qty_as_per_books r = Some (mockBookQty rnd)).
Proof.
  assert (Same : forall st', counting_records st' = counting_records st ->
            exists added,
              counting_records st' = counting_records st ++ added
              /\ Forall (fun r => CountingRecord.difference r = Some 0) added
              /\ (List.length added <= 1)%nat
              /\ (forall r user now rnd c,
                     call = WorkerDoes user (ClickConfirm now rnd) c ->
                     In r added ->
                     quantity c = Some (CountingRecord.qty_counted r)
                     /\ CountingRecord.qty_as_per_books r
                        = Some (mockBookQty rnd))).
  { intros st' E. exists []. rewrite app_nil_r.
    repeat split; auto; contradiction. }
  destruct call as [user a c| | | | | | |];
    try (apply Same, counting_tables_untouched; discriminate).
  cbn [store_after].
  destruct a; cbn [handle snd]; try (apply Same; reflexivity).
  - unfold startCounting, insert_counting_session.
    destruct (has_user _ _); apply Same; reflexivity.
  - unfold confirmQuantity.
    destruct (selectedBin c) as [bin|], (quantity c) as [q|] eqn:Hq,
      (currentSession c) as [cs|]; try (apply Same; reflexivity).
    cbn [snd].
    match goal with
    | |- context [update_session_totals ?k ?b ?t ?s0] =>
        pose proof (update_session_totals_cases k b t s0)
          as (_ & _ & Ur & _ & _)
    end.
    cbv zeta in Ur. rewrite Ur. clear Ur.
    match goal with
    | |- context [insert_counting_record ?k ?wh ?d ?tl ?u ?b ?n ?bk ?df ?s0] =>
        pose proof (insert_counting_record_cases k wh d tl u b n bk df s0)
          as (_ & _ & _ & _ & Hr)
    end.
    cbv zeta in Hr.
    destruct (in_integer q && in_integer (mockBookQty rnd) && in_integer 0);
      [|apply Same; exact Hr].
    destruct (User.warehouse_name user); [|apply Same; exact Hr].
    destruct (has_session _ _); [|apply Same; exact Hr].
    eexists. split; [exact Hr|].
    split; [repeat constructor|]. split; [simpl; lia|].
    intros r user0 now0 rnd0 c0 E [<-|[]]. inversion E; subst.
    cbn [CountingRecord.qty_counted CountingRecord.qty_as_per_books].
    split; [exact Hq | reflexivity].
  - unfold endCounting.
    destruct (currentSession c) as [cs|]; [|apply Same; reflexivity].
    cbn [snd].
    match goal with
    | |- context [insert_worker_efficiency ?wh ?d ?u ?b ?q ?m ?s ?r ?s0] =>
        pose proof (insert_worker_efficiency_cases wh d u b q m s r s0)
          as (_ & _ & _ & Hr & _)
    end.
    apply Same. exact Hr.
Qed.

End AppendOnly.

(** ** One active session per worker *)

Section OneActive.
Import Worker Invariant Sample.

Lemma active_sessions_insert (wk : uuid) (st : Store)
    (row : CountingSession.t) :
  active_sessions wk
    (set_counting_sessions (counting_sessions st ++ [row]) st)
  = active_sessions wk st
    ++ (if active_session_of wk row then [row] else []).
Proof.
  unfold active_sessions. simpl. rewrite filter_app. reflexivity.
Qed.

Lemma rendered_start (c : Client) (now : timestamp) :
  rendered (ClickStart now) c = true -> currentSession c = None.
Proof. simpl. destruct (currentSession c); [discriminate | reflexivity]. Qed.

(** [startCounting] inserts without looking at the store: the new row is
    active whatever sessions the worker already has. *)
Lemma startCounting_inserts (user : User.t) (now : timestamp) (c : Client)
    (st : Store) :
  has_user (User.id user) st = true ->
  exists row,
    startCounting user now c st
    = (setCurrentSession (Some row) c,
       set_counting_sessions (counting_sessions st ++ [row]) st)
    /\ CountingSession.worker_id row = User.id user
    /\ CountingSession.status row = active
    /\ active_sessions (User.id user) (snd (startCounting user now c st))
       = active_sessions (User.id user) st ++ [row].
Proof.
  intros H. unfold startCounting, insert_counting_session. rewrite H.
  eexists. split; [reflexivity|]. split; [reflexivity|].
  split; [reflexivity|].
  cbn [snd]. rewrite active_sessions_insert.
  unfold active_session_of. simpl. now rewrite Nat.eqb_refl.
Qed.

Lemma step_preserves (user : User.t) (a : Action) (c : Client) (st : Store) :
  one_active_per_worker st -> in_sync user c st ->
  one_active_per_worker (snd (step user (c, st) a))
  /\ in_sync user (fst (step user (c, st) a)) (snd (step user (c, st) a)).
Proof.
  intros Hone Hsync. unfold step. cbn [fst].
  destruct (rendered a c) eqn:Hr; [|split; assumption].
  destruct a; cbn [handle fst snd].
  - (* Reload *)
    split; [assumption|]. unfold in_sync in *.
    destruct (currentSession c) as [cs|] eqn:Hc.
    + rewrite (loadData_one _ _ _ _ Hsync). exact Hsync.
    + rewrite (loadData_none _ _ _ Hsync). exact Hsync.
  - (* ClickStart *)
    apply rendered_start in Hr. unfold in_sync in Hsync. rewrite Hr in Hsync.
    unfold startCounting. rewrite insert_counting_session_cases.
    destruct (has_user (User.id user) st); cbn [fst snd].
    + split.
      * intros wk. rewrite active_sessions_insert.
        unfold active_session_of at 1. cbn [CountingSession.worker_id].
        destruct (Nat.eqb_spec (User.id user) wk) as [<-|Hne].
        -- rewrite Hsync. simpl. lia.
        -- cbn [andb]. rewrite app_nil_r. apply Hone.
      * unfold in_sync. cbn [currentSession setCurrentSession].
        rewrite active_sessions_insert, Hsync.
        unfold active_session_of. simpl. now rewrite Nat.eqb_refl.
    + split; [assumption|]. unfold in_sync. now rewrite Hr.
  - split; assumption.
  - split; assumption.
  - split; [assumption|]. unfold handleQuantitySubmit.
    destruct (selectedBin c), (quantity c), (currentSession c) eqn:E;
      try assumption.
    unfold in_sync in *. cbn [currentSession]. now rewrite E in Hsync.
  - (* ClickConfirm *)
    unfold confirmQuantity.
    destruct (selectedBin c) as [bin|], (quantity c) as [q|],
      (currentSession c) as [cs|] eqn:Hc; cbn [fst snd];
      try (split; assumption).
    unfold in_sync in Hsync. rewrite Hc in Hsync.
    match goal with
    | |- context [insert_counting_record ?k ?wh ?d ?tl ?u ?b ?n ?bk ?df ?s0] =>
        pose proof (insert_counting_record_cases k wh d tl u b n bk df s0)
          as (_ & _ & Hs & _);
        set (st1 := snd (insert_counting_record k wh d tl u b n bk df s0)) in *
    end.
    cbv zeta in Hs.
    assert (Hact : forall wk, active_sessions wk st1 = active_sessions wk st)
      by (intros wk; now apply active_sessions_same_sessions).
    unfold update_session_totals.
    destruct (in_integer _ && in_integer _); cbn [snd].
    + split.
      * intros wk. rewrite active_sessions_set_totals, Hact.
        unfold update_where_id. rewrite length_map. apply Hone.
      * unfold in_sync.
        assert (E : active_sessions (User.id user)
                      (set_counting_sessions
                         (update_where_id CountingSession.id
                            (CountingSession.id cs)
                            (CountingSession.set_totals
                               (CountingSession.total_bins_counted cs + 1)
                               (CountingSession.total_qty_counted cs + q))
                            (counting_sessions st1)) st1)
                    = [CountingSession.set_totals
                         (CountingSession.total_bins_counted cs + 1)
                         (CountingSession.total_qty_counted cs + q) cs]).
        { rewrite active_sessions_set_totals, Hact, Hsync. simpl.
          now rewrite Nat.eqb_refl. }
        rewrite (loadData_one _ _ _ _ E). exact E.
    + split.
      * intros wk. rewrite Hact. apply Hone.
      * unfold in_sync. rewrite <- (Hact (User.id user)) in Hsync.
        rewrite (loadData_one _ _ _ _ Hsync). exact Hsync.
  - split; assumption.
  - (* ClickEnd *)
    unfold endCounting.
    destruct (currentSession c) as [cs|] eqn:Hc; cbn [fst snd];
      [|split; assumption].
    unfold in_sync in Hsync. rewrite Hc in Hsync.
    match goal with
    | |- context [insert_worker_efficiency ?wh ?d ?u ?b ?q ?m ?s ?r ?s0] =>
        pose proof (insert_worker_efficiency_cases wh d u b q m s r s0)
          as (_ & _ & Hs & _);
        set (st2 := snd (insert_worker_efficiency wh d u b q m s r s0)) in *
    end.
    cbv zeta in Hs.
    assert (Hact : forall wk,
               active_sessions wk st2
               = filter (fun r => negb (Nat.eqb (CountingSession.id r)
                                          (CountingSession.id cs)))
                   (active_sessions wk st)).
    { intros wk. rewrite (active_sessions_same_sessions _ _ _ Hs).
      apply active_sessions_close. }
    assert (E : active_sessions (User.id user) st2 = []).
    { rewrite Hact, Hsync. simpl. now rewrite Nat.eqb_refl. }
    split.
    + intros wk. rewrite Hact.
      eapply Nat.le_trans; [apply filter_length_le | apply Hone].
    + unfold in_sync. rewrite (loadData_none _ _ _ E). exact E.
Qed.

(** C6 (as the code has it). [startCounting] checks nothing; the page
    offers it only while the client's [currentSession] is null. For one
    client whose [currentSession] agrees with the store, every sequence
    of interactions keeps each worker at one active session at most, and
    keeps the client in agreement with the store. *)
Theorem one_client_keeps_one_active (user : User.t) (tr : list Action)
    (c : Client) (st : Store) :
  one_active_per_worker st -> in_sync user c st ->
  one_active_per_worker (snd (run user (c, st) tr))
  /\ in_sync user (fst (run user (c, st) tr)) (snd (run user (c, st) tr)).
Proof.
  revert c st. unfold run.
  induction tr as [|a tr IH]; intros c st Hone Hsync; [split; assumption|].
  cbn [fold_left].
  destruct (step_preserves user a c st Hone Hsync) as [H1 H2].
  destruct (step user (c, st) a) as [c1 st1]. now apply IH.
Qed.

Lemma one_client_keeps_one_active_witness :
  one_active_per_worker
    (snd (run worker1 (initial, store0)
            [ClickStart 0; ClickBin A001; TypeQuantity (Some 85);
             SubmitQuantity; ClickConfirm 1000 (1 # 2);
             ClickEnd 7200000 7200001; ClickStart 7300000])).
Proof.
  refine (proj1 (one_client_keeps_one_active worker1
                   [ClickStart 0; ClickBin A001; TypeQuantity (Some 85);
                    SubmitQuantity; ClickConfirm 1000 (1 # 2);
                    ClickEnd 7200000 7200001; ClickStart 7300000]
                   initial store0 _ _)).
  - intros wk. simpl. lia.
  - reflexivity.
Defined.

(** C6 (the claim as worded fails). Two clients of worker1 open the
    page on a store with no session; each is offered "Start Counting",
    and once both have started the store holds two active sessions of
    worker1. The handler itself has no guard either: called by a client
    that already has a current session, it inserts a second active
    session all the same. *)
Lemma two_clients_start_two_active_sessions :
  let a := loadData worker1 initial store0 in
  let b := loadData worker1 initial store0 in
  let wa := step worker1 (a, store0) (ClickStart 0) in
  let wb := step worker1 (b, snd wa) (ClickStart 5) in
  let wa' := startCounting worker1 5 (fst wa) (snd wa) in
  one_active_per_worker store0
  /\ rendered (ClickStart 0) a = true
  /\ rendered (ClickStart 5) b = true
  /\ List.length (active_sessions (User.id worker1) (snd wb)) = 2%nat
  /\ ~ one_active_per_worker (snd wb)
  /\ isSome (currentSession (fst wa)) = true
  /\ ~ one_active_per_worker (snd wa').
Proof.
  cbv zeta. repeat split.
  - intros wk. simpl. lia.
  - intros H. specialize (H (User.id worker1)). vm_compute in H. lia.
  - intros H. specialize (H (User.id worker1)). vm_compute in H. lia.
Qed.

(** C7 (the claim as worded fails). The page of worker1 is open twice
    on an active session. One page ends it: the session is completed
    and scored. The other page, which has not been loaded again, still
    offers "End Counting"; clicked, it ends the completed session once
    more: [end_time] is overwritten and a second efficiency row is
    appended, for 150 minutes after the first one's 120. And on the
    first page a second call of [endCounting] does not fail: it returns
    with the page and the store as they were. *)
Lemma stale_page_ends_a_completed_session :
  let cs := CountingSession.mk 1 3 0 None active 2 125 in
  let st := set_counting_sessions [cs] store0 in
  let a := loadData worker1 initial st in
  let b := loadData worker1 initial st in
  let wa := step worker1 (a, st) (ClickEnd 7200000 7200001) in
  let wb := step worker1 (b, snd wa) (ClickEnd 9000000 9000001) in
  map CountingSession.status (counting_sessions (snd wa)) = [completed]
  /\ map WorkerEfficiency.time_taken_minutes (worker_efficiency (snd wa))
     = [120]
  /\ rendered (ClickEnd 9000000 9000001) b = true
  /\ map CountingSession.end_time (counting_sessions (snd wb))
     = [Some 9000000]
  /\ map WorkerEfficiency.time_taken_minutes (worker_efficiency (snd wb))
     = [120; 150]
  /\ endCounting worker1 9000000 9000001 (fst wa) (snd wa) = wa.
Proof. cbv zeta. repeat split; vm_compute; reflexivity. Qed.

(** C7. [endCounting] looks at the page's [currentSession] and never at
    the store, and it raises no error.
    - The page offers "End Counting" exactly while it holds a session;
      with none, [endCounting] returns at once and changes nothing.
    - With a session [cs] on the page, whatever the status of its row
      in the store, the row is left completed with [end_time = now],
      and for a worker with a warehouse name one efficiency row is
      appended, with the totals of the page's copy.
    - Where the page's session is the worker's one active session in
      the store, the store holds no active session of the worker
      afterwards, the page holds none and no longer offers "End
      Counting", and a second call of [endCounting] returns with the
      page and the store unchanged. *)
Theorem endCounting_looks_at_the_page_only (user : User.t)
    (now now' : timestamp) (c : Client) (st : Store) :
  let w1 := endCounting user now now' c st in
  (forall t t',
      rendered (ClickEnd t t') c = true
      <-> exists cs, currentSession c = Some cs)
  /\ (currentSession c = None -> w1 = (c, st))
  /\ (forall cs,
         currentSession c = Some cs ->
         (forall s,
             find_session (CountingSession.id cs) st = Some s ->
             exists s',
               find_session (CountingSession.id cs) (snd w1) = Some s'
               /\ CountingSession.status s' = completed
               /\ CountingSession.end_time s' = Some now)
         /\ (forall wh,
                User.warehouse_name user = Some wh ->
                exists e,
                  worker_efficiency (snd w1) = worker_efficiency st ++ [e]
                  /\ WorkerEfficiency.bins_counted e
                     = CountingSession.total_bins_counted cs
                  /\ WorkerEfficiency.qty_counted e
                     = CountingSession.total_qty_counted cs)
         /\ (in_sync user c st ->
             active_sessions (User.id user) (snd w1) = []
             /\ currentSession (fst w1) = None
             /\ forall t t',
                  rendered (ClickEnd t t') (fst w1) = false
                  /\ endCounting user t t' (fst w1) (snd w1) = w1)).
Proof.
  intros w1.
  assert (Hnone : forall t t' c0 st0,
             currentSession c0 = None ->
             endCounting user t t' c0 st0 = (c0, st0)).
  { intros t t' c0 st0 H0. unfold endCounting. now rewrite H0. }
  split; [|split; [apply Hnone|]].
  { intros t t'. cbn [rendered]. destruct (currentSession c) as [cs|].
    - split; [intros _; now exists cs | reflexivity].
    - split; [discriminate | intros [cs H]; discriminate]. }
  intros cs Hc.
  pose proof (endCounting_store user now now' c st cs Hc) as Est.
  assert (Ecl : fst (endCounting user now now' c st)
                = loadData user (setCurrentSession None c)
                    (snd (endCounting user now now' c st))).
  { unfold endCounting. rewrite Hc. reflexivity. }
  fold w1 in Est, Ecl.
  match type of Est with
  | _ = snd (insert_worker_efficiency ?wh ?d ?u ?b ?q ?m ?s ?r ?s0) =>
      pose proof (insert_worker_efficiency_cases wh d u b q m s r s0)
        as (_ & _ & Hs & _ & He)
  end.
  cbv zeta in Hs, He. rewrite <- Est in Hs, He. clearbody w1.
  cbn [counting_sessions worker_efficiency set_counting_sessions] in Hs, He.
  split; [|split].
  - intros s Hf. unfold find_session in *. rewrite Hs.
    rewrite find_update_where_id by reflexivity. rewrite Hf.
    exists (CountingSession.close now s). repeat split; reflexivity.
  - intros wh Hw. rewrite Hw in He.
    eexists. split; [exact He|]. split; reflexivity.
  - intros Hsync. unfold in_sync in Hsync. rewrite Hc in Hsync.
    assert (E : active_sessions (User.id user) (snd w1) = []).
    { unfold active_sessions. rewrite Hs.
      pose proof (active_sessions_close (User.id user)
                    (CountingSession.id cs) now st) as Hcl.
      unfold active_sessions in Hcl at 1. simpl in Hcl. rewrite Hcl, Hsync.
      simpl. now rewrite Nat.eqb_refl. }
    assert (Hcur : currentSession (fst w1) = None)
      by (rewrite Ecl; now rewrite (loadData_none _ _ _ E)).
    split; [exact E|]. split; [exact Hcur|].
    intros t t'. split.
    + cbn [rendered]. now rewrite Hcur.
    + rewrite (Hnone t t' _ _ Hcur). now destruct w1.
Qed.

Lemma endCounting_looks_at_the_page_only_witness :
  let cs := CountingSession.mk 1 3 0 None active 2 125 in
  let st := set_counting_sessions [cs] store0 in
  let w1 := endCounting worker1 7200000 7200001
              (mkClient (Some cs) None None false) st in
  currentSession (fst w1) = None
  /\ endCounting worker1 7300000 7300001 (fst w1) (snd w1) = w1.
Proof.
  cbv zeta.
  destruct (endCounting_looks_at_the_page_only worker1 7200000 7200001
              (mkClient (Some (CountingSession.mk 1 3 0 None active 2 125))
                 None None false)
              (set_counting_sessions
                 [CountingSession.mk 1 3 0 None active 2 125] store0))
    as (_ & _ & Hsome).
  destruct (Hsome (CountingSession.mk 1 3 0 None active 2 125))
    as (_ & _ & Hsync); [reflexivity|].
  destruct Hsync as (_ & Hcur & Htwice); [reflexivity|].
  split; [exact Hcur | apply Htwice].
Defined.

End OneActive.

(** * Further properties of the code *)

(** ** Signing in *)

Section SignIn.

Lemma filter_unique_key {A : Type} (key : A -> string) (k : string)
    (rows : list A) (r : A) :
  NoDup (map key rows) -> In r rows -> key r = k ->
  filter (fun x => String.eqb (key x) k) rows = [r].
Proof.
  intros Hnd Hin Hk. induction rows as [|x rows IH]; [contradiction|].
  cbn [map] in Hnd. inversion Hnd as [|? ? Hx Hrest]; subst.
  cbn [filter]. destruct Hin as [->|Hin].
  - rewrite String.eqb_refl. f_equal. apply filter_none.
    intros y Hy. apply String.eqb_neq. intros E. apply Hx.
    rewrite <- E. now apply in_map.
  - destruct (String.eqb_spec (key x) (key r)) as [E|_].
    + exfalso. apply Hx. rewrite E. now apply in_map.
    + now apply IH.
Qed.

Lemma signIn_Some (username password : string) (st : Store) (u : User.t) :
  signIn username password st = Some u
  <-> filter (fun x => String.eqb (User.username x) username) (users st) = [u]
      /\ (password = "admin123" \/ password = "password123")%string.
Proof.
  unfold signIn.
  destruct (single _) as [data|e] eqn:S.
  - apply single_Ok in S. rewrite S.
    destruct (String.eqb password "admin123") eqn:E1;
      destruct (String.eqb password "password123") eqn:E2;
      cbn [negb andb];
      try (apply String.eqb_eq in E1); try (apply String.eqb_eq in E2);
      try (split; [intros [= ->]; split; [reflexivity | tauto]
                  | intros [[= ->] _]; reflexivity]).
    apply String.eqb_neq in E1, E2. split; [discriminate|].
    intros [_ [E|E]]; contradiction.
  - split; [discriminate|]. intros [F _].
    apply single_Err_not_one in S. destruct S as [_ S].
    rewrite F in S. exfalso. now apply S.
Qed.

(** X1. With user names unique, [signIn] returns a user exactly when the
    store holds a user of that name and the password is one of the two
    fixed words; the user returned is that row. Neither the role nor the
    approval of the user is looked at. *)
Theorem signIn_accepts (username password : string) (st : Store)
    (u : User.t) :
  Schema.unique_usernames st ->
  (signIn username password st = Some u
   <-> In u (users st) /\ User.username u = username
       /\ (password = "admin123" \/ password = "password123")%string).
Proof.
  intros Hnd. rewrite signIn_Some. split.
  - intros [F P]. assert (Hin : In u (filter
      (fun x => String.eqb (User.username x) username) (users st)))
      by (rewrite F; now left).
    apply filter_In in Hin. destruct Hin as [Hin E].
    apply String.eqb_eq in E. tauto.
  - intros (Hin & E & P). split; [|exact P].
    now apply filter_unique_key.
Qed.

Lemma signIn_accepts_witness :
  signIn "worker4" "password123" Sample.store0 = Some Sample.worker4.
Proof.
  apply (signIn_accepts "worker4" "password123" Sample.store0 Sample.worker4).
  - unfold Schema.unique_usernames. simpl.
    repeat constructor; simpl; intuition discriminate.
  - split; [simpl; tauto|]. split; [reflexivity | now right].
Defined.

End SignIn.

(** ** The team leader's workers and requests *)

Section TeamLeaderFacts.
Import TeamLeader TeamLeaderView.

Lemma existsb_false_forall {A : Type} (p : A -> bool) (l : list A) :
  existsb p l = false <-> forall x, In x l -> p x = false.
Proof.
  induction l as [|a l IH]; simpl; [tauto|].
  rewrite orb_false_iff, IH. split.
  - intros [Ha Hl] x [<-|Hx]; auto.
  - intros H. split; [apply H; now left | intros x Hx; apply H; now right].
Qed.

Lemma unique_usernames_insert (st : Store) (row : User.t) :
  Schema.unique_usernames st ->
  existsb (fun u => String.eqb (User.username u) (User.username row))
    (users st) = false ->
  Schema.unique_usernames (set_users (users st ++ [row]) st).
Proof.
  unfold Schema.unique_usernames. cbn [users set_users]. intros Hnd Hno.
  rewrite map_app. apply NoDup_app; [exact Hnd | repeat constructor; tauto|].
  intros a Ha [<-|[]]. apply in_map_iff in Ha. destruct Ha as (u & E & Hu).
  rewrite existsb_false_forall in Hno. specialize (Hno u Hu).
  apply String.eqb_neq in Hno. now apply Hno.
Qed.

(** X2. [handleCreateWorker] changes nothing when the name is taken or
    the team leader is not a user of the store. Otherwise it adds one
    user: a worker, not approved, under this team leader and in the team
    leader's warehouse. The team leader's list of workers is the list
    it was with that row more, and with user names unique (as they then
    stay) the new worker can sign in at once. *)
Theorem handleCreateWorker_outcomes (user : User.t) (name : string)
    (st : Store) :
  let st' := handleCreateWorker user name st in
  if existsb (fun u => String.eqb (User.username u) name) (users st)
     || negb (has_user (User.id user) st)
  then st' = st
  else
    exists w,
      st' = set_users (users st ++ [w]) st
      /\ User.username w = name
      /\ User.role w = worker
      /\ User.is_approved w = false
      /\ User.team_leader_id w = Some (User.id user)
      /\ User.vendor_id w = None
      /\ User.warehouse_name w = User.warehouse_name user
      /\ has_user (User.id w) st = false
      /\ Permutation (workers user st') (w :: workers user st)
      /\ (Schema.unique_usernames st ->
          Schema.unique_usernames st'
          /\ signIn name "password123" st' = Some w).
Proof.
  intros st'. subst st'. unfold handleCreateWorker, insert_user.
  destruct (existsb _ (users st)) eqn:Hdup; cbn [orb snd]; [reflexivity|].
  cbn [references_ok andb].
  destruct (has_user (User.id user) st) eqn:Htl; cbn [negb snd];
    [|reflexivity].
  eexists. split; [reflexivity|]. cbn [User.username User.role
    User.is_approved User.team_leader_id User.vendor_id User.warehouse_name
    User.id].
  repeat (split; [reflexivity|]).
  split; [|split].
  - unfold has_user. apply existsb_false_forall. intros u Hu.
    apply Nat.eqb_neq. intros E.
    apply (fresh_id_fresh (map User.id (users st))).
    rewrite <- E. now apply in_map.
  - unfold workers. cbn [users set_users]. rewrite filter_app.
    cbn [filter User.role User.team_leader_id Role_eqb option_uuid_eqb andb].
    rewrite Nat.eqb_refl. symmetry. apply Permutation_cons_append.
  - intros Hnd.
    assert (Hnd' : Schema.unique_usernames
              (set_users
                 (users st
                  ++ [User.mk (fresh_id (map User.id (users st))) name worker
                        None (Some (User.id user)) false
                        (User.warehouse_name user)]) st))
      by (apply unique_usernames_insert; assumption).
    split; [exact Hnd'|].
    apply signIn_Some. split; [|now right].
    apply filter_unique_key; [exact Hnd' | | reflexivity].
    cbn [users set_users]. apply in_or_app. right. now left.
Qed.

Lemma update_where_id_absent {A : Type} (key : A -> uuid) (k : uuid)
    (f : A -> A) (rows : list A) :
  (forall r, In r rows -> key r <> k) -> update_where_id key k f rows = rows.
Proof.
  intros H. unfold update_where_id. induction rows as [|r rows IH];
    cbn [map]; [reflexivity|].
  destruct (Nat.eqb_spec (key r) k) as [E|_].
  - exfalso. apply (H r); [now left | exact E].
  - f_equal. apply IH. intros x Hx. apply H. now right.
Qed.

Lemma update_where_id_app {A : Type} (key : A -> uuid) (k : uuid)
    (f : A -> A) (l l' : list A) :
  update_where_id key k f (l ++ l')
  = update_where_id key k f l ++ update_where_id key k f l'.
Proof. unfold update_where_id. apply map_app. Qed.

(** What [handleWorkerLogin] does when both users are in the store. *)
Lemma handleWorkerLogin_issues (user : User.t) (now : timestamp) (rnd : Q)
    (w : User.t) (c : Client) (st : Store) :
  has_user (User.id w) st = true -> has_user (User.id user) st = true ->
  handleWorkerLogin user now rnd w c st
  = (mkClient (Some w) (enteredOTP c) true,
     set_otp_requests
       (otp_requests st
        ++ [OTPRequest.mk (fresh_id (map OTPRequest.id (otp_requests st)))
              (User.id w) (User.id user) (generateOTP rnd) false
              (now + 600000)]) st).
Proof.
  intros Hw Hu. unfold handleWorkerLogin, createOTPRequest, insert_otp_request.
  now rewrite Hw, Hu.
Qed.

(** X3. A team leader issues a code for a worker with [handleWorkerLogin]
    ([rnd] is the value of [Math.random()], a binary64 number in [0, 1))
    and types it into the dialog. If no older request of that worker
    with the same code is still open, [handleOTPVerification] approves
    the worker, marks the request used and closes the dialog at any time
    before [now + 600000]; from that instant on it is refused and
    changes nothing. *)
Theorem issued_otp_approves_until_expiry (user w : User.t)
    (now now' : timestamp) (rnd : Q) (c : Client) (st : Store) :
  JS.is_double rnd -> (0 <= rnd)%Q -> (rnd < 1)%Q ->
  has_user (User.id w) st = true ->
  has_user (User.id user) st = true ->
  (forall r, In r (otp_requests st) ->
             eligible now' (User.id w) (generateOTP rnd) r = false) ->
  let w1 := handleWorkerLogin user now rnd w c st in
  let typed := setEnteredOTP (generateOTP rnd) (fst w1) in
  let w2 := handleOTPVerification now' typed (snd w1) in
  selectedWorker (fst w1) = Some w
  /\ showOTPModal (fst w1) = true
  /\ if now' <? now + 600000
     then
       fst w2 = mkClient None EmptyString false
       /\ users (snd w2)
          = update_where_id User.id (User.id w) (User.set_is_approved true)
              (users st)
       /\ (forall u, In u (users (snd w2)) -> User.id u = User.id w ->
                     User.is_approved u = true)
       /\ exists r,
            otp_requests (snd w1) = otp_requests st ++ [r]
            /\ otp_requests (snd w2)
               = otp_requests st ++ [OTPRequest.set_is_used true r]
     else w2 = (typed, snd w1).
Proof.
  intros _ _ _ Hw Hu Hold w1 typed w2. subst w2 typed w1.
  rewrite (handleWorkerLogin_issues user now rnd w c st Hw Hu).
  cbn [fst snd selectedWorker showOTPModal].
  split; [reflexivity|]. split; [reflexivity|].
  set (row := OTPRequest.mk (fresh_id (map OTPRequest.id (otp_requests st)))
                (User.id w) (User.id user) (generateOTP rnd) false
                (now + 600000)).
  unfold handleOTPVerification, setEnteredOTP.
  cbn [selectedWorker enteredOTP showOTPModal].
  unfold verifyOTP. cbn [otp_requests set_otp_requests].
  rewrite filter_app, (filter_none _ _ Hold). cbn [app filter].
  assert (E : eligible now' (User.id w) (generateOTP rnd) row
              = (now' <? now + 600000)).
  { unfold eligible, row. cbn [OTPRequest.worker_id OTPRequest.otp_code
      OTPRequest.is_used OTPRequest.expires_at].
    now rewrite Nat.eqb_refl, String.eqb_refl. }
  rewrite E. destruct (now' <? now + 600000); cbn [single]; [|reflexivity].
  cbn [fst snd users set_users set_otp_requests otp_requests].
  split; [reflexivity|]. split; [reflexivity|]. split.
  - intros u Hu' Eu. unfold update_where_id in Hu'.
    apply in_map_iff in Hu'. destruct Hu' as (x & <- & _).
    destruct (Nat.eqb_spec (User.id x) (User.id w)) as [_|N];
      [reflexivity|].
    now elim N.
  - exists row. split; [reflexivity|].
    rewrite update_where_id_app. f_equal.
    + apply update_where_id_absent. intros r Hr Er.
      apply (fresh_id_fresh (map OTPRequest.id (otp_requests st))).
      change (fresh_id (map OTPRequest.id (otp_requests st)))
        with (OTPRequest.id row).
      rewrite <- Er. now apply in_map.
    + unfold update_where_id. cbn [map]. now rewrite Nat.eqb_refl.
Qed.

Lemma issued_otp_approves_until_expiry_witness :
  let w1 := handleWorkerLogin Sample.tl2 0 Sample.rnd_123456 Sample.worker4
              (mkClient None EmptyString false) Sample.store0 in
  let typed := setEnteredOTP (generateOTP Sample.rnd_123456) (fst w1) in
  let w2 := handleOTPVerification 599999 typed (snd w1) in
  map User.is_approved (users (snd w2)) = [true; true; true; true].
Proof.
  cbv zeta.
  destruct (issued_otp_approves_until_expiry Sample.tl2 Sample.worker4
              0 599999 Sample.rnd_123456 (mkClient None EmptyString false)
              Sample.store0)
    as (_ & _ & H);
    [ unfold JS.is_double; apply Qeq_bool_eq; vm_compute; reflexivity
    | unfold Qle; simpl; lia | unfold Qlt; simpl; lia
    | reflexivity | reflexivity | intros r [] |].
  cbv zeta in H. change (599999 <? 0 + 600000) with true in H.
  cbv iota in H. rewrite (proj1 (proj2 H)). reflexivity.
Defined.

(** X4. The team leader's list of pending requests: a request issued
    by [handleWorkerLogin] at [now] is listed at the times before
    [now + 600000] and at no later time, and the requests listed before
    stay; when [verifyOTP] then accepts a request, that request leaves
    the list and the others stay. *)
Theorem pending_requests_follow_issue_and_use (user w : User.t)
    (now : timestamp) (rnd : Q) (c : Client) (st : Store) :
  has_user (User.id w) st = true ->
  has_user (User.id user) st = true ->
  let st1 := snd (handleWorkerLogin user now rnd w c st) in
  exists r,
    otp_requests st1 = otp_requests st ++ [r]
    /\ (forall t,
           Permutation (otpRequests user t st1)
             ((if t <? now + 600000 then [r] else [])
              ++ otpRequests user t st))
    /\ (forall now' workerId code r',
           fst (verifyOTP now' workerId code st1) = Ok r' ->
           forall t,
             Permutation
               (otpRequests user t (snd (verifyOTP now' workerId code st1)))
               (filter (fun x => negb (Nat.eqb (OTPRequest.id x)
                                         (OTPRequest.id r')))
                  (otpRequests user t st1))).
Proof.
  intros Hw Hu st1. subst st1.
  rewrite (handleWorkerLogin_issues user now rnd w c st Hw Hu).
  cbn [snd]. eexists. split; [reflexivity|]. split.
  - intros t. unfold otpRequests. cbn [otp_requests set_otp_requests].
    rewrite filter_app. cbn [filter OTPRequest.team_leader_id
      OTPRequest.is_used OTPRequest.expires_at negb andb].
    rewrite Nat.eqb_refl. apply Permutation_app_comm.
  - intros now' workerId code r' H t.
    rewrite (verifyOTP_Ok_store _ _ _ _ _ H). unfold otpRequests.
    cbn [otp_requests set_otp_requests].
    rewrite (filter_update_where_id_out OTPRequest.id);
      [apply Permutation_refl|].
    intros x. cbn [OTPRequest.set_is_used OTPRequest.is_used negb].
    now rewrite andb_false_r.
Qed.

Lemma pending_requests_follow_issue_and_use_witness :
  let st1 := snd (handleWorkerLogin Sample.tl2 0 Sample.rnd_123456
                    Sample.worker4 (mkClient None EmptyString false)
                    Sample.store0) in
  exists r,
    Permutation (otpRequests Sample.tl2 599999 st1) [r]
    /\ Permutation (otpRequests Sample.tl2 600000 st1) [].
Proof.
  cbv zeta.
  destruct (pending_requests_follow_issue_and_use Sample.tl2 Sample.worker4
              0 Sample.rnd_123456 (mkClient None EmptyString false)
              Sample.store0)
    as (r & _ & H & _); [reflexivity | reflexivity |].
  cbv zeta in H. exists r. split; [apply (H 599999) | apply (H 600000)].
Defined.

(** X5. Issuing a new code does not revoke an older one: a request
    that [verifyOTP] would accept is still accepted after
    [handleWorkerLogin] has issued another code, as long as the new code
    differs from the old one. (If the worker's new code is the same, the
    query finds two rows and both are refused.) *)
Theorem new_code_does_not_revoke_the_old_one (user w : User.t)
    (now t : timestamp) (rnd : Q) (c : Client) (st : Store)
    (workerId : uuid) (code : string) (r : OTPRequest.t) :
  fst (verifyOTP t workerId code st) = Ok r ->
  let st1 := snd (handleWorkerLogin user now rnd w c st) in
  (generateOTP rnd <> code \/ User.id w <> workerId ->
   fst (verifyOTP t workerId code st1) = Ok r)
  /\ (generateOTP rnd = code -> User.id w = workerId ->
      has_user (User.id w) st = true -> has_user (User.id user) st = true ->
      t < now + 600000 ->
      verifyOTP t workerId code st1 = (Err InvalidOrExpiredOTP, st1)).
Proof.
  intros Hok st1. apply verifyOTP_Ok in Hok. split.
  - intros Hne. apply verifyOTP_Ok. subst st1.
    unfold handleWorkerLogin, createOTPRequest, insert_otp_request.
    destruct (has_user (User.id w) st && has_user (User.id user) st);
      cbn [snd]; [|exact Hok].
    cbn [otp_requests set_otp_requests]. rewrite filter_app, Hok.
    cbn [filter]. unfold eligible at 1.
    cbn [OTPRequest.worker_id OTPRequest.otp_code OTPRequest.is_used].
    destruct Hne as [Hne|Hne].
    + apply String.eqb_neq in Hne. rewrite Hne.
      now rewrite andb_false_r.
    + apply Nat.eqb_neq in Hne. now rewrite Hne.
  - intros Ecode Ew Hw Hu Ht. subst st1.
    rewrite (handleWorkerLogin_issues user now rnd w c st Hw Hu).
    cbn [snd]. unfold verifyOTP. cbn [otp_requests set_otp_requests].
    rewrite filter_app, Hok. cbn [filter]. unfold eligible at 1.
    cbn [OTPRequest.worker_id OTPRequest.otp_code OTPRequest.is_used
         OTPRequest.expires_at negb].
    rewrite Ecode, Ew, Nat.eqb_refl, String.eqb_refl.
    rewrite (proj2 (Z.ltb_lt _ _) Ht). reflexivity.
Qed.

Lemma new_code_does_not_revoke_the_old_one_witness :
  let st := set_otp_requests [OTPRequest.mk 1 4 2 "654321" false 600000]
              Sample.store0 in
  let st1 := snd (handleWorkerLogin Sample.tl2 1000 Sample.rnd_123456
                    Sample.worker4 (mkClient None EmptyString false) st) in
  fst (verifyOTP 2000 4 "654321" st1)
  = Ok (OTPRequest.mk 1 4 2 "654321" false 600000).
Proof.
  cbv zeta.
  destruct (new_code_does_not_revoke_the_old_one Sample.tl2 Sample.worker4
              1000 2000 Sample.rnd_123456 (mkClient None EmptyString false)
              (set_otp_requests [OTPRequest.mk 1 4 2 "654321" false 600000]
                 Sample.store0)
              4%nat "654321" (OTPRequest.mk 1 4 2 "654321" false 600000))
    as [H _]; [reflexivity|].
  apply H. left. vm_compute. discriminate.
Defined.

End TeamLeaderFacts.

(** ** What the handlers do to each table *)

Section TableShapes.
Import Worker App.

(** The worker's handlers write neither [users] nor [otp_requests]. *)
Lemma worker_keeps_users_and_requests (user : User.t) (a : Action)
    (c : Client) (st : Store) :
  users (snd (handle user a (c, st))) = users st
  /\ otp_requests (snd (handle user a (c, st))) = otp_requests st.
Proof.
  destruct a; cbn [handle snd]; try (split; reflexivity).
  - unfold startCounting, insert_counting_session.
    destruct (has_user _ _); split; reflexivity.
  - unfold confirmQuantity.
    destruct (selectedBin c), (quantity c), (currentSession c);
      try (split; reflexivity).
    cbn [snd].
    match goal with
    | |- context [update_session_totals ?k ?b ?t ?s0] =>
        pose proof (update_session_totals_cases k b t s0) as (Uu & Uo & _)
    end.
    match goal with
    | |- context [insert_counting_record ?k ?wh ?d ?tl ?u ?b ?n ?bk ?df ?s0] =>
        pose proof (insert_counting_record_cases k wh d tl u b n bk df s0)
          as (Hu & Ho & _)
    end.
    cbv zeta in Uu, Uo, Hu, Ho. rewrite Uu, Uo. split; assumption.
  - unfold endCounting.
    destruct (currentSession c) as [cs|]; [|split; reflexivity].
    cbn [snd].
    match goal with
    | |- context [insert_worker_efficiency ?wh ?d ?u ?b ?q ?m ?s ?r ?s0] =>
        pose proof (insert_worker_efficiency_cases wh d u b q m s r s0)
          as (Hu & Ho & _)
    end.
    split; assumption.
Qed.

(** How a handler can change [otp_requests]: not at all, by one new
    unused row, or by marking the rows of one id used. *)
Lemma otp_requests_after (call : Call) (st : Store) :
  otp_requests (store_after call st) = otp_requests st
  \/ (exists row,
         otp_requests (store_after call st) = otp_requests st ++ [row])
  \/ (exists k,
         otp_requests (store_after call st)
         = update_where_id OTPRequest.id k (OTPRequest.set_is_used true)
             (otp_requests st)).
Proof.
  destruct call as [user a c|user name|user now rnd w c|now c|name role wh
                   |k b|k|k]; cbn [store_after].
  - left. apply worker_keeps_users_and_requests.
  - left. unfold TeamLeader.handleCreateWorker, insert_user.
    destruct (existsb _ _); [|destruct (_ && _)]; reflexivity.
  - unfold TeamLeader.handleWorkerLogin, createOTPRequest,
      insert_otp_request.
    destruct (_ && _); [right; left; eexists|left]; reflexivity.
  - unfold TeamLeader.handleOTPVerification.
    destruct (TeamLeader.selectedWorker c); [|left; reflexivity].
    unfold verifyOTP. destruct (single _);
      [right; right; eexists|left]; reflexivity.
  - left. unfold Admin.handleCreateUser, insert_user.
    destruct (existsb _ _); [|destruct (_ && _)]; reflexivity.
  - left. reflexivity.
  - left. reflexivity.
  - left. reflexivity.
Qed.

Lemma set_is_used_of_used (r : OTPRequest.t) :
  OTPRequest.is_used r = true -> OTPRequest.set_is_used true r = r.
Proof. destruct r; simpl; now intros ->. Qed.

Lemma set_is_approved_of_approved (u : User.t) :
  User.is_approved u = true -> User.set_is_approved true u = u.
Proof. destruct u; simpl; now intros ->. Qed.

Lemma request_after_one (call : Call) (st : Store) (r : OTPRequest.t) :
  In r (otp_requests st) ->
  In r (otp_requests (store_after call st))
  \/ In (OTPRequest.set_is_used true r) (otp_requests (store_after call st)).
Proof.
  intros Hin. destruct (otp_requests_after call st) as [E|[(row & E)|(k & E)]];
    rewrite E.
  - now left.
  - left. apply in_or_app. now left.
  - unfold update_where_id.
    destruct (Nat.eqb (OTPRequest.id r) k) eqn:Ek; [right|left];
      apply in_map_iff; exists r; now rewrite Ek.
Qed.

(** X6. Through any sequence of handler calls a request stays in
    [otp_requests], as it was or marked used: no handler deletes a
    request or makes a used one unused. A request that is used therefore
    stays as it is, and [verifyOTP] never returns it again. *)
Theorem requests_only_become_used (calls : list Call) (st : Store)
    (r : OTPRequest.t) :
  In r (otp_requests st) ->
  let st' := stores_after calls st in
  (In r (otp_requests st')
   \/ In (OTPRequest.set_is_used true r) (otp_requests st'))
  /\ (OTPRequest.is_used r = true ->
      In r (otp_requests st')
      /\ forall now workerId code,
           fst (verifyOTP now workerId code st') <> Ok r).
Proof.
  intros Hin st'. subst st'.
  assert (Step : In r (otp_requests (stores_after calls st))
                 \/ In (OTPRequest.set_is_used true r)
                      (otp_requests (stores_after calls st))).
  { revert st r Hin. unfold stores_after.
    induction calls as [|call calls IH]; intros st r Hin; cbn [fold_left];
      [now left|].
    destruct (request_after_one call st r Hin) as [H|H].
    - now apply IH.
    - right. destruct (IH _ _ H) as [H'|H']; exact H'. }
  split; [exact Step|]. intros Hu. split.
  - rewrite (set_is_used_of_used r Hu) in Step. tauto.
  - intros now workerId code H. apply verifyOTP_consumes in H.
    destruct H as (_ & He & _). apply eligible_spec in He.
    destruct He as (_ & _ & He & _). congruence.
Qed.

Lemma requests_only_become_used_witness :
  let used := OTPRequest.mk 1 4 2 "123456" true 600000 in
  let st := set_otp_requests [used] Sample.store0 in
  In used
    (otp_requests
       (stores_after
          [OTPVerification 1000
             (TeamLeader.mkClient (Some Sample.worker4) "123456" true);
           WorkerLogin Sample.tl2 2000 Sample.rnd_123456 Sample.worker4
             (TeamLeader.mkClient None EmptyString false)] st)).
Proof.
  cbv zeta.
  apply (requests_only_become_used
           [OTPVerification 1000
              (TeamLeader.mkClient (Some Sample.worker4) "123456" true);
            WorkerLogin Sample.tl2 2000 Sample.rnd_123456 Sample.worker4
              (TeamLeader.mkClient None EmptyString false)]
           (set_otp_requests [OTPRequest.mk 1 4 2 "123456" true 600000]
              Sample.store0)
           (OTPRequest.mk 1 4 2 "123456" true 600000));
    [now left | reflexivity].
Defined.

(** How a handler can change [users]: not at all, by one new row that
    the constraints accept, or by setting [is_approved] on the rows of
    one id. *)
Lemma users_after (call : Call) (st : Store) :
  users (store_after call st) = users st
  \/ (exists row,
         users (store_after call st) = users st ++ [row]
         /\ User.id row = fresh_id (map User.id (users st))
         /\ existsb (fun u => String.eqb (User.username u)
                                (User.username row)) (users st) = false
         /\ references_ok (User.vendor_id row) st = true
         /\ references_ok (User.team_leader_id row) st = true)
  \/ (exists k b,
         users (store_after call st)
         = update_where_id User.id k (User.set_is_approved b) (users st)
         /\ (b = false -> exists s, call = ToggleUserApproval k s)).
Proof.
  destruct call as [user a c|user name|user now rnd w c|now c|name role wh
                   |k b|k|k]; cbn [store_after].
  - left. apply worker_keeps_users_and_requests.
  - unfold TeamLeader.handleCreateWorker, insert_user.
    destruct (existsb _ _) eqn:Hd; [left; reflexivity|].
    destruct (_ && _) eqn:Hr; [|left; reflexivity].
    right; left. eexists. split; [reflexivity|].
    apply andb_true_iff in Hr. cbn [User.id User.username User.vendor_id
      User.team_leader_id]. tauto.
  - left. unfold TeamLeader.handleWorkerLogin, createOTPRequest,
      insert_otp_request.
    destruct (_ && _); reflexivity.
  - unfold TeamLeader.handleOTPVerification.
    destruct (TeamLeader.selectedWorker c) as [w|]; [|left; reflexivity].
    unfold verifyOTP. destruct (single _); [|left; reflexivity].
    right; right. exists (User.id w), true.
    split; [reflexivity | discriminate].
  - unfold Admin.handleCreateUser, insert_user.
    destruct (existsb _ _) eqn:Hd; [left; reflexivity|].
    destruct (_ && _) eqn:Hr; [|left; reflexivity].
    right; left. eexists. split; [reflexivity|].
    apply andb_true_iff in Hr. cbn [User.id User.username User.vendor_id
      User.team_leader_id]. tauto.
  - right; right. exists k, (negb b). split; [reflexivity|].
    intros _. now exists b.
  - right; right. exists k, true. split; [reflexivity | discriminate].
  - left. reflexivity.
Qed.

(** X7. Approval is taken back by the admin's toggle only, and no
    handler removes a user row (the vendor's rejection asks for it, and
    the policies of the migration let it delete nothing): through any
    sequence of handler calls that holds no [toggleUserApproval] on the
    id of an approved user, that user's row stays in the store as it
    is. *)
Theorem approved_user_stays (calls : list Call) (st : Store) (u : User.t) :
  In u (users st) ->
  User.is_approved u = true ->
  (forall s, ~ In (ToggleUserApproval (User.id u) s) calls) ->
  In u (users (stores_after calls st)).
Proof.
  revert st. unfold stores_after.
  induction calls as [|call calls IH]; intros st Hin Ha Ht;
    cbn [fold_left]; [exact Hin|].
  apply IH; try assumption.
  - destruct (users_after call st)
      as [E|[(row & E & _)|(k & b & E & Hb)]]; rewrite E.
    + exact Hin.
    + apply in_or_app. now left.
    + unfold update_where_id. apply in_map_iff. exists u. split; [|exact Hin].
      destruct (Nat.eqb_spec (User.id u) k) as [Ek|_]; [|reflexivity].
      destruct b; [now apply set_is_approved_of_approved|].
      destruct (Hb eq_refl) as (s & ->). exfalso.
      apply (Ht s). left. now rewrite Ek.
  - intros s H. apply (Ht s). now right.
Qed.

Lemma approved_user_stays_witness :
  In Sample.worker1
    (users
       (stores_after
          [ToggleUserApproval 4 false; RejectTeamLeader 3;
           OTPVerification 1000
             (TeamLeader.mkClient (Some Sample.worker1) "123456" true)]
          Sample.store0)).
Proof.
  apply approved_user_stays.
  - simpl. tauto.
  - reflexivity.
  - intros s [H|[H|[H|[]]]]; discriminate.
Defined.

End TableShapes.

(** ** The constraints of the schema *)

Section SchemaKept.
Import Worker App.

Lemma has_user_In (k : uuid) (st : Store) :
  has_user k st = true <-> exists u, In u (users st) /\ User.id u = k.
Proof.
  unfold has_user. rewrite existsb_exists. split; intros (u & Hu & E);
    exists u; split; try assumption; now apply Nat.eqb_eq.
Qed.

Lemma has_session_In (k : uuid) (st : Store) :
  has_session k st = true
  <-> exists s, In s (counting_sessions st) /\ CountingSession.id s = k.
Proof.
  unfold has_session. rewrite existsb_exists. split; intros (u & Hu & E);
    exists u; split; try assumption; now apply Nat.eqb_eq.
Qed.

Lemma In_update_where_id {A : Type} (key : A -> uuid) (k : uuid) (f : A -> A)
    (rows : list A) (x : A) :
  In x (update_where_id key k f rows) ->
  exists r, In r rows /\ (x = r \/ x = f r).
Proof.
  unfold update_where_id. intros H. apply in_map_iff in H.
  destruct H as (r & E & Hr). exists r. split; [exact Hr|].
  destruct (Nat.eqb (key r) k); subst; tauto.
Qed.

Lemma update_where_id_keeps {A : Type} (key : A -> uuid) (k : uuid)
    (f : A -> A) (rows : list A) (r : A) :
  In r rows -> In r (update_where_id key k f rows)
               \/ In (f r) (update_where_id key k f rows).
Proof.
  intros H. unfold update_where_id.
  destruct (Nat.eqb (key r) k) eqn:E; [right|left]; apply in_map_iff;
    exists r; now rewrite E.
Qed.

(** The sessions and records a handler leaves: the ids of the sessions
    persist, and a new row references a row of the store. *)
Lemma counting_rows_after (call : Call) (st : Store) :
  (forall s', In s' (counting_sessions (store_after call st)) ->
     (exists s, In s (counting_sessions st)
                /\ CountingSession.worker_id s = CountingSession.worker_id s')
     \/ has_user (CountingSession.worker_id s') st = true)
  /\ (forall k, has_session k st = true ->
                has_session k (store_after call st) = true)
  /\ (forall r', In r' (counting_records (store_after call st)) ->
        In r' (counting_records st)
        \/ has_session (CountingRecord.session_id r') st = true).
Proof.
  assert (Same : forall st',
            counting_sessions st' = counting_sessions st ->
            counting_records st' = counting_records st ->
            (forall s', In s' (counting_sessions st') ->
               (exists s, In s (counting_sessions st)
                          /\ CountingSession.worker_id s
                             = CountingSession.worker_id s')
               \/ has_user (CountingSession.worker_id s') st = true)
            /\ (forall k, has_session k st = true -> has_session k st' = true)
            /\ (forall r', In r' (counting_records st') ->
                  In r' (counting_records st)
                  \/ has_session (CountingRecord.session_id r') st = true)).
  { intros st' Es Er. unfold has_session. rewrite Es, Er.
    split; [|split]; intros; try tauto. left. eauto. }
  assert (Upd : forall k f recs',
            (forall s, CountingSession.id (f s) = CountingSession.id s
                       /\ CountingSession.worker_id (f s)
                          = CountingSession.worker_id s) ->
            (forall r', In r' recs' ->
               In r' (counting_records st)
               \/ has_session (CountingRecord.session_id r') st = true) ->
            forall st',
            counting_sessions st'
            = update_where_id CountingSession.id k f (counting_sessions st) ->
            counting_records st' = recs' ->
            (forall s', In s' (counting_sessions st') ->
               (exists s, In s (counting_sessions st)
                          /\ CountingSession.worker_id s
                             = CountingSession.worker_id s')
               \/ has_user (CountingSession.worker_id s') st = true)
            /\ (forall k, has_session k st = true -> has_session k st' = true)
            /\ (forall r', In r' (counting_records st') ->
                  In r' (counting_records st)
                  \/ has_session (CountingRecord.session_id r') st = true)).
  { intros k f recs' Hf Hrec st' Es Er. split; [|split].
    - intros s' Hs'. rewrite Es in Hs'. apply In_update_where_id in Hs'.
      destruct Hs' as (s & Hs & [->| ->]); left; exists s;
        split; try assumption; [reflexivity | symmetry; apply Hf].
    - intros j Hj. apply has_session_In in Hj. destruct Hj as (s & Hs & Ej).
      apply has_session_In. rewrite Es.
      destruct (update_where_id_keeps CountingSession.id k f _ s Hs)
        as [H|H]; [exists s | exists (f s)]; split; try assumption.
      now rewrite (proj1 (Hf s)).
    - rewrite Er. exact Hrec. }
  destruct call as [user a c| | | | | | |];
    try (apply Same; apply counting_tables_untouched; discriminate).
  cbn [store_after]. destruct a; cbn [handle snd];
    try (apply Same; reflexivity).
  - unfold startCounting, insert_counting_session.
    destruct (has_user (User.id user) st) eqn:Hu; [|apply Same; reflexivity].
    cbn [snd counting_sessions counting_records set_counting_sessions].
    split; [|split].
    + intros s' Hs'. apply in_app_or in Hs'. destruct Hs' as [H|[<-|[]]].
      * left. eauto.
      * right. exact Hu.
    + intros k Hk. apply has_session_In in Hk. destruct Hk as (s & Hs & E).
      apply has_session_In. exists s. split; [|exact E].
      cbn [counting_sessions set_counting_sessions]. apply in_or_app.
      now left.
    + tauto.
  - unfold confirmQuantity.
    destruct (selectedBin c), (quantity c), (currentSession c) as [cs|];
      try (apply Same; reflexivity).
    cbn [snd].
    match goal with
    | |- context [insert_counting_record ?k ?wh ?d ?tl ?u ?b ?n ?bk ?df ?s0] =>
        pose proof (insert_counting_record_cases k wh d tl u b n bk df s0)
          as (_ & _ & Hs & _ & Hr);
        set (st1 := snd (insert_counting_record k wh d tl u b n bk df s0)) in *
    end.
    cbv zeta in Hs, Hr.
    assert (Rec : forall r', In r' (counting_records st1) ->
              In r' (counting_records st)
              \/ has_session (CountingRecord.session_id r') st = true).
    { intros r' Hr'.
      destruct (in_integer _ && in_integer _ && in_integer _);
        [|rewrite Hr in Hr'; now left].
      destruct (User.warehouse_name user);
        [|rewrite Hr in Hr'; now left].
      destruct (has_session (CountingSession.id cs) st) eqn:Hcs;
        rewrite Hr in Hr'; [|now left].
      apply in_app_or in Hr'. destruct Hr' as [H|[<-|[]]]; [now left|].
      right. exact Hcs. }
    match goal with
    | |- context [update_session_totals ?k ?b ?t ?s0] =>
        pose proof (update_session_totals_cases k b t s0)
          as (_ & _ & Ur & _ & Us)
    end.
    cbv zeta in Ur, Us.
    destruct (in_integer _ && in_integer _) in Us.
    + eapply (Upd _ _ (counting_records st1));
        [ | exact Rec | rewrite Us, Hs; reflexivity | exact Ur].
      intros s. split; reflexivity.
    + rewrite Hs in Us. split; [|split].
      * intros s' Hs'. rewrite Us in Hs'. left. eauto.
      * intros j Hj. unfold has_session in *. now rewrite Us.
      * intros r' Hr'. rewrite Ur in Hr'. now apply Rec.
  - unfold endCounting.
    destruct (currentSession c) as [cs|]; [|apply Same; reflexivity].
    cbn [snd].
    match goal with
    | |- context [insert_worker_efficiency ?wh ?d ?u ?b ?q ?m ?s ?r ?s0] =>
        pose proof (insert_worker_efficiency_cases wh d u b q m s r s0)
          as (_ & _ & Hs & Hr & _)
    end.
    cbv zeta in Hs, Hr.
    eapply (Upd _ _ (counting_records st));
      [ | | rewrite Hs; reflexivity | rewrite Hr; reflexivity].
    + intros s. split; reflexivity.
    + tauto.
Qed.

(** The requests a handler leaves reference what they referenced, and
    a new one references users of the store. *)
Lemma otp_rows_after (call : Call) (st : Store) (r' : OTPRequest.t) :
  In r' (otp_requests (store_after call st)) ->
  (exists r, In r (otp_requests st)
             /\ OTPRequest.worker_id r = OTPRequest.worker_id r'
             /\ OTPRequest.team_leader_id r = OTPRequest.team_leader_id r')
  \/ (has_user (OTPRequest.worker_id r') st = true
      /\ has_user (OTPRequest.team_leader_id r') st = true).
Proof.
  assert (Same : forall l, l = otp_requests st -> In r' l ->
            (exists r, In r (otp_requests st)
                       /\ OTPRequest.worker_id r = OTPRequest.worker_id r'
                       /\ OTPRequest.team_leader_id r
                          = OTPRequest.team_leader_id r')
            \/ (has_user (OTPRequest.worker_id r') st = true
                /\ has_user (OTPRequest.team_leader_id r') st = true)).
  { intros l -> H. left. exists r'. tauto. }
  destruct call as [user a c|user name|user now rnd w c|now c|name role wh
                   |k b|k|k]; cbn [store_after].
  - apply Same. apply worker_keeps_users_and_requests.
  - apply Same. unfold TeamLeader.handleCreateWorker, insert_user.
    destruct (existsb _ _); [|destruct (_ && _)]; reflexivity.
  - unfold TeamLeader.handleWorkerLogin, createOTPRequest,
      insert_otp_request.
    destruct (has_user (User.id w) st && has_user (User.id user) st) eqn:H;
      [|apply Same; reflexivity].
    cbn [snd otp_requests set_otp_requests]. intros Hin.
    apply in_app_or in Hin. destruct Hin as [Hin|[<-|[]]].
    + left. exists r'. tauto.
    + right. now apply andb_true_iff in H.
  - unfold TeamLeader.handleOTPVerification.
    destruct (TeamLeader.selectedWorker c); [|apply Same; reflexivity].
    unfold verifyOTP. destruct (single _); [|apply Same; reflexivity].
    cbn [snd otp_requests set_users set_otp_requests]. intros Hin.
    apply In_update_where_id in Hin. destruct Hin as (r & Hr & [->| ->]);
      left; exists r; repeat split; assumption.
  - apply Same. unfold Admin.handleCreateUser, insert_user.
    destruct (existsb _ _); [|destruct (_ && _)]; reflexivity.
  - apply Same. reflexivity.
  - apply Same. reflexivity.
  - apply Same. reflexivity.
Qed.

Lemma references_ok_In (o : option uuid) (st : Store) :
  references_ok o st = true
  <-> forall k, o = Some k -> has_user k st = true.
Proof.
  destruct o as [j|]; simpl; split; intros H; try reflexivity.
  - now intros k [= <-].
  - now apply H.
  - discriminate.
Qed.

(** Rows kept by a filter still have distinct keys. *)
Lemma distinct_keys_filter {K R : Type} (key : R -> K) (keep : R -> bool)
    (rows : list R) (Hrows : NoDup (map key rows)) :
  NoDup (map key (filter keep rows)).
Proof.
  revert Hrows. induction rows as [|r rows IH]; cbn [map filter];
    intros Hrows; [constructor|].
  inversion Hrows as [|? ? Hr Hrest]; subst.
  destruct (keep r); cbn [map]; [|now apply IH].
  constructor; [|now apply IH].
  intros Hin. apply Hr. apply in_map_iff in Hin.
  destruct Hin as (x & E & Hx). apply filter_In in Hx.
  apply in_map_iff. exists x. tauto.
Qed.

Lemma map_update_where_id {A B : Type} (key : A -> uuid) (k : uuid)
    (f : A -> A) (g : A -> B) (rows : list A) :
  (forall r, g (f r) = g r) ->
  map g (update_where_id key k f rows) = map g rows.
Proof.
  intros H. unfold update_where_id. rewrite map_map. apply map_ext.
  intros r. destruct (Nat.eqb (key r) k); [apply H | reflexivity].
Qed.

Lemma existsb_key_update_where_id {A : Type} (key : A -> uuid) (k j : uuid)
    (f : A -> A) (rows : list A) :
  (forall r, key (f r) = key r) ->
  existsb (fun r => Nat.eqb (key r) j) (update_where_id key k f rows)
  = existsb (fun r => Nat.eqb (key r) j) rows.
Proof.
  intros H. unfold update_where_id.
  induction rows as [|r l IH]; cbn [map existsb]; [reflexivity|].
  rewrite IH. f_equal. destruct (Nat.eqb (key r) k); [|reflexivity].
  now rewrite H.
Qed.

(** X8. Every handler keeps the constraints of the schema: from a store
    in which user names are unique and every reference names a row of
    the store, the store a handler leaves is such a store again. *)
Theorem handlers_keep_the_schema (call : Call) (st : Store) :
  Schema.unique_usernames st ->
  Schema.foreign_keys st ->
  Schema.unique_usernames (store_after call st)
  /\ Schema.foreign_keys (store_after call st).
Proof.
  intros Hnd Hfk.
  destruct (counting_rows_after call st) as (Cs & Ch & Cr).
  pose proof (otp_rows_after call st) as Co.
  destruct (users_after call st)
    as [E|[(row & E & Eid & Hdup & Hv & Ht)|(k & b & E & _)]].
  - (* [users] as it was *)
    assert (Hu : forall j, has_user j (store_after call st) = has_user j st)
      by (intros j; unfold has_user; now rewrite E).
    split; [unfold Schema.unique_usernames; now rewrite E|].
    destruct Hfk as (Fu & Fo & Fs & Fr). split; [|split; [|split]].
    + intros u Hin. rewrite E in Hin. destruct (Fu u Hin) as [A B].
      split; apply references_ok_In; intros j Ej; rewrite Hu;
        [revert j Ej; now apply references_ok_In
        | revert j Ej; now apply references_ok_In].
    + intros r Hin. rewrite !Hu.
      destruct (Co r Hin) as [(r0 & H0 & <- & <-)|H]; [|exact H].
      exact (Fo r0 H0).
    + intros s Hin. rewrite Hu.
      destruct (Cs s Hin) as [(s0 & H0 & <-)|H]; [|exact H].
      exact (Fs s0 H0).
    + intros r Hin. destruct (Cr r Hin) as [H|H]; apply Ch; [|exact H].
      exact (Fr r H).
  - (* one user more *)
    assert (Hu : forall j, has_user j st = true ->
                           has_user j (store_after call st) = true).
    { intros j H. apply has_user_In in H. destruct H as (u & Hin & Ej).
      apply has_user_In. exists u. split; [|exact Ej].
      rewrite E. apply in_or_app. now left. }
    assert (Ho : forall o, references_ok o st = true ->
                           references_ok o (store_after call st) = true).
    { intros [j|] H; [|reflexivity]. simpl in *. now apply Hu. }
    split.
    + unfold Schema.unique_usernames. rewrite E.
      apply (unique_usernames_insert st row Hnd Hdup).
    + destruct Hfk as (Fu & Fo & Fs & Fr). split; [|split; [|split]].
      * intros u Hin. rewrite E in Hin. apply in_app_or in Hin.
        destruct Hin as [Hin|[<-|[]]]; [destruct (Fu u Hin)|];
          split; now apply Ho.
      * intros r Hin.
        destruct (Co r Hin) as [(r0 & H0 & <- & <-)|H];
          [destruct (Fo r0 H0)|destruct H]; split; now apply Hu.
      * intros s Hin. apply Hu.
        destruct (Cs s Hin) as [(s0 & H0 & <-)|H]; [|exact H].
        exact (Fs s0 H0).
      * intros r Hin. destruct (Cr r Hin) as [H|H]; apply Ch; [|exact H].
        exact (Fr r H).
  - (* an approval set *)
    assert (Hu : forall j, has_user j (store_after call st) = has_user j st).
    { intros j. unfold has_user. rewrite E.
      now apply existsb_key_update_where_id. }
    assert (Ho : forall o, references_ok o (store_after call st)
                           = references_ok o st).
    { intros [j|]; [apply Hu | reflexivity]. }
    split.
    + unfold Schema.unique_usernames. rewrite E.
      rewrite map_update_where_id; [exact Hnd | reflexivity].
    + destruct Hfk as (Fu & Fo & Fs & Fr). split; [|split; [|split]].
      * intros u Hin. rewrite E in Hin. apply In_update_where_id in Hin.
        destruct Hin as (u0 & H0 & [->| ->]); rewrite !Ho;
          exact (Fu u0 H0).
      * intros r Hin. rewrite !Hu.
        destruct (Co r Hin) as [(r0 & H0 & <- & <-)|H]; [|exact H].
        exact (Fo r0 H0).
      * intros s Hin. rewrite Hu.
        destruct (Cs s Hin) as [(s0 & H0 & <-)|H]; [|exact H].
        exact (Fs s0 H0).
      * intros r Hin. destruct (Cr r Hin) as [H|H]; apply Ch; [|exact H].
        exact (Fr r H).
Qed.

Lemma handlers_keep_the_schema_witness :
  Schema.unique_usernames (store_after (RejectTeamLeader 2) Sample.store0)
  /\ Schema.foreign_keys (store_after (RejectTeamLeader 2) Sample.store0).
Proof.
  apply handlers_keep_the_schema.
  - unfold Schema.unique_usernames. simpl.
    repeat constructor; simpl; intuition discriminate.
  - unfold Schema.foreign_keys. simpl.
    split; [|split; [|split]]; try tauto.
    intros u [<-|[<-|[<-|[<-|[]]]]]; split; reflexivity.
Defined.

End SchemaKept.

(** ** The admin's dashboard *)

Section AdminFacts.
Import JS B64Facts AdminView.

Lemma Math_round_comp (x y : Q) : (x == y)%Q -> Math_round x = Math_round y.
Proof. intros E. unfold Math_round. apply Qfloor_comp. now rewrite E. Qed.

(** Binary64 adds these integers exactly. *)
Lemma sumEfficiency_from (data : list WorkerEfficiency.t) (acc : Q) (z : Z) :
  (acc == inject_Z z)%Q -> 0 <= z ->
  Forall (fun e => 0 <= WorkerEfficiency.efficiency_score e) data ->
  z + totalScore data < 2 ^ 53 ->
  (fold_left
     (fun sum e => add sum (inject_Z (WorkerEfficiency.efficiency_score e)))
     data acc == inject_Z (z + totalScore data))%Q.
Proof.
  revert acc z. induction data as [|e data IH]; intros acc z Ea Hz Hpos Hlt;
    cbn [fold_left totalScore map fold_right] in *.
  - now rewrite Z.add_0_r.
  - inversion Hpos as [|? ? He Hrest]; subst.
    fold (totalScore data) in *.
    assert (Ht : 0 <= totalScore data).
    { clear - Hrest. induction Hrest; cbn [totalScore map fold_right];
        [lia|]. fold (totalScore l). lia. }
    rewrite Z.add_assoc. apply IH; try assumption; try lia.
    unfold add.
    apply Qeq_trans
      with (fl (inject_Z (z + WorkerEfficiency.efficiency_score e))).
    + apply fl_comp. rewrite Ea, inject_Z_plus. reflexivity.
    + apply is_double_int. lia.
Qed.

Lemma totalScore_bounds (data : list WorkerEfficiency.t) (lo hi : Z) :
  Forall (fun e => lo <= WorkerEfficiency.efficiency_score e <= hi) data ->
  lo * Z.of_nat (List.length data) <= totalScore data
  <= hi * Z.of_nat (List.length data).
Proof.
  induction 1 as [|e l He _ IH]; cbn [totalScore map fold_right List.length];
    [lia|].
  fold (totalScore l). lia.
Qed.

(** X9. The average on the admin's dashboard, for at least one and
    fewer than [2^31] efficiency rows whose scores lie between 0 and
    100: it is the exact mean of the scores rounded to the nearest
    integer, a tie upwards, and so lies between 0 and 100 itself. The
    binary64 sum and quotient lose nothing here. *)
Theorem avgEfficiency_is_rounded_mean (users : list User.t)
    (countingRecords : list CountingRecord.t)
    (efficiencyData : list WorkerEfficiency.t) :
  efficiencyData <> [] ->
  Z.of_nat (List.length efficiencyData) < 2 ^ 31 ->
  Forall (fun e => 0 <= WorkerEfficiency.efficiency_score e <= 100)
    efficiencyData ->
  let avg := avgEfficiency (stats users countingRecords efficiencyData) in
  avg = round_div (totalScore efficiencyData)
          (Z.of_nat (List.length efficiencyData))
  /\ 0 <= avg <= 100.
Proof.
  intros Hne Hlen Hall avg.
  set (n := Z.of_nat (List.length efficiencyData)) in *.
  set (total := totalScore efficiencyData).
  assert (Hn : 0 < n < 2 ^ 31).
  { split; [|exact Hlen]. unfold n. destruct efficiencyData; [congruence|].
    cbn [List.length]. lia. }
  pose proof (totalScore_bounds efficiencyData 0 100 Hall) as HS.
  fold n total in HS.
  assert (Esum : (sumEfficiency efficiencyData == inject_Z total)%Q).
  { unfold sumEfficiency.
    change (inject_Z total) with (inject_Z (0 + total)). unfold total.
    apply sumEfficiency_from; [reflexivity | lia | | fold total; lia].
    eapply Forall_impl; [|exact Hall]. cbv beta. intros; lia. }
  assert (Eavg : avg = Math_round (fl (inject_Z total / inject_Z n))).
  { unfold avg, stats. cbn [avgEfficiency].
    destruct efficiencyData as [|e l]; [congruence|].
    apply Math_round_comp. unfold div. apply fl_comp.
    fold n. now rewrite Esum. }
  unfold round_div.
  pose proof (Z.div_mod (2 * total + n) (2 * n) ltac:(lia)) as E.
  pose proof (Z.mod_pos_bound (2 * total + n) (2 * n) ltac:(lia)) as B.
  set (K := (2 * total + n) / (2 * n)) in *.
  set (r := (2 * total + n) mod (2 * n)) in *.
  assert (HK : 0 <= K <= 100).
  { split; [apply Z.div_pos; lia|].
    apply Z.lt_succ_r. apply Z.div_lt_upper_bound; lia. }
  assert (P52 : (pow2 (- 52) == 1 # 4503599627370496)%Q) by reflexivity.
  assert (Lo : K <= avg).
  { rewrite Eavg. apply Math_round_ge.
    pose proof (fl_dyadic (2 * K - 1) (- 1) ltac:(lia)) as DK.
    unfold is_double in DK.
    assert (EK : (inject_Z (2 * K - 1) * pow2 (- 1)
                  == inject_Z K - (1 # 2))%Q).
    { rewrite inject_Z_minus, inject_Z_mult.
      change (pow2 (- 1)) with (1 # 2).
      change (inject_Z 2) with (2 # 1). change (inject_Z 1) with (1 # 1).
      field. }
    rewrite <- EK, <- DK. apply fl_mono. rewrite EK.
    apply Qle_trans with (inject_Z ((2 * K - 1) * 2 ^ 51) * pow2 (- 52))%Q.
    - rewrite inject_Z_mult, inject_Z_minus, inject_Z_mult, P52.
      change (inject_Z (2 ^ 51)) with (2251799813685248 # 1).
      change (inject_Z 2) with (2 # 1). change (inject_Z 1) with (1 # 1).
      lra.
    - apply (quotient_ge_dyadic total n Hn). nia. }
  assert (Hi : avg <= K).
  { rewrite Eavg. apply Math_round_le.
    set (T := (2 * K + 1) * 2 ^ 31 - 1).
    pose proof (fl_dyadic T (- 32) ltac:(unfold T; lia)) as DT.
    unfold is_double in DT.
    assert (ET : (inject_Z T * pow2 (- 32)
                  == inject_Z K + (1 # 2) - (1 # 4294967296))%Q).
    { unfold T.
      rewrite inject_Z_minus, inject_Z_mult, inject_Z_plus, inject_Z_mult.
      assert (P32 : (pow2 (- 32) == 1 # 4294967296)%Q) by reflexivity.
      rewrite P32. change (inject_Z (2 ^ 31)) with (2147483648 # 1).
      change (inject_Z 2) with (2 # 1). change (inject_Z 1) with (1 # 1).
      field. }
    apply Qle_lt_trans with (inject_Z T * pow2 (- 32))%Q; [|lra].
    rewrite <- DT. apply fl_mono. rewrite ET.
    apply Qle_trans with (inject_Z (T * 2 ^ 20) * pow2 (- 52))%Q.
    - apply (quotient_le_dyadic total n Hn). unfold T. nia.
    - rewrite inject_Z_mult, P52. fold (inject_Z T).
      assert (P32 : (pow2 (- 32) == 1 # 4294967296)%Q) by reflexivity.
      rewrite <- ET, P32. change (inject_Z (2 ^ 20)) with (1048576 # 1).
      lra. }
  lia.
Qed.

Lemma avgEfficiency_is_rounded_mean_witness :
  avgEfficiency
    (stats [] []
       [WorkerEfficiency.mk 1 "Warehouse A" 0 "worker1" 5 425 120 85 1;
        WorkerEfficiency.mk 2 "Warehouse A" 0 "worker2" 4 320 110 78 2])
  = 82.
Proof.
  destruct (avgEfficiency_is_rounded_mean [] []
              [WorkerEfficiency.mk 1 "Warehouse A" 0 "worker1" 5 425 120 85 1;
               WorkerEfficiency.mk 2 "Warehouse A" 0 "worker2" 4 320 110 78 2])
    as [E _].
  - discriminate.
  - simpl. lia.
  - repeat constructor; simpl; lia.
  - exact E.
Defined.

Lemma set_users_same (st : Store) : set_users (users st) st = st.
Proof. now destruct st. Qed.

Lemma set_users_twice (us us' : list User.t) (st : Store) :
  set_users us (set_users us' st) = set_users us st.
Proof. reflexivity. Qed.

Lemma update_where_id_twice {A : Type} (key : A -> uuid) (k : uuid)
    (f g : A -> A) (rows : list A) :
  (forall r, key (g r) = key r) ->
  update_where_id key k f (update_where_id key k g rows)
  = update_where_id key k (fun r => f (g r)) rows.
Proof.
  intros Hk. unfold update_where_id. rewrite map_map. apply map_ext.
  intros r. destruct (Nat.eqb (key r) k) eqn:E; [|now rewrite E].
  now rewrite Hk, E.
Qed.

Lemma update_where_id_id {A : Type} (key : A -> uuid) (k : uuid)
    (f : A -> A) (rows : list A) :
  (forall r, In r rows -> key r = k -> f r = r) ->
  update_where_id key k f rows = rows.
Proof.
  intros H. unfold update_where_id. rewrite <- (map_id rows) at 2.
  apply map_ext_in. intros r Hr.
  destruct (Nat.eqb_spec (key r) k); [now apply H | reflexivity].
Qed.

(** X10. [toggleUserApproval] writes the opposite of the status it is
    given, not of the status in the store. Given the status the user
    has, it flips it, and a second call given the new status restores
    the store; a second call given the old status again (a page that
    was not reloaded) changes nothing more. *)
Theorem toggleUserApproval_flips_the_status_given (userId : uuid)
    (currentStatus : bool) (st : Store) :
  (forall u, In u (users st) -> User.id u = userId ->
             User.is_approved u = currentStatus) ->
  let st1 := Admin.toggleUserApproval userId currentStatus st in
  (forall u, In u (users st1) -> User.id u = userId ->
             User.is_approved u = negb currentStatus)
  /\ Admin.toggleUserApproval userId (negb currentStatus) st1 = st
  /\ Admin.toggleUserApproval userId currentStatus st1 = st1.
Proof.
  intros H st1. subst st1. unfold Admin.toggleUserApproval.
  cbn [users set_users]. split; [|split].
  - intros u Hu Eu. unfold update_where_id in Hu. apply in_map_iff in Hu.
    destruct Hu as (r & E & _).
    destruct (Nat.eqb_spec (User.id r) userId) as [_|N]; subst u;
      [reflexivity | contradiction].
  - rewrite set_users_twice, update_where_id_twice by reflexivity.
    rewrite update_where_id_id; [apply set_users_same|].
    intros r Hr Er. rewrite negb_involutive. destruct r; simpl in *.
    now rewrite <- (H _ Hr Er).
  - rewrite set_users_twice, update_where_id_twice by reflexivity.
    reflexivity.
Qed.

Lemma toggleUserApproval_flips_the_status_given_witness :
  Admin.toggleUserApproval 4 true
    (Admin.toggleUserApproval 4 false Sample.store0)
  = Sample.store0.
Proof.
  destruct (toggleUserApproval_flips_the_status_given 4 false Sample.store0)
    as (_ & E & _); [|exact E].
  intros u [<-|[<-|[<-|[<-|[]]]]]; simpl; intros; (reflexivity || lia).
Defined.

End AdminFacts.

(** ** The vendor's dashboard *)

Section VendorFacts.
Import VendorView.

Lemma pendingApprovals_spec (user : User.t) (c : Client) (st : Store)
    (x : User.t) :
  In x (pendingApprovals (loadData user c st))
  <-> In x (users st) /\ team_leader_of user x = true
      /\ User.is_approved x = false.
Proof.
  unfold loadData. cbn [pendingApprovals]. rewrite filter_In, andb_true_iff,
    negb_true_iff. tauto.
Qed.

(** X11. The vendor decides on a team leader of the pending list.
    After [approveTeamLeader] and the reload, no row of that id is
    pending and the team leader is listed as approved.
    [rejectTeamLeader] asks the store to delete the row; the policies
    of the migration let a DELETE on [users] reach no row, so the store
    is as before, no error is reported, and after the reload the team
    leader is on the pending list still. *)
Theorem vendor_decides_on_a_pending_team_leader (user tl : User.t)
    (c : Client) (st : Store) :
  In tl (pendingApprovals (loadData user c st)) ->
  let approved := loadData user c (Vendor.approveTeamLeader (User.id tl) st) in
  let rejected := loadData user c (Vendor.rejectTeamLeader (User.id tl) st) in
  (forall x, In x (pendingApprovals approved) -> User.id x <> User.id tl)
  /\ In (User.set_is_approved true tl) (teamLeaders approved)
  /\ fst (delete_user (User.id tl) st) = Ok tt
  /\ Vendor.rejectTeamLeader (User.id tl) st = st
  /\ In tl (pendingApprovals rejected)
  /\ pendingApprovals rejected = pendingApprovals (loadData user c st).
Proof.
  intros Hp approved rejected. pose proof Hp as Hp0.
  apply pendingApprovals_spec in Hp.
  destruct Hp as (Hin & Htl & Hna). split; [|split; [|split; [|split]]].
  - intros x Hx. subst approved. unfold loadData in Hx.
    cbn [pendingApprovals] in Hx. unfold Vendor.approveTeamLeader in Hx.
    cbn [users set_users] in Hx.
    rewrite filter_update_where_id_out in Hx.
    + apply filter_In in Hx. destruct Hx as [_ Hx].
      now apply negb_true_iff, Nat.eqb_neq in Hx.
    + intros r. cbn [User.set_is_approved User.is_approved negb].
      apply andb_false_r.
  - subst approved. unfold loadData. cbn [teamLeaders].
    unfold Vendor.approveTeamLeader. cbn [users set_users].
    rewrite filter_update_where_id by reflexivity.
    unfold update_where_id. apply in_map_iff. exists tl.
    rewrite Nat.eqb_refl. split; [reflexivity|].
    apply filter_In. now split.
  - reflexivity.
  - reflexivity.
  - subst rejected. split; [exact Hp0 | reflexivity].
Qed.

Lemma vendor_decides_on_a_pending_team_leader_witness :
  let pending := User.mk 5 "tl3" team_leader (Some 9%nat) None false None in
  let st := set_users (users Sample.store0 ++ [pending]) Sample.store0 in
  let v := User.mk 9 "vendor1" vendor None None true None in
  teamLeaders (loadData v (mkClient [] [] [])
                 (Vendor.approveTeamLeader 5 st))
  = [User.set_is_approved true pending]
  /\ pendingApprovals (loadData v (mkClient [] [] [])
                         (Vendor.rejectTeamLeader 5 st))
     = [pending].
Proof.
  cbv zeta.
  destruct (vendor_decides_on_a_pending_team_leader
              (User.mk 9 "vendor1" vendor None None true None)
              (User.mk 5 "tl3" team_leader (Some 9%nat) None false None)
              (mkClient [] [] [])
              (set_users
                 (users Sample.store0
                  ++ [User.mk 5 "tl3" team_leader (Some 9%nat) None false
                        None]) Sample.store0))
    as (_ & H & _ & _ & _ & E).
  - simpl. now left.
  - split; [reflexivity | exact E].
Defined.

Lemma list_sum_add {A : Type} (f g : A -> nat) (l : list A) :
  list_sum (map (fun x => f x + g x)%nat l)
  = (list_sum (map f l) + list_sum (map g l))%nat.
Proof. induction l as [|a l IH]; simpl; [reflexivity | lia]. Qed.

(** Among rows of distinct ids, exactly one carries a listed id. *)
Lemma one_row_of_id (T : list User.t) (k : uuid) :
  NoDup (map User.id T) -> In k (map User.id T) ->
  list_sum (map (fun t => if Nat.eqb k (User.id t) then 1 else 0)%nat T)
  = 1%nat.
Proof.
  induction T as [|t T IH]; cbn [map list_sum fold_right]; [contradiction|].
  intros Hnd Hin. inversion Hnd as [|? ? Ht HT]; subst.
  destruct (Nat.eqb_spec k (User.id t)) as [->|N].
  - fold (list_sum (map (fun t0 => if Nat.eqb (User.id t) (User.id t0)
                                   then 1 else 0)%nat T)).
    assert (Z0 : list_sum
                   (map (fun t0 => if Nat.eqb (User.id t) (User.id t0)
                                   then 1 else 0)%nat T) = 0%nat).
    { clear - Ht. induction T as [|x T IH]; [reflexivity|].
      cbn [map list_sum fold_right].
      destruct (Nat.eqb_spec (User.id t) (User.id x)) as [E|_].
      - exfalso. apply Ht. left. now symmetry.
      - apply IH. intros H. apply Ht. now right. }
    rewrite Z0. reflexivity.
  - destruct Hin as [E|Hin]; [now elim N|].
    change (fold_right Nat.add 0%nat
              (map (fun t0 => if Nat.eqb k (User.id t0) then 1 else 0)%nat T))
      with (list_sum
              (map (fun t0 => if Nat.eqb k (User.id t0) then 1 else 0)%nat T)).
    now rewrite IH.
Qed.

Lemma counts_by_team_leader (T W : list User.t) :
  NoDup (map User.id T) ->
  (forall w, In w W -> under_one_of (map User.id T) w = true) ->
  list_sum
    (map (fun tl =>
            List.length
              (filter (fun w => option_uuid_eqb (User.team_leader_id w)
                                  (User.id tl)) W)) T)
  = List.length W.
Proof.
  intros Hnd. induction W as [|w W IH]; intros HW.
  - cbn [filter List.length]. induction T; [reflexivity|].
    cbn [map list_sum fold_right] in *. inversion Hnd; subst. auto.
  - assert (Hw := HW w (or_introl eq_refl)). unfold under_one_of in Hw.
    destruct (User.team_leader_id w) as [k|] eqn:Ek; [|discriminate].
    apply existsb_exists in Hw. destruct Hw as (j & Hj & Ekj).
    apply Nat.eqb_eq in Ekj. subst j.
    transitivity
      (list_sum
         (map (fun tl =>
                 (if Nat.eqb k (User.id tl) then 1 else 0)
                 + List.length
                     (filter (fun w => option_uuid_eqb (User.team_leader_id w)
                                         (User.id tl)) W))%nat T)).
    + f_equal. apply map_ext. intros tl. cbn [filter]. rewrite Ek.
      cbn [option_uuid_eqb]. destruct (Nat.eqb k (User.id tl)); reflexivity.
    + rewrite list_sum_add, (one_row_of_id T k Hnd Hj), IH; [reflexivity|].
      intros x Hx. apply HW. now right.
Qed.

(** X12. On the vendor's dashboard the numbers of workers shown against
    each team leader add up to the total of workers, whenever the vendor
    has a team leader and the ids of the users are distinct. (With no
    team leader the list of workers is not fetched and keeps what it
    held.) *)
Theorem vendor_worker_counts_add_up (user : User.t) (c : Client)
    (st : Store) :
  NoDup (map User.id (users st)) ->
  let c' := loadData user c st in
  teamLeaders c' <> [] ->
  list_sum (map (fun tl => List.length (tlWorkers c' tl)) (teamLeaders c'))
  = List.length (workers c').
Proof.
  intros Hnd c' Hne. subst c'. unfold tlWorkers.
  unfold loadData in *. cbn [teamLeaders workers] in *.
  pose proof (distinct_keys_filter User.id (team_leader_of user) (users st)
                Hnd)
    as HT.
  destruct (filter (team_leader_of user) (users st)) as [|t T];
    [congruence|].
  refine (counts_by_team_leader (t :: T) _ HT _).
  intros w Hw. apply filter_In in Hw. destruct Hw as [_ Hw].
  apply andb_true_iff in Hw. tauto.
Qed.

Lemma vendor_worker_counts_add_up_witness :
  let v := User.mk 9 "vendor1" vendor None None true None in
  let a := User.mk 1 "tl1" team_leader (Some 9%nat) None true None in
  let b := User.mk 2 "tl2" team_leader (Some 9%nat) None true None in
  let st := set_users [v; a; b; Sample.worker1; Sample.worker4]
              empty_store in
  let c' := loadData v (mkClient [] [] []) st in
  list_sum (map (fun tl => List.length (tlWorkers c' tl)) (teamLeaders c'))
  = 2%nat.
Proof.
  cbv zeta.
  rewrite (vendor_worker_counts_add_up
             (User.mk 9 "vendor1" vendor None None true None)
             (mkClient [] [] [])
             (set_users
                [User.mk 9 "vendor1" vendor None None true None;
                 User.mk 1 "tl1" team_leader (Some 9%nat) None true None;
                 User.mk 2 "tl2" team_leader (Some 9%nat) None true None;
                 Sample.worker1; Sample.worker4] empty_store)).
  - reflexivity.
  - simpl. repeat constructor; simpl; intuition lia.
  - simpl. discriminate.
Defined.

(** X13. A user the admin creates is approved at once and belongs to
    nobody: the row has neither vendor nor team leader, so a team leader
    made this way shows on no vendor's dashboard and a worker made this
    way on no team leader's. With user names unique the new user can
    sign in. A name that is taken changes nothing. *)
Theorem admin_created_user_belongs_to_nobody (name : string) (role : Role)
    (wh : string) (st : Store) :
  let st' := Admin.handleCreateUser name role wh st in
  if existsb (fun u => String.eqb (User.username u) name) (users st)
  then st' = st
  else
    exists u,
      st' = set_users (users st ++ [u]) st
      /\ User.username u = name
      /\ User.role u = role
      /\ User.is_approved u = true
      /\ User.warehouse_name u = Some wh
      /\ (forall v c, ~ In u (teamLeaders (loadData v c st')))
      /\ (forall tl, ~ In u (TeamLeaderView.workers tl st'))
      /\ (Schema.unique_usernames st ->
          signIn name "password123" st' = Some u).
Proof.
  intros st'. subst st'. unfold Admin.handleCreateUser, insert_user.
  destruct (existsb _ (users st)) eqn:Hdup; cbn [snd]; [reflexivity|].
  cbn [references_ok andb snd].
  eexists. split; [reflexivity|].
  cbn [User.username User.role User.is_approved User.warehouse_name].
  repeat (split; [reflexivity|]).
  split; [|split].
  - intros v c H. unfold loadData in H. cbn [teamLeaders] in H.
    apply filter_In in H. destruct H as [_ H]. unfold team_leader_of in H.
    cbn [User.vendor_id option_uuid_eqb] in H.
    now rewrite andb_false_r in H.
  - intros tl H. unfold TeamLeaderView.workers in H.
    apply filter_In in H. destruct H as [_ H].
    cbn [User.team_leader_id option_uuid_eqb] in H.
    now rewrite andb_false_r in H.
  - intros Hnd. apply signIn_Some. split; [|now right].
    apply filter_unique_key; [| | reflexivity].
    + now apply unique_usernames_insert.
    + cbn [users set_users]. apply in_or_app. right. now left.
Qed.

End VendorFacts.

(** ** The team leader's counters *)

Section TeamLeaderStats.
Import TeamLeader TeamLeaderView.

(** With distinct keys an update by key rewrites one row. *)
Lemma update_unique_row {A : Type} (key : A -> uuid) (f : A -> A)
    (rows : list A) (r : A) :
  NoDup (map key rows) -> In r rows ->
  exists l1 l2,
    rows = l1 ++ r :: l2
    /\ update_where_id key (key r) f rows = l1 ++ f r :: l2.
Proof.
  intros Hnd Hin. destruct (in_split _ _ Hin) as (l1 & l2 & ->).
  exists l1, l2. split; [reflexivity|].
  rewrite map_app in Hnd. cbn [map] in Hnd.
  apply NoDup_remove_2 in Hnd.
  rewrite update_where_id_app. f_equal.
  - apply update_where_id_absent. intros x Hx E. apply Hnd.
    apply in_or_app. left. rewrite <- E. now apply in_map.
  - unfold update_where_id at 1. cbn [map]. rewrite Nat.eqb_refl. f_equal.
    apply update_where_id_absent. intros x Hx E. apply Hnd.
    apply in_or_app. right. rewrite <- E. now apply in_map.
Qed.

(** What an accepted verification writes. *)
Lemma handleOTPVerification_accepts (now : timestamp) (c : Client)
    (st : Store) (w : User.t) (r : OTPRequest.t) :
  selectedWorker c = Some w ->
  fst (verifyOTP now (User.id w) (enteredOTP c) st) = Ok r ->
  users (snd (handleOTPVerification now c st))
  = update_where_id User.id (User.id w) (User.set_is_approved true)
      (users st)
  /\ otp_requests (snd (handleOTPVerification now c st))
     = update_where_id OTPRequest.id (OTPRequest.id r)
         (OTPRequest.set_is_used true) (otp_requests st).
Proof.
  intros Hsel Hok. unfold handleOTPVerification. rewrite Hsel.
  pose proof (verifyOTP_Ok_store now (User.id w) (enteredOTP c) st r Hok)
    as Hs.
  destruct (verifyOTP now (User.id w) (enteredOTP c) st) as [res s1].
  cbn [fst snd] in *. subst res s1. split; reflexivity.
Qed.

(** X14. The counters of the team leader's dashboard after a worker is
    approved. When [handleOTPVerification] accepts the code for a
    pending worker of this team leader (user ids being distinct), the
    total of workers stays, "Approved" grows by one and "Pending" falls
    by one, and no request is added to the pending ones. *)
Theorem approval_moves_a_worker_to_approved (user w : User.t)
    (now : timestamp) (c : Client) (st : Store) (r : OTPRequest.t) :
  NoDup (map User.id (users st)) ->
  In w (workers user st) ->
  User.is_approved w = false ->
  selectedWorker c = Some w ->
  fst (verifyOTP now (User.id w) (enteredOTP c) st) = Ok r ->
  let st' := snd (handleOTPVerification now c st) in
  let before := stats (workers user st) (otpRequests user now st) in
  let after := stats (workers user st') (otpRequests user now st') in
  totalWorkers after = totalWorkers before
  /\ approvedWorkers after = S (approvedWorkers before)
  /\ S (pendingWorkers after) = pendingWorkers before
  /\ (pendingOTPs after <= pendingOTPs before)%nat.
Proof.
  intros Hnd Hin Hna Hsel Hok st' before after.
  destruct (handleOTPVerification_accepts now c st w r Hsel Hok)
    as [Eu Eo].
  fold st' in Eu, Eo.
  assert (EW : workers user st'
               = update_where_id User.id (User.id w)
                   (User.set_is_approved true) (workers user st)).
  { unfold workers. rewrite Eu. now apply filter_update_where_id. }
  destruct (update_unique_row User.id (User.set_is_approved true)
              (workers user st) w) as (l1 & l2 & E1 & E2);
    [now apply distinct_keys_filter | exact Hin |].
  rewrite E2 in EW.
  subst before after. unfold stats.
  cbn [totalWorkers approvedWorkers pendingWorkers pendingOTPs].
  rewrite EW, E1, !filter_app, !length_app. cbn [filter List.length].
  rewrite Hna. cbn [User.set_is_approved User.is_approved negb List.length].
  split; [reflexivity|]. split; [lia|]. split; [lia|].
  unfold otpRequests. rewrite Eo.
  rewrite (filter_update_where_id_out OTPRequest.id).
  - apply filter_length_le.
  - intros x. cbn [OTPRequest.set_is_used OTPRequest.is_used negb].
    now rewrite andb_false_r.
Qed.

Lemma approval_moves_a_worker_to_approved_witness :
  let st := set_otp_requests [OTPRequest.mk 1 4 2 "123456" false 600000]
              Sample.store0 in
  let c := mkClient (Some Sample.worker4) "123456" true in
  let st' := snd (handleOTPVerification 1000 c st) in
  approvedWorkers (stats (workers Sample.tl2 st') []) = 1%nat.
Proof.
  cbv zeta.
  destruct (approval_moves_a_worker_to_approved Sample.tl2 Sample.worker4
              1000 (mkClient (Some Sample.worker4) "123456" true)
              (set_otp_requests [OTPRequest.mk 1 4 2 "123456" false 600000]
                 Sample.store0)
              (OTPRequest.mk 1 4 2 "123456" false 600000))
    as (_ & H & _).
  - simpl. repeat constructor; simpl; intuition lia.
  - simpl. now left.
  - reflexivity.
  - reflexivity.
  - reflexivity.
  - exact H.
Defined.

End TeamLeaderStats.

(** ** More on the score and the drawn book quantity *)

Section ScoreFacts.
Import JS B64Facts Worker.

Lemma quotient_mono (a b c d : Z) :
  0 < b -> 0 < d -> a * d <= c * b ->
  (inject_Z a / inject_Z b <= inject_Z c / inject_Z d)%Q.
Proof.
  intros Hb Hd H.
  assert (Pb : (0 < inject_Z b)%Q)
    by (change 0%Q with (inject_Z 0); now rewrite <- Zlt_Qlt).
  assert (Pd : (0 < inject_Z d)%Q)
    by (change 0%Q with (inject_Z 0); now rewrite <- Zlt_Qlt).
  apply Qle_shift_div_r; [exact Pb|].
  apply Qle_trans with (inject_Z c * inject_Z b / inject_Z d)%Q.
  - apply Qle_shift_div_l; [exact Pd|].
    rewrite <- !inject_Z_mult, <- Zle_Qle. exact H.
  - apply Qle_lteq. right. field. lra.
Qed.

Lemma Math_round_mono (x y : Q) : (x <= y)%Q -> Math_round x <= Math_round y.
Proof. intros H. unfold Math_round. apply Qfloor_resp_le. lra. Qed.

(** X15. The score never falls when more bins are counted in the same
    or less time: for [0 <= bins <= bins'] and [minutes' <= minutes], the
    score of [bins] in [minutes] is at most that of [bins'] in
    [minutes']. The two binary64 roundings keep the order. *)
Theorem efficiencyScore_monotone (bins bins' minutes minutes' : Z) :
  0 <= bins <= bins' ->
  minutes' <= minutes ->
  efficiencyScore bins minutes <= efficiencyScore bins' minutes'.
Proof.
  intros Hb Hm. unfold efficiencyScore.
  apply Z.min_le_compat_l, Math_round_mono. unfold mul, div.
  apply fl_mono. change (inject_Z 60) with (60 # 1).
  assert (H : (fl (inject_Z bins / inject_Z (Z.max 1 minutes))
               <= fl (inject_Z bins' / inject_Z (Z.max 1 minutes')))%Q).
  { apply fl_mono, quotient_mono; nia. }
  lra.
Qed.

Lemma efficiencyScore_monotone_witness :
  efficiencyScore 5 120 <= efficiencyScore 7 90.
Proof. apply efficiencyScore_monotone; lia. Defined.

Lemma Math_round_int (z : Z) : Math_round (inject_Z z) = z.
Proof.
  apply Math_round_unique; lra.
Qed.

(** X16. A session that ends less than 90 seconds after it started (or,
    by the clocks, before it started) is scored as one minute, so its
    score is [min(100, 60 * bins)]: two bins give the full 100
    already. *)
Theorem short_session_scored_as_one_minute (endTime startTime : timestamp)
    (bins : Z) :
  - 2 ^ 50 < endTime - startTime < 90000 ->
  0 <= bins < 2 ^ 40 ->
  efficiencyScore bins (timeTakenMinutes endTime startTime)
  = Z.min 100 (60 * bins).
Proof.
  intros Hs Hb. rewrite timeTakenMinutes_round_div by lia.
  assert (Hm : round_div (endTime - startTime) 60000 <= 1).
  { unfold round_div. apply Z.lt_succ_r.
    apply Z.div_lt_upper_bound; lia. }
  unfold efficiencyScore. rewrite Z.max_l by lia. f_equal.
  rewrite <- (Math_round_int (60 * bins)). apply Math_round_comp.
  unfold mul, div.
  assert (E1 : (fl (inject_Z bins / inject_Z 1) == inject_Z bins)%Q).
  { apply Qeq_trans with (fl (inject_Z bins)).
    - apply fl_comp. change (inject_Z 1) with 1%Q. field.
    - apply is_double_int. lia. }
  apply Qeq_trans with (fl (inject_Z (60 * bins))).
  - apply fl_comp. rewrite E1, inject_Z_mult.
    change (inject_Z 60) with (60 # 1). ring.
  - apply is_double_int. lia.
Qed.

Lemma short_session_scored_as_one_minute_witness :
  efficiencyScore 2 (timeTakenMinutes 10000 0) = 100.
Proof.
  apply (short_session_scored_as_one_minute 10000 0 2); lia.
Defined.

(** X17. The book quantity that [confirmQuantity] stores is drawn, not
    looked up: for every value of [Math.random()] (a binary64 number in
    [0, 1)) it lies between 50 and 149, whatever the bin and the
    quantity counted. *)
Theorem mockBookQty_range (rnd : Q) :
  is_double rnd -> (0 <= rnd)%Q -> (rnd < 1)%Q ->
  50 <= mockBookQty rnd <= 149.
Proof.
  intros D H0 H1. pose proof (double_below_one rnd D H1) as Hmax.
  assert (P53 : (pow2 (- 53) == 1 # 9007199254740992)%Q) by reflexivity.
  assert (E : (inject_Z 100 == 100 # 1)%Q) by reflexivity.
  assert (Lo : (0 <= mul rnd (inject_Z 100))%Q).
  { unfold mul. apply fl_nonneg. rewrite E. lra. }
  assert (Hi : (mul rnd (inject_Z 100)
                <= fl ((1 - pow2 (- 53)) * inject_Z 100))%Q).
  { unfold mul. apply fl_mono. rewrite E. lra. }
  assert (C : (fl ((1 - pow2 (- 53)) * inject_Z 100)
               == 7036874417766399 # 70368744177664)%Q)
    by (apply Qeq_bool_eq; vm_compute; reflexivity).
  rewrite C in Hi. unfold mockBookQty, Math_floor.
  assert (F0 : 0 <= Qfloor (mul rnd (inject_Z 100)))
    by (apply (int_le_floor _ 0); exact Lo).
  assert (F1 : Qfloor (mul rnd (inject_Z 100)) < 100).
  { apply floor_lt_int. apply Qle_lt_trans with (1 := Hi). reflexivity. }
  lia.
Qed.

Lemma mockBookQty_range_witness : 50 <= mockBookQty (1 # 2) <= 149.
Proof.
  apply mockBookQty_range; [| lra | lra].
  unfold is_double. apply Qeq_bool_eq. vm_compute. reflexivity.
Defined.

End ScoreFacts.

(** ** A whole counting session *)

Section WholeSession.
Import Worker WorkerView Invariant.

Lemma run_app (user : User.t) (w : Client * Store) (l l' : list Action) :
  run user w (l ++ l') = run user (run user w l) l'.
Proof. unfold run. apply fold_left_app. Qed.

Lemma active_session_in_store (uid : uuid) (st : Store)
    (cs : CountingSession.t) :
  active_sessions uid st = [cs] ->
  has_session (CountingSession.id cs) st = true.
Proof.
  intros H. unfold has_session. apply existsb_exists. exists cs.
  split; [|apply Nat.eqb_refl].
  assert (Hin : In cs (active_sessions uid st)) by (rewrite H; now left).
  unfold active_sessions in Hin. now apply filter_In in Hin.
Qed.

(** The sum of quantities that are not negative is not negative. *)
Lemma sum_qty_nonneg (counts : list Count) :
  Forall (fun k => 0 <= qty k) counts ->
  0 <= fold_right Z.add 0 (map qty counts).
Proof.
  induction 1 as [|k counts Hk _ IH]; cbn [map fold_right]; lia.
Qed.

(** One count that the store takes, from a client that holds the
    worker's active session. *)
Lemma count_step (user : User.t) (wh : string) (k : Count) (c : Client)
    (st : Store) (cs : CountingSession.t) :
  User.warehouse_name user = Some wh ->
  currentSession c = Some cs ->
  active_sessions (User.id user) st = [cs] ->
  (0 <= drawn k)%Q -> (drawn k < 1)%Q ->
  in_integer (qty k) = true ->
  in_integer (CountingSession.total_bins_counted cs + 1) = true ->
  in_integer (CountingSession.total_qty_counted cs + qty k) = true ->
  let w := run user (c, st) (count k) in
  let cs' := CountingSession.set_totals
               (CountingSession.total_bins_counted cs + 1)
               (CountingSession.total_qty_counted cs + qty k) cs in
  currentSession (fst w) = Some cs'
  /\ active_sessions (User.id user) (snd w) = [cs']
  /\ (exists r,
         counting_records (snd w) = counting_records st ++ [r]
         /\ CountingRecord.qty_counted r = qty k
         /\ CountingRecord.bin_no r = BinMaster.bin_code (bin k)
         /\ CountingRecord.session_id r = CountingSession.id cs
         /\ CountingRecord.username r = User.username user
         /\ CountingRecord.date r = date_of (at_time k))
  /\ worker_efficiency (snd w) = worker_efficiency st
  /\ users (snd w) = users st.
Proof.
  intros Hw Hc Hact R0 R1 Iq Ib It w cs'. subst w.
  destruct c as [cur sel qt sh]. cbn [currentSession] in Hc. subst cur.
  change (run user
            (mkClient (Some cs) sel qt sh, st) (count k))
    with (confirmQuantity user (at_time k) (drawn k)
            (mkClient (Some cs) (Some (bin k)) (Some (qty k)) true) st).
  unfold confirmQuantity. cbn [selectedBin quantity currentSession].
  rewrite Hw. unfold insert_counting_record, update_session_totals.
  rewrite Iq, Ib, It, (mockBookQty_in_integer _ R0 R1).
  change (in_integer 0) with true. cbn [andb].
  rewrite (active_session_in_store _ _ _ Hact). cbn [snd fst].
  set (row := CountingRecord.mk _ _ _ _ _ _ _ _ _ _ _ _).
  set (st1 := set_counting_records (counting_records st ++ [row]) st).
  assert (E : active_sessions (User.id user)
                (set_counting_sessions
                   (update_where_id CountingSession.id (CountingSession.id cs)
                      (CountingSession.set_totals
                         (CountingSession.total_bins_counted cs + 1)
                         (CountingSession.total_qty_counted cs + qty k))
                      (counting_sessions st1)) st1)
              = [cs']).
  { rewrite active_sessions_set_totals.
    rewrite (active_sessions_same_sessions _ st st1) by reflexivity.
    rewrite Hact. unfold update_where_id. cbn [map].
    now rewrite Nat.eqb_refl. }
  rewrite (loadData_one _ _ _ _ E). cbn [currentSession setCurrentSession].
  split; [reflexivity|]. split; [exact E|]. split.
  - exists row. repeat split; reflexivity.
  - split; reflexivity.
Qed.

Lemma counts_run (user : User.t) (wh : string) (counts : list Count) :
  User.warehouse_name user = Some wh ->
  Forall (fun k => 0 <= qty k /\ (0 <= drawn k)%Q /\ (drawn k < 1)%Q)
    counts ->
  forall (c : Client) (st : Store) (cs : CountingSession.t),
  currentSession c = Some cs ->
  active_sessions (User.id user) st = [cs] ->
  0 <= CountingSession.total_bins_counted cs ->
  0 <= CountingSession.total_qty_counted cs ->
  CountingSession.total_bins_counted cs + Z.of_nat (List.length counts)
  <= 2 ^ 31 - 1 ->
  CountingSession.total_qty_counted cs
  + fold_right Z.add 0 (map qty counts) <= 2 ^ 31 - 1 ->
  let w := run user (c, st) (flat_map count counts) in
  exists cs' recs,
    currentSession (fst w) = Some cs'
    /\ active_sessions (User.id user) (snd w) = [cs']
    /\ CountingSession.total_bins_counted cs'
       = CountingSession.total_bins_counted cs
         + Z.of_nat (List.length counts)
    /\ CountingSession.total_qty_counted cs'
       = CountingSession.total_qty_counted cs
         + fold_right Z.add 0 (map qty counts)
    /\ CountingSession.id cs' = CountingSession.id cs
    /\ CountingSession.start_time cs' = CountingSession.start_time cs
    /\ counting_records (snd w) = counting_records st ++ recs
    /\ map CountingRecord.qty_counted recs = map qty counts
    /\ map CountingRecord.bin_no recs
       = map (fun k => BinMaster.bin_code (bin k)) counts
    /\ Forall (fun r => CountingRecord.session_id r = CountingSession.id cs)
         recs
    /\ worker_efficiency (snd w) = worker_efficiency st
    /\ users (snd w) = users st.
Proof.
  intros Hw Hall.
  induction Hall as [|k counts (Hq0 & R0 & R1) Hall IH];
    intros c st cs Hc Hact B0 T0 Bmax Tmax w.
  - subst w. exists cs, []. cbn [flat_map run fold_left fst snd List.length
      map fold_right]. unfold run. cbn [fold_left fst snd].
    rewrite app_nil_r, !Z.add_0_r. repeat split; try assumption.
    constructor.
  - subst w. cbn [flat_map]. rewrite run_app.
    cbn [List.length map fold_right] in Bmax, Tmax.
    assert (Hrest : 0 <= fold_right Z.add 0 (map qty counts)).
    { apply sum_qty_nonneg. revert Hall. apply Forall_impl. tauto. }
    destruct (count_step user wh k c st cs Hw Hc Hact R0 R1)
      as (Hc1 & Ha1 & (r & Hr & Hq & Hb & Hs & _) & He1 & Hu1);
      [apply in_integer_spec; lia | apply in_integer_spec; lia
      | apply in_integer_spec; lia |].
    cbv zeta in Hc1, Ha1.
    set (w1 := run user (c, st) (count k)) in *.
    destruct w1 as [c1 st1]. cbn [fst snd] in *.
    destruct (IH c1 st1 _ Hc1 Ha1)
      as (cs' & recs & H1 & H2 & H3 & H4 & H5 & H6 & H7 & H8 & H9 & H10
          & H11 & H12);
      [cbn [CountingSession.set_totals CountingSession.total_bins_counted];
       lia
      | cbn [CountingSession.set_totals CountingSession.total_qty_counted];
        lia
      | cbn [CountingSession.set_totals CountingSession.total_bins_counted];
        lia
      | cbn [CountingSession.set_totals CountingSession.total_qty_counted];
        lia |].
    exists cs', (r :: recs). cbn [CountingSession.set_totals
      CountingSession.total_bins_counted CountingSession.total_qty_counted
      CountingSession.id CountingSession.start_time] in *.
    split; [exact H1|]. split; [exact H2|].
    split; [rewrite H3; cbn [List.length]; lia|].
    split; [rewrite H4; cbn [map fold_right]; lia|].
    split; [exact H5|]. split; [exact H6|].
    split; [rewrite H7, Hr, <- app_assoc; reflexivity|].
    split; [cbn [map]; now rewrite Hq, H8|].
    split; [cbn [map]; now rewrite Hb, H9|].
    split; [constructor; assumption|].
    split; [now rewrite H11|now rewrite H12].
Qed.

(** X18. A whole session on the worker's page. A worker with a
    warehouse name who has no active session starts one, counts bins one
    after the other and ends the session. The quantities are not
    negative (the field takes no negative number), their sum and the
    number of counts fit a 32-bit integer, and [Math.random()] returns
    numbers in [0, 1): then the store takes every write. It holds one
    more efficiency row afterwards, whose bins are the number of counts
    and whose quantity is the sum of the quantities entered, one
    counting record per count, in order, and no active session of the
    worker; the page is back to "Start Counting". *)
Theorem session_totals_are_the_counts (user : User.t) (wh : string)
    (c : Client) (st : Store) (start stop stop' : timestamp)
    (counts : list Count) :
  User.warehouse_name user = Some wh ->
  has_user (User.id user) st = true ->
  currentSession c = None ->
  active_sessions (User.id user) st = [] ->
  Forall (fun k => 0 <= qty k /\ (0 <= drawn k)%Q /\ (drawn k < 1)%Q)
    counts ->
  Z.of_nat (List.length counts) <= 2 ^ 31 - 1 ->
  fold_right Z.add 0 (map qty counts) <= 2 ^ 31 - 1 ->
  let w := run user (c, st) (session start counts stop stop') in
  (exists e,
      worker_efficiency (snd w) = worker_efficiency st ++ [e]
      /\ WorkerEfficiency.username e = User.username user
      /\ WorkerEfficiency.bins_counted e = Z.of_nat (List.length counts)
      /\ WorkerEfficiency.qty_counted e
         = fold_right Z.add 0 (map qty counts))
  /\ (exists recs,
         counting_records (snd w) = counting_records st ++ recs
         /\ map CountingRecord.qty_counted recs = map qty counts
         /\ map CountingRecord.bin_no recs
            = map (fun k => BinMaster.bin_code (bin k)) counts)
  /\ currentSession (fst w) = None
  /\ active_sessions (User.id user) (snd w) = [].
Proof.
  intros Hw Hu Hc Hact Hall Bmax Tmax w. subst w. unfold session.
  change (ClickStart start :: flat_map count counts ++ [ClickEnd stop stop'])
    with ([ClickStart start] ++ flat_map count counts
          ++ [ClickEnd stop stop']).
  rewrite !run_app.
  (* the start *)
  assert (S1 : exists row,
             run user (c, st) [ClickStart start]
             = (setCurrentSession (Some row) c,
                set_counting_sessions (counting_sessions st ++ [row]) st)
             /\ CountingSession.total_bins_counted row = 0
             /\ CountingSession.total_qty_counted row = 0
             /\ active_sessions (User.id user)
                  (set_counting_sessions (counting_sessions st ++ [row]) st)
                = [row]).
  { unfold run. cbn [fold_left]. unfold step.
    cbn [fst rendered]. rewrite Hc. cbn [isSome negb handle].
    unfold startCounting. rewrite insert_counting_session_cases, Hu.
    eexists. split; [reflexivity|]. split; [reflexivity|].
    split; [reflexivity|].
    rewrite active_sessions_insert, Hact. unfold active_session_of.
    cbn [CountingSession.worker_id CountingSession.is_active
         CountingSession.status app].
    now rewrite Nat.eqb_refl. }
  destruct S1 as (row & -> & B0 & Q0 & A1).
  (* the counts *)
  destruct (counts_run user wh counts Hw Hall
              (setCurrentSession (Some row) c) _ row eq_refl A1)
    as (cs' & recs & H1 & H2 & H3 & H4 & H5 & H6 & H7 & H8 & H9 & _
        & H11 & _); [lia | lia | lia | lia |].
  set (w2 := run user _ (flat_map count counts)) in *.
  destruct w2 as [c2 st2]. cbn [fst snd] in *.
  cbn [counting_records worker_efficiency set_counting_sessions] in H7, H11.
  (* the end *)
  unfold run. cbn [fold_left]. unfold step. cbn [fst rendered].
  rewrite H1. cbn [isSome handle].
  pose proof (endCounting_store user stop stop' c2 st2 cs' H1) as Es.
  rewrite Hw in Es.
  match type of Es with
  | _ = snd (insert_worker_efficiency ?a ?d ?u ?b ?q ?m ?s ?r ?s0) =>
      pose proof (insert_worker_efficiency_cases a d u b q m s r s0)
        as (_ & _ & Ks & Kr & Ke)
  end.
  cbv zeta in Ks, Kr, Ke. rewrite <- Es in Ks, Kr, Ke.
  assert (A3 : active_sessions (User.id user)
                 (snd (endCounting user stop stop' c2 st2)) = []).
  { rewrite (active_sessions_same_sessions _ _ _ Ks).
    rewrite active_sessions_close, H2. cbn [filter].
    now rewrite Nat.eqb_refl. }
  split; [|split; [|split]].
  - eexists. split;
      [rewrite Ke; cbn [worker_efficiency set_counting_sessions];
       rewrite H11; reflexivity|].
    cbn [WorkerEfficiency.username WorkerEfficiency.bins_counted
         WorkerEfficiency.qty_counted].
    split; [reflexivity|]. rewrite H3, H4, B0, Q0. split; reflexivity.
  - exists recs. rewrite Kr. cbn [counting_records set_counting_sessions].
    rewrite H7. repeat split; assumption.
  - unfold endCounting at 1. rewrite H1. cbn [fst].
    unfold endCounting in A3. rewrite H1 in A3. cbn [snd] in A3.
    rewrite (loadData_none _ _ _ A3). reflexivity.
  - exact A3.
Qed.

Lemma session_totals_are_the_counts_witness :
  let w := run Sample.worker1 (initial, Sample.store0)
             (session 0
                [mkCount Sample.A001 85 1000 (1 # 2);
                 mkCount Sample.A002 40 2000 (1 # 3)] 7200000 7200001) in
  map WorkerEfficiency.qty_counted (worker_efficiency (snd w)) = [125]
  /\ map WorkerEfficiency.bins_counted (worker_efficiency (snd w)) = [2].
Proof.
  cbv zeta.
  destruct (session_totals_are_the_counts Sample.worker1 "Warehouse A"
              initial Sample.store0 0 7200000 7200001
              [mkCount Sample.A001 85 1000 (1 # 2);
               mkCount Sample.A002 40 2000 (1 # 3)])
    as ((e & He & _ & Hb & Hq) & _);
    [reflexivity | reflexivity | reflexivity | reflexivity
    | repeat constructor; simpl; lra || lia | simpl; lia | simpl; lia |].
  cbv zeta in He. rewrite He. cbn [Sample.store0 worker_efficiency app map].
  rewrite Hb, Hq. clear He. split; reflexivity.
Defined.

End WholeSession.

(** ** Writes that are not checked, copies that are not refreshed *)

Section Unchecked.
Import Worker WorkerView Invariant.

(** What [confirmQuantity] writes, whatever the store holds for the
    session: the totals come from the client's copy, and each write
    takes effect when its numbers fit their columns. *)
Lemma confirmQuantity_writes (user : User.t) (now : timestamp) (rnd : Q)
    (c : Client) (st : Store) (bin : BinMaster.t) (q : Z)
    (cs : CountingSession.t) :
  selectedBin c = Some bin -> quantity c = Some q ->
  currentSession c = Some cs ->
  let st' := snd (confirmQuantity user now rnd c st) in
  counting_sessions st'
  = (if in_integer (CountingSession.total_bins_counted cs + 1)
        && in_integer (CountingSession.total_qty_counted cs + q)
     then update_where_id CountingSession.id (CountingSession.id cs)
            (CountingSession.set_totals
               (CountingSession.total_bins_counted cs + 1)
               (CountingSession.total_qty_counted cs + q))
            (counting_sessions st)
     else counting_sessions st)
  /\ worker_efficiency st' = worker_efficiency st
  /\ users st' = users st
  /\ if in_integer q && in_integer (mockBookQty rnd) && in_integer 0 then
       match User.warehouse_name user with
       | Some wh =>
           if has_session (CountingSession.id cs) st then
             counting_records st'
             = counting_records st
               ++ [CountingRecord.mk
                     (fresh_id (map CountingRecord.id (counting_records st)))
                     (CountingSession.id cs) wh (date_of now) "TL1"
                     (User.username user) (BinMaster.bin_code bin) q None
                     (Some (mockBookQty rnd)) (Some 0) None]
           else counting_records st' = counting_records st
       | None => counting_records st' = counting_records st
       end
     else counting_records st' = counting_records st.
Proof.
  intros Hb Hq Hc st'. subst st'.
  rewrite (confirmQuantity_store user now rnd c st bin q cs Hb Hq Hc).
  match goal with
  | |- context [update_session_totals ?k ?b ?t ?s0] =>
      pose proof (update_session_totals_cases k b t s0)
        as (Uu & _ & Ur & Ue & Us)
  end.
  pose proof (insert_counting_record_cases (CountingSession.id cs)
                (User.warehouse_name user) (date_of now) "TL1"
                (User.username user) (BinMaster.bin_code bin) q
                (mockBookQty rnd) 0 st) as (Hu & _ & Hs & He & Hr).
  cbv zeta in Uu, Ur, Ue, Us, Hu, Hs, He, Hr.
  rewrite Uu, Ur, Ue, Us, Hs. repeat split; assumption.
Qed.

Lemma find_session_set_totals (k : uuid) (bins qty : Z) (st st' : Store) :
  counting_sessions st'
  = update_where_id CountingSession.id k
      (CountingSession.set_totals bins qty) (counting_sessions st) ->
  find_session k st'
  = option_map (CountingSession.set_totals bins qty) (find_session k st).
Proof.
  intros E. unfold find_session. rewrite E.
  now apply find_update_where_id.
Qed.



(** X20. Two pages of one worker hold the same session. Each confirms
    one count, the second without having been loaded again; the
    quantities are not negative, the totals of either page fit their
    columns and [Math.random()] returns numbers in [0, 1), so that the
    store takes every write. Both records are stored, but the
    session's totals count one bin only, and the quantity of the second
    count only: [confirmQuantity] adds to the page's copy of the totals,
    not to the totals in the store. *)
Theorem two_pages_lose_a_count (user : User.t) (wh : string) (st : Store)
    (cs : CountingSession.t) (c1 c2 : Client) (bin1 bin2 : BinMaster.t)
    (q1 q2 : Z) (t1 t2 : timestamp) (rnd1 rnd2 : Q) :
  User.warehouse_name user = Some wh ->
  find_session (CountingSession.id cs) st = Some cs ->
  currentSession c1 = Some cs -> selectedBin c1 = Some bin1 ->
  quantity c1 = Some q1 ->
  currentSession c2 = Some cs -> selectedBin c2 = Some bin2 ->
  quantity c2 = Some q2 ->
  (0 <= rnd1)%Q -> (rnd1 < 1)%Q -> (0 <= rnd2)%Q -> (rnd2 < 1)%Q ->
  0 <= q1 -> 0 <= q2 ->
  0 <= CountingSession.total_bins_counted cs < 2 ^ 31 - 1 ->
  0 <= CountingSession.total_qty_counted cs ->
  CountingSession.total_qty_counted cs + q1 <= 2 ^ 31 - 1 ->
  CountingSession.total_qty_counted cs + q2 <= 2 ^ 31 - 1 ->
  let st1 := snd (confirmQuantity user t1 rnd1 c1 st) in
  let st2 := snd (confirmQuantity user t2 rnd2 c2 st1) in
  (exists a b,
      counting_records st2 = counting_records st ++ [a; b]
      /\ CountingRecord.qty_counted a = q1
      /\ CountingRecord.qty_counted b = q2)
  /\ find_session (CountingSession.id cs) st2
     = Some (CountingSession.set_totals
               (CountingSession.total_bins_counted cs + 1)
               (CountingSession.total_qty_counted cs + q2) cs).
Proof.
  intros Hw Hf Hc1 Hb1 Hq1 Hc2 Hb2 Hq2 A1 B1 A2 B2 P1 P2 B0 T0 M1 M2 st1 st2.
  assert (Ib : in_integer (CountingSession.total_bins_counted cs + 1) = true)
    by (apply in_integer_spec; lia).
  destruct (confirmQuantity_taken user t1 rnd1 c1 st bin1 q1 cs wh
              Hb1 Hq1 Hc1 Hw (find_session_has_session _ _ _ Hf) A1 B1)
    as (_ & _ & _ & Kr1 & Ks1);
    [apply in_integer_spec; lia | exact Ib | apply in_integer_spec; lia |].
  fold st1 in Ks1, Kr1.
  assert (Hf1 : find_session (CountingSession.id cs) st1
                = Some (CountingSession.set_totals
                          (CountingSession.total_bins_counted cs + 1)
                          (CountingSession.total_qty_counted cs + q1) cs)).
  { rewrite (find_session_set_totals _ _ _ st st1 Ks1). now rewrite Hf. }
  destruct (confirmQuantity_taken user t2 rnd2 c2 st1 bin2 q2 cs wh
              Hb2 Hq2 Hc2 Hw (find_session_has_session _ _ _ Hf1) A2 B2)
    as (_ & _ & _ & Kr2 & Ks2);
    [apply in_integer_spec; lia | exact Ib | apply in_integer_spec; lia |].
  fold st2 in Ks2, Kr2.
  split.
  - eexists. eexists. rewrite Kr2, Kr1, <- app_assoc.
    split; [reflexivity|]. split; reflexivity.
  - rewrite (find_session_set_totals _ _ _ st1 st2 Ks2).
    rewrite Hf1. reflexivity.
Qed.

Lemma two_pages_lose_a_count_witness :
  let cs := CountingSession.mk 1 3 0 None active 0 0 in
  let st := set_counting_sessions [cs] Sample.store0 in
  let c1 := mkClient (Some cs) (Some Sample.A001) (Some 85) true in
  let c2 := mkClient (Some cs) (Some Sample.A002) (Some 40) true in
  find_session 1
    (snd (confirmQuantity Sample.worker1 2000 (1 # 2) c2
            (snd (confirmQuantity Sample.worker1 1000 (1 # 2) c1 st))))
  = Some (CountingSession.mk 1 3 0 None active 1 40).
Proof.
  cbv zeta.
  destruct (two_pages_lose_a_count Sample.worker1 "Warehouse A"
              (set_counting_sessions
                 [CountingSession.mk 1 3 0 None active 0 0] Sample.store0)
              (CountingSession.mk 1 3 0 None active 0 0)
              (mkClient (Some (CountingSession.mk 1 3 0 None active 0 0))
                 (Some Sample.A001) (Some 85) true)
              (mkClient (Some (CountingSession.mk 1 3 0 None active 0 0))
                 (Some Sample.A002) (Some 40) true)
              Sample.A001 Sample.A002 85 40 1000 2000 (1 # 2) (1 # 2))
    as (_ & H);
    [reflexivity | reflexivity | reflexivity | reflexivity | reflexivity
    | reflexivity | reflexivity | reflexivity | lra | lra | lra | lra
    | lia | lia | simpl; lia | simpl; lia | simpl; lia | simpl; lia |].
  exact H.
Defined.

(** X21. Two pages of one worker hold the worker's active session.
    The first ends it. The second page, as long as it is not loaded
    again, holds its copy of the session and still offers "End
    Counting"; pressing it stores a second efficiency row for the same
    session and overwrites its end time. Once loaded again, the page
    holds no session and offers "Start Counting" only. *)
Theorem session_ended_on_two_pages_is_scored_twice (user : User.t)
    (wh : string) (st : Store) (cs : CountingSession.t) (c1 c2 : Client)
    (t1 t1' t2 t2' : timestamp) :
  User.warehouse_name user = Some wh ->
  active_sessions (User.id user) st = [cs] ->
  find_session (CountingSession.id cs) st = Some cs ->
  currentSession c1 = Some cs ->
  currentSession c2 = Some cs ->
  let st1 := snd (step user (c1, st) (ClickEnd t1 t1')) in
  let w2 := step user (c2, st1) (ClickEnd t2 t2') in
  let again := fst (step user (c2, st1) Reload) in
  rendered (ClickEnd t2 t2') c2 = true
  /\ (exists e1 e2,
         worker_efficiency (snd w2) = worker_efficiency st ++ [e1; e2]
         /\ WorkerEfficiency.bins_counted e1
            = CountingSession.total_bins_counted cs
         /\ WorkerEfficiency.bins_counted e2
            = CountingSession.total_bins_counted cs
         /\ WorkerEfficiency.qty_counted e1
            = CountingSession.total_qty_counted cs
         /\ WorkerEfficiency.qty_counted e2
            = CountingSession.total_qty_counted cs)
  /\ find_session (CountingSession.id cs) (snd w2)
     = Some (CountingSession.close t2 cs)
  /\ currentSession again = None
  /\ rendered (ClickEnd t2 t2') again = false
  /\ rendered (ClickStart t2) again = true.
Proof.
  intros Hw Hact Hf Hc1 Hc2 st1 w2 again.
  assert (E1 : st1 = snd (endCounting user t1 t1' c1 st)).
  { unfold st1, step. cbn [fst rendered]. now rewrite Hc1. }
  pose proof (endCounting_store user t1 t1' c1 st cs Hc1) as S1.
  rewrite <- E1, Hw in S1.
  match type of S1 with
  | _ = snd (insert_worker_efficiency ?a ?d ?u ?b ?q ?m ?s ?r ?s0) =>
      pose proof (insert_worker_efficiency_cases a d u b q m s r s0)
        as (_ & _ & Ks & _ & Ke)
  end.
  cbv zeta in Ks, Ke. rewrite <- S1 in Ks, Ke.
  cbn [counting_sessions worker_efficiency set_counting_sessions] in Ks, Ke.
  assert (A1 : active_sessions (User.id user) st1 = []).
  { unfold active_sessions. rewrite Ks.
    rewrite (filter_update_where_id_out CountingSession.id).
    - fold (active_sessions (User.id user) st). rewrite Hact. cbn [filter].
      now rewrite Nat.eqb_refl.
    - intros r. unfold active_session_of. cbn. apply andb_false_r. }
  assert (R : again = initial).
  { unfold again, step. cbn [fst rendered handle].
    now apply loadData_none. }
  assert (E2 : w2 = endCounting user t2 t2' c2 st1).
  { unfold w2, step. cbn [fst rendered]. now rewrite Hc2. }
  pose proof (endCounting_store user t2 t2' c2 st1 cs Hc2) as S2.
  rewrite <- E2, Hw in S2.
  match type of S2 with
  | _ = snd (insert_worker_efficiency ?a ?d ?u ?b ?q ?m ?s ?r ?s0) =>
      pose proof (insert_worker_efficiency_cases a d u b q m s r s0)
        as (_ & _ & Ks2 & _ & Ke2)
  end.
  cbv zeta in Ks2, Ke2. rewrite <- S2 in Ks2, Ke2.
  cbn [counting_sessions worker_efficiency set_counting_sessions] in Ks2, Ke2.
  split; [cbn [rendered]; now rewrite Hc2|]. split; [|split].
  - eexists. eexists. rewrite Ke2, Ke, <- app_assoc.
    split; [reflexivity|]. repeat split; reflexivity.
  - unfold find_session in *. rewrite Ks2, Ks.
    rewrite !find_update_where_id by reflexivity. rewrite Hf. reflexivity.
  - rewrite R. repeat split; reflexivity.
Qed.

Lemma session_ended_on_two_pages_is_scored_twice_witness :
  let cs := CountingSession.mk 1 3 0 None active 2 125 in
  let st := set_counting_sessions [cs] Sample.store0 in
  let c := mkClient (Some cs) None None false in
  let st1 := snd (step Sample.worker1 (c, st) (ClickEnd 7200000 7200001)) in
  map WorkerEfficiency.bins_counted
    (worker_efficiency
       (snd (step Sample.worker1 (c, st1) (ClickEnd 7300000 7300001))))
  = [2; 2].
Proof.
  cbv zeta.
  destruct (session_ended_on_two_pages_is_scored_twice Sample.worker1
              "Warehouse A"
              (set_counting_sessions
                 [CountingSession.mk 1 3 0 None active 2 125] Sample.store0)
              (CountingSession.mk 1 3 0 None active 2 125)
              (mkClient (Some (CountingSession.mk 1 3 0 None active 2 125))
                 None None false)
              (mkClient (Some (CountingSession.mk 1 3 0 None active 2 125))
                 None None false)
              7200000 7200001 7300000 7300001)
    as (_ & (e1 & e2 & He & H1 & H2 & _) & _); [reflexivity.. |].
  cbv zeta in He. rewrite He. cbn [map app worker_efficiency Sample.store0
    set_counting_sessions].
  rewrite H1, H2. reflexivity.
Defined.

Lemma loadData_several (user : User.t) (c : Client) (st : Store) :
  (2 <= List.length (active_sessions (User.id user) st))%nat ->
  loadData user c st = c.
Proof.
  unfold loadData, active_sessions.
  destruct (filter _ _) as [|a [|b l]]; simpl; intros H;
    [lia | lia | reflexivity].
Qed.

Ltac unchanged_page Hcur :=
  let cs0 := fresh "cs" in
  let E0 := fresh "E" in
  intros cs0 E0;
  cbn [fst snd currentSession handleBinSelect setQuantity] in E0;
  apply Hcur; congruence.

(** One interaction keeps the sessions that were active when the page
    was opened, as long as the page's session is none of them. *)
Lemma step_keeps_orphans (user : User.t) (orphans : list CountingSession.t)
    (a : Action) (c : Client) (st : Store) (extra : list CountingSession.t) :
  (2 <= List.length orphans)%nat ->
  active_sessions (User.id user) st = orphans ++ extra ->
  (forall cs, currentSession c = Some cs ->
              forall s, In s orphans ->
                        CountingSession.id s <> CountingSession.id cs) ->
  let w := step user (c, st) a in
  (exists extra',
      active_sessions (User.id user) (snd w) = orphans ++ extra')
  /\ (forall cs, currentSession (fst w) = Some cs ->
                 forall s, In s orphans ->
                           CountingSession.id s <> CountingSession.id cs).
Proof.
  intros H2 Hact Hcur w. subst w.
  assert (Hlen : forall x, (2 <= List.length (orphans ++ x))%nat)
    by (intros x; rewrite length_app; lia).
  unfold step. cbn [fst].
  destruct (rendered a c) eqn:Hr; [|split; [now exists extra | unchanged_page Hcur]].
  destruct a; cbn [handle fst snd].
  - (* Reload *)
    rewrite loadData_several by (rewrite Hact; apply Hlen).
    split; [now exists extra | discriminate].
  - (* ClickStart *)
    unfold startCounting. rewrite insert_counting_session_cases.
    destruct (has_user (User.id user) st); cbn [fst snd];
      [|split; [now exists extra | unchanged_page Hcur]].
    split.
    + rewrite active_sessions_insert, Hact. unfold active_session_of.
      cbn [CountingSession.worker_id CountingSession.is_active
           CountingSession.status].
      rewrite Nat.eqb_refl. cbn [andb]. rewrite <- app_assoc.
      eexists; reflexivity.
    + cbn [currentSession setCurrentSession]. intros cs [= <-] s Hs.
      cbn [CountingSession.id]. intros E.
      apply (fresh_id_fresh (map CountingSession.id (counting_sessions st))).
      rewrite <- E. apply in_map.
      assert (Hin : In s (active_sessions (User.id user) st))
        by (rewrite Hact; apply in_or_app; now left).
      unfold active_sessions in Hin. now apply filter_In in Hin.
  - split; [now exists extra | unchanged_page Hcur].
  - split; [now exists extra | unchanged_page Hcur].
  - split; [now exists extra|]. unfold handleQuantitySubmit.
    destruct (selectedBin c), (quantity c), (currentSession c) eqn:E;
      cbn [currentSession]; unchanged_page Hcur.
  - (* ClickConfirm *)
    unfold confirmQuantity.
    destruct (selectedBin c) as [bin|], (quantity c) as [q|],
      (currentSession c) as [cs|] eqn:Hc; cbn [fst snd];
      try (split; [now exists extra | unchanged_page Hcur]).
    match goal with
    | |- context [insert_counting_record ?k ?wh ?d ?tl ?u ?b ?n ?bk ?df ?s0] =>
        pose proof (insert_counting_record_cases k wh d tl u b n bk df s0)
          as (_ & _ & Hs & _);
        set (st1 := snd (insert_counting_record k wh d tl u b n bk df s0)) in *
    end.
    cbv zeta in Hs.
    unfold update_session_totals.
    destruct (in_integer _ && in_integer _); cbn [snd].
    + assert (E : active_sessions (User.id user)
                    (set_counting_sessions
                       (update_where_id CountingSession.id
                          (CountingSession.id cs)
                          (CountingSession.set_totals
                             (CountingSession.total_bins_counted cs + 1)
                             (CountingSession.total_qty_counted cs + q))
                          (counting_sessions st1)) st1)
                  = orphans
                    ++ update_where_id CountingSession.id
                         (CountingSession.id cs)
                         (CountingSession.set_totals
                            (CountingSession.total_bins_counted cs + 1)
                            (CountingSession.total_qty_counted cs + q))
                         extra).
      { rewrite active_sessions_set_totals.
        rewrite (active_sessions_same_sessions _ st st1 Hs), Hact.
        rewrite update_where_id_app. f_equal.
        apply update_where_id_absent. intros s Hs'.
        now apply (Hcur cs eq_refl). }
      rewrite loadData_several by (rewrite E; apply Hlen).
      split; [eexists; exact E|]. cbn [currentSession].
      unchanged_page Hcur.
    + assert (E : active_sessions (User.id user) st1 = orphans ++ extra)
        by (now rewrite (active_sessions_same_sessions _ st st1 Hs)).
      rewrite loadData_several by (rewrite E; apply Hlen).
      split; [eexists; exact E|]. cbn [currentSession].
      unchanged_page Hcur.
  - split; [now exists extra | unchanged_page Hcur].
  - (* ClickEnd *)
    unfold endCounting.
    destruct (currentSession c) as [cs|] eqn:Hc; cbn [fst snd];
      [|split; [now exists extra | unchanged_page Hcur]].
    match goal with
    | |- context [insert_worker_efficiency ?wh ?d ?u ?b ?q ?m ?s ?r ?s0] =>
        pose proof (insert_worker_efficiency_cases wh d u b q m s r s0)
          as (_ & _ & Hs & _);
        set (st2 := snd (insert_worker_efficiency wh d u b q m s r s0)) in *
    end.
    cbv zeta in Hs.
    assert (E : active_sessions (User.id user) st2
                = orphans
                  ++ filter (fun r => negb (Nat.eqb (CountingSession.id r)
                                             (CountingSession.id cs)))
                       extra).
    { rewrite (active_sessions_same_sessions _ _ _ Hs).
      rewrite active_sessions_close, Hact, filter_app. f_equal.
      apply forallb_filter_id. apply forallb_forall. intros s Hs'.
      apply negb_true_iff, Nat.eqb_neq. now apply (Hcur cs eq_refl). }
    rewrite loadData_several by (rewrite E; apply Hlen).
    split; [eexists; exact E|]. cbn [currentSession setCurrentSession].
    discriminate.
Qed.

(** X22. Two active sessions of one worker are never repaired from the
    page. If the store holds two or more active sessions of the worker
    when a page is opened, the query for the active session never
    finds a single row: whatever the worker does on that page, each of
    those sessions stays in the store as it is, active, and the session
    the page shows, if any, is none of them. *)
Theorem orphaned_sessions_stay_active (user : User.t) (st : Store)
    (tr : list Action) :
  (2 <= List.length (active_sessions (User.id user) st))%nat ->
  let w := run user (initial, st) tr in
  forall s, In s (active_sessions (User.id user) st) ->
    In s (active_sessions (User.id user) (snd w))
    /\ forall cs, currentSession (fst w) = Some cs ->
                  CountingSession.id s <> CountingSession.id cs.
Proof.
  intros H2 w. subst w.
  set (orphans := active_sessions (User.id user) st) in *.
  assert (G : forall c st' extra,
             active_sessions (User.id user) st' = orphans ++ extra ->
             (forall cs, currentSession c = Some cs ->
                         forall s, In s orphans ->
                                   CountingSession.id s
                                   <> CountingSession.id cs) ->
             (exists later,
                 active_sessions (User.id user) (snd (run user (c, st') tr))
                 = orphans ++ later)
             /\ (forall cs,
                    currentSession (fst (run user (c, st') tr)) = Some cs ->
                    forall s, In s orphans ->
                              CountingSession.id s
                              <> CountingSession.id cs)).
  { induction tr as [|a tr IH]; intros c st' extra Hact Hcur.
    - split; [now exists extra | exact Hcur].
    - unfold run. cbn [fold_left]. fold (run user (step user (c, st') a) tr).
      destruct (step_keeps_orphans user orphans a c st' extra H2 Hact Hcur)
        as ((extra' & Hact') & Hcur').
      destruct (step user (c, st') a) as [c1 st1]. cbn [fst snd] in *.
      exact (IH c1 st1 extra' Hact' Hcur'). }
  destruct (G initial st []) as ((later & E) & Hpage).
  - now rewrite app_nil_r.
  - discriminate.
  - intros s Hs. split.
    + rewrite E. apply in_or_app. now left.
    + intros cs Hcs. exact (Hpage cs Hcs s Hs).
Qed.

Lemma orphaned_sessions_stay_active_witness :
  let a := CountingSession.mk 1 3 0 None active 0 0 in
  let b := CountingSession.mk 2 3 500 None active 0 0 in
  let st := set_counting_sessions [a; b] Sample.store0 in
  let w := run Sample.worker1 (initial, st)
             [Reload; ClickStart 1000; ClickEnd 2000 2001; Reload] in
  In a (active_sessions 3 (snd w)).
Proof.
  cbv zeta.
  apply (orphaned_sessions_stay_active Sample.worker1
           (set_counting_sessions
              [CountingSession.mk 1 3 0 None active 0 0;
               CountingSession.mk 2 3 500 None active 0 0] Sample.store0)
           [Reload; ClickStart 1000; ClickEnd 2000 2001; Reload]).
  - simpl. lia.
  - simpl. now left.
Defined.

End Unchecked.

(** ** Today's records and the search box *)

Section WorkerPage.
Import Worker WorkerView.

Lemma fold_left_add_from (qs : list CountingRecord.t) (a : Z) :
  fold_left (fun sum record => sum + CountingRecord.qty_counted record) qs a
  = a + fold_left
          (fun sum record => sum + CountingRecord.qty_counted record) qs 0.
Proof.
  revert a. induction qs as [|r qs IH]; intros a; cbn [fold_left]; [lia|].
  rewrite (IH (a + _)), (IH (0 + _)). lia.
Qed.

(** X23. A count that the store takes shows in the worker's records of
    the day. The page was loaded at clock [loaded] and shows the records
    the store holds for that day; a quantity between 0 and [2^31 - 1]
    is confirmed at clock [now], and [confirmQuantity] loads the page
    again at clock [now'], all three on one day. The list of today's
    records then has the new record on top of what it had, "today's
    bins" grows by one and "today's quantity" by the quantity counted. *)
Theorem counted_bin_shows_today (user : User.t) (wh : string)
    (loaded now now' : timestamp) (rnd : Q) (c : Client) (st : Store)
    (bin : BinMaster.t) (q : Z) (cs : CountingSession.t) :
  User.warehouse_name user = Some wh ->
  selectedBin c = Some bin -> quantity c = Some q ->
  currentSession c = Some cs ->
  has_session (CountingSession.id cs) st = true ->
  (0 <= rnd)%Q -> (rnd < 1)%Q ->
  0 <= q <= 2 ^ 31 - 1 ->
  date_of loaded = date_of now ->
  date_of now' = date_of now ->
  let w := confirmQuantity user now rnd c st in
  let before := stats (todayRecords user loaded st) c in
  let after := stats (todayRecords user now' (snd w)) (fst w) in
  (exists r,
      todayRecords user now' (snd w) = r :: todayRecords user loaded st
      /\ CountingRecord.bin_no r = BinMaster.bin_code bin
      /\ CountingRecord.qty_counted r = q)
  /\ todayBins after = S (todayBins before)
  /\ todayQty after = todayQty before + q.
Proof.
  intros Hw Hb Hq Hc Hs R0 R1 Q0 Hd Hd' w before after.
  destruct (confirmQuantity_writes user now rnd c st bin q cs Hb Hq Hc)
    as (_ & _ & _ & Kr).
  assert (Iq : in_integer q = true) by (apply in_integer_spec; lia).
  rewrite Iq, (mockBookQty_in_integer rnd R0 R1), Hw, Hs in Kr.
  change (in_integer 0) with true in Kr. cbn [andb] in Kr. fold w in Kr.
  assert (E : todayRecords user now' (snd w)
              = CountingRecord.mk
                  (fresh_id (map CountingRecord.id (counting_records st)))
                  (CountingSession.id cs) wh (date_of now) "TL1"
                  (User.username user) (BinMaster.bin_code bin) q None
                  (Some (mockBookQty rnd)) (Some 0) None
                :: todayRecords user loaded st).
  { unfold todayRecords. rewrite Kr, filter_app, Hd, Hd'.
    cbn [filter CountingRecord.username CountingRecord.date].
    rewrite String.eqb_refl, Z.leb_refl. cbn [andb].
    now rewrite rev_unit. }
  split; [|split].
  - eexists. split; [exact E|]. split; reflexivity.
  - subst after before. unfold stats. cbn [todayBins].
    rewrite E. reflexivity.
  - subst after before. unfold stats. cbn [todayQty].
    rewrite E. cbn [fold_left CountingRecord.qty_counted].
    rewrite fold_left_add_from. lia.
Qed.

Lemma counted_bin_shows_today_witness :
  let cs := CountingSession.mk 1 3 0 None active 0 0 in
  let st := set_counting_sessions [cs] Sample.store0 in
  let c := mkClient (Some cs) (Some Sample.A001) (Some 85) true in
  let w := confirmQuantity Sample.worker1 1000 (1 # 2) c st in
  todayQty (stats (todayRecords Sample.worker1 1500 (snd w)) (fst w)) = 85.
Proof.
  cbv zeta.
  destruct (counted_bin_shows_today Sample.worker1 "Warehouse A" 500 1000
              1500 (1 # 2)
              (mkClient (Some (CountingSession.mk 1 3 0 None active 0 0))
                 (Some Sample.A001) (Some 85) true)
              (set_counting_sessions
                 [CountingSession.mk 1 3 0 None active 0 0] Sample.store0)
              Sample.A001 85 (CountingSession.mk 1 3 0 None active 0 0))
    as (_ & _ & H);
    [reflexivity | reflexivity | reflexivity | reflexivity | reflexivity
    | lra | lra | lia | reflexivity | reflexivity |].
  exact H.
Defined.

End WorkerPage.

Section Search.
Import WorkerView.

Lemma append_assoc (a b c : string) :
  ((a ++ b) ++ c = a ++ (b ++ c))%string.
Proof. induction a as [|x a IH]; simpl; [reflexivity | now rewrite IH]. Qed.

Lemma prefix_app (t s : string) :
  prefix t s = true <-> exists u, s = (t ++ u)%string.
Proof.
  revert s. induction t as [|a t IH]; intros s.
  - split; [intros _; now exists s | intros _; now destruct s].
  - destruct s as [|b s]; simpl.
    + split; [discriminate | intros (u & E); discriminate].
    + destruct (ascii_dec a b) as [->|N].
      * rewrite IH. split; intros (u & E); exists u; [now rewrite E|].
        now injection E.
      * split; [discriminate|]. intros (u & E). injection E as E1 _.
        now elim N.
Qed.

Lemma includes_unfold (s t : string) :
  includes s t
  = prefix t s
    || match s with
       | EmptyString => false
       | String _ s' => includes s' t
       end.
Proof. destruct s; reflexivity. Qed.

Lemma includes_app (s t : string) :
  includes s t = true <-> exists u v, s = (u ++ t ++ v)%string.
Proof.
  induction s as [|c s IH]; rewrite includes_unfold, orb_true_iff.
  - split.
    + intros [H|H]; [|discriminate]. apply prefix_app in H.
      destruct H as (v & E). now exists EmptyString, v.
    + intros (u & v & E). left. apply prefix_app.
      destruct u; [now exists v | discriminate].
  - split.
    + intros [H|H].
      * apply prefix_app in H. destruct H as (v & E).
        now exists EmptyString, v.
      * apply IH in H. destruct H as (u & v & E).
        exists (String c u), v. simpl. now rewrite E.
    + intros (u & v & E). destruct u as [|x u].
      * left. apply prefix_app. now exists v.
      * right. apply IH. injection E as _ E. now exists u, v.
Qed.

Lemma toLowerCase_app (a b : string) :
  toLowerCase (a ++ b) = (toLowerCase a ++ toLowerCase b)%string.
Proof. induction a as [|x a IH]; simpl; [reflexivity | now rewrite IH]. Qed.

Lemma includes_refl (s : string) : includes s s = true.
Proof.
  apply includes_app. exists EmptyString, EmptyString. simpl.
  induction s as [|c s IH]; simpl; [reflexivity | now rewrite <- IH].
Qed.

Lemma includes_trans (s t u : string) :
  includes s t = true -> includes t u = true -> includes s u = true.
Proof.
  rewrite !includes_app. intros (a & b & ->) (c & d & ->).
  exists (a ++ c)%string, (d ++ b)%string.
  now rewrite !append_assoc.
Qed.

Lemma includes_toLowerCase (s t : string) :
  includes s t = true -> includes (toLowerCase s) (toLowerCase t) = true.
Proof.
  rewrite !includes_app. intros (a & b & ->).
  exists (toLowerCase a), (toLowerCase b). now rewrite !toLowerCase_app.
Qed.

Lemma toLowerCase_empty (s : string) :
  toLowerCase s = EmptyString -> s = EmptyString.
Proof. destruct s; [reflexivity | discriminate]. Qed.

Lemma filteredBins_In (t : string) (bins : list BinMaster.t)
    (b : BinMaster.t) :
  In b (filteredBins t bins)
  <-> In b bins /\ (t = EmptyString \/ matches t b = true).
Proof.
  unfold filteredBins. destruct t as [|c t].
  - tauto.
  - rewrite filter_In. intuition discriminate.
Qed.

(** X24. The search box finds a bin by any part of its code or of its
    location, typed in any letter case: if [part] occurs in the code or
    the location of a bin of the list, every term that differs from
    [part] in the case of its letters only shows that bin. (Text is
    ASCII.) *)
Theorem bin_is_found_by_any_part_of_its_text (bins : list BinMaster.t)
    (b : BinMaster.t) (part typed : string) :
  ascii_text (BinMaster.bin_code b) = true ->
  ascii_text (BinMaster.location b) = true ->
  ascii_text typed = true ->
  In b bins ->
  includes (BinMaster.bin_code b) part = true
  \/ includes (BinMaster.location b) part = true ->
  toLowerCase typed = toLowerCase part ->
  In b (filteredBins typed bins).
Proof.
  intros _ _ _ Hin Hpart Hcase. apply filteredBins_In. split; [exact Hin|].
  right. unfold matches. rewrite Hcase. apply orb_true_iff.
  destruct Hpart as [H|H]; [left|right]; now apply includes_toLowerCase.
Qed.

Lemma bin_is_found_by_any_part_of_its_text_witness :
  In Sample.A002 (filteredBins "level 2" [Sample.A001; Sample.A002]).
Proof.
  apply (bin_is_found_by_any_part_of_its_text [Sample.A001; Sample.A002]
           Sample.A002 "Level 2" "level 2");
    [reflexivity | reflexivity | reflexivity | simpl; tauto
    | right; reflexivity | reflexivity].
Defined.

(** X25. Typing on narrows the search: if the term [t] occurs in the
    term [t'], every bin shown for [t'] is shown for [t]; and whatever
    the term, the bins shown are bins of the list, in the order of the
    list. (Text is ASCII.) *)
Theorem longer_search_term_narrows (t t' : string)
    (bins : list BinMaster.t) :
  ascii_text t = true -> ascii_text t' = true ->
  Forall (fun b => ascii_text (BinMaster.bin_code b) = true
                   /\ ascii_text (BinMaster.location b) = true) bins ->
  includes t' t = true ->
  incl (filteredBins t' bins) (filteredBins t bins)
  /\ exists shown, filteredBins t' bins = filter shown bins.
Proof.
  intros _ _ _ H. split.
  - intros b Hb. apply filteredBins_In in Hb. apply filteredBins_In.
    destruct Hb as [Hin [->|Hm]]; (split; [exact Hin|]).
    + left. apply includes_app in H. destruct H as (u & v & E).
      destruct u; [destruct t; [reflexivity | discriminate] | discriminate].
    + right. unfold matches in *. apply orb_true_iff in Hm.
      apply orb_true_iff. apply includes_toLowerCase in H.
      destruct Hm as [Hm|Hm]; [left|right];
        exact (includes_trans _ _ _ Hm H).
  - unfold filteredBins. destruct t' as [|c t''].
    + exists (fun _ => true). induction bins as [|x l IH]; [reflexivity|].
      cbn [filter]. now rewrite <- IH.
    + now exists (matches (String c t'')).
Qed.

Lemma longer_search_term_narrows_witness :
  incl (filteredBins "A00" [Sample.A001; Sample.A002])
       (filteredBins "A0" [Sample.A001; Sample.A002]).
Proof.
  apply (longer_search_term_narrows "A0" "A00" [Sample.A001; Sample.A002]);
    [reflexivity | reflexivity | repeat constructor | reflexivity].
Defined.

End Search.
